(** * ONTAP SAN storage driver: create / resize / destroy / import

    A shallow embedding of [storage_drivers/ontap/ontap_san.go]
    (methods [Create], [Import], [Destroy] and [Resize] of
    [SANStorageDriver]) and the properties of its provisioning and
    capacity-reconciliation logic.

    The driver talks to a remote storage controller through [d.API].  A
    driver method is embedded as a finite interaction tree ([Prog]): every
    controller call is a node whose children are indexed by the reply, so
    a statement about a method quantifies over every possible controller.
    [exec p tr a] says that [p] can run with the call/reply trace [tr] and
    return [a]; [run] executes a program against a concrete controller.

    Logging ([log.*]) and the [DebugTraceFlags] tracing have no effect on
    results or on controller calls and are left out. *)

From Stdlib Require Import ZArith List Bool Ascii String Lia.
From Stdlib Require Import DecimalString.
Import ListNotations.
Local Open Scope string_scope.
Local Open Scope Z_scope.
Local Open Scope list_scope.

(** ** Go integers and [strconv] *)

Module GoInt.

(** [uint64(x)]: conversion wraps modulo 2^64. *)
Definition uint64 (z : Z) : Z := z mod 2 ^ 64.

(** [int64(x)] and, on the 64-bit platforms the driver runs on, [int(x)]. *)
Definition int64 (z : Z) : Z := (z + 2 ^ 63) mod 2 ^ 64 - 2 ^ 63.
Definition int (z : Z) : Z := int64 z.

Definition is_uint64 (z : Z) : Prop := 0 <= z < 2 ^ 64.
Definition is_int (z : Z) : Prop := - 2 ^ 63 <= z < 2 ^ 63.

(** [strconv.FormatUint(z, 10)] for [z] a uint64. *)
Definition FormatUint (z : Z) : string :=
  NilZero.string_of_uint (N.to_uint (Z.to_N z)).

(** [strconv.FormatInt(z, 10)]. *)
Definition FormatInt (z : Z) : string :=
  NilZero.string_of_int (Z.to_int z).

Definition digit (a : ascii) : option Z :=
  let n := Z.of_nat (nat_of_ascii a) in
  if (48 <=? n) && (n <=? 57) then Some (n - 48) else None.

Fixpoint parseDigits (s : string) (acc : Z) : option Z :=
  match s with
  | EmptyString => Some acc
  | String a s' =>
      match digit a with
      | Some d => parseDigits s' (10 * acc + d)
      | None => None
      end
  end.

(** [strconv.ParseUint(s, 10, 64)]: [None] stands for the syntax and
    range errors. *)
Definition ParseUint (s : string) : option Z :=
  match s with
  | EmptyString => None
  | _ =>
      match parseDigits s 0 with
      | Some z => if z <? 2 ^ 64 then Some z else None
      | None => None
      end
  end.

(** [strconv.ParseBool]. *)
Definition ParseBool (s : string) : option bool :=
  if existsb (String.eqb s) ["1"; "t"; "T"; "TRUE"; "true"; "True"] then Some true
  else if existsb (String.eqb s) ["0"; "f"; "F"; "FALSE"; "false"; "False"] then Some false
  else None.

End GoInt.

(** ** Go [strings] *)

Module GoStrings.

(** A Go string is the sequence of its bytes, in UTF-8.  The white space
    of [unicode.IsSpace] is U+0009..U+000D, U+0020, U+0085, U+00A0,
    U+1680, U+2000..U+200A, U+2028, U+2029, U+202F, U+205F and U+3000.
    The first six are one byte. *)
Definition isSpace (a : ascii) : bool :=
  let n := nat_of_ascii a in
  ((9 <=? n) && (n <=? 13))%nat || (n =? 32)%nat.

(** U+0085 and U+00A0 are the bytes C2 85 and C2 A0. *)
Definition isSpace2 (a b : ascii) : bool :=
  let a := nat_of_ascii a in
  let b := nat_of_ascii b in
  (a =? 194)%nat && ((b =? 133) || (b =? 160))%nat.

(** U+1680 is E1 9A 80; U+2000..U+200A, U+2028, U+2029 and U+202F are
    E2 80 followed by 80..8A, A8, A9 and AF; U+205F is E2 81 9F; U+3000
    is E3 80 80. *)
Definition isSpace3 (a b c : ascii) : bool :=
  let a := nat_of_ascii a in
  let b := nat_of_ascii b in
  let c := nat_of_ascii c in
  ((a =? 225) && (b =? 154) && (c =? 128))%nat
  || ((a =? 226) && (b =? 128)
      && (((128 <=? c) && (c <=? 138)) || (c =? 168) || (c =? 169)
          || (c =? 175)))%nat
  || ((a =? 226) && (b =? 129) && (c =? 159))%nat
  || ((a =? 227) && (b =? 128) && (c =? 128))%nat.

(** [strings.TrimLeftFunc(s, unicode.IsSpace)]: the runes are decoded
    from the front; bytes that do not encode a white space rune end the
    trimming. *)
Fixpoint trimLeft (l : list ascii) : list ascii :=
  match l with
  | [] => []
  | a :: l1 =>
      if isSpace a then trimLeft l1
      else
        match l1 with
        | [] => l
        | b :: l2 =>
            if isSpace2 a b then trimLeft l2
            else
              match l2 with
              | [] => l
              | c :: l3 => if isSpace3 a b c then trimLeft l3 else l
              end
        end
  end.

(** [strings.TrimRightFunc(s, unicode.IsSpace)] on the bytes in reverse
    order: the last rune is decoded from the end, so [l] starts with the
    last byte of the string. *)
Fixpoint trimRight (l : list ascii) : list ascii :=
  match l with
  | [] => []
  | c :: l1 =>
      if isSpace c then trimRight l1
      else
        match l1 with
        | [] => l
        | b :: l2 =>
            if isSpace2 b c then trimRight l2
            else
              match l2 with
              | [] => l
              | a :: l3 => if isSpace3 a b c then trimRight l3 else l
              end
        end
  end.

(** [strings.TrimSpace]: leading and trailing white space removed. *)
Definition TrimSpace (s : string) : string :=
  string_of_list_ascii
    (rev (trimRight (rev (trimLeft (list_ascii_of_string s))))).

(** [strings.HasSuffix]:
    [len(s) >= len(suffix) && s[len(s)-len(suffix):] == suffix]. *)
Definition HasSuffix (s suffix : string) : bool :=
  (String.length suffix <=? String.length s)%nat
  && String.eqb
       (substring (String.length s - String.length suffix)
                  (String.length suffix) s)
       suffix.

End GoStrings.

(** ** Errors *)

(** An argument of a [fmt.Errorf] / [fmt.Sprintf] format. *)
Inductive fmtArg (E : Type) : Type :=
| AStr (s : string)
| AInt (z : Z)
| AErr (e : E).
Arguments AStr {E} s.
Arguments AInt {E} z.
Arguments AErr {E} e.

(** Go [error] values the driver builds or receives.  [Errorf] keeps the
    format string of the source and its arguments; [Panic] stands for a
    run-time panic (a nil dereference), which is no [error] value in Go
    but ends the call. *)
#[local] Set Warnings "-register-all".
Inductive error : Type :=
| Errorf (format : string) (args : list (fmtArg error))
| ZapiError (code reason : string)
| VolumeExistsError (name : string)
| BackendIneligibleError (name : string) (errs : list error) (pools : list string)
| OtherError (msg : string)
| Panic (msg : string).

(** [nil] is [None]. *)
Definition goerror : Type := option error.

(** ** Controller replies *)

(** Modelled from the spec: the reply types of the azgo package and
    [api.NewZapiError] are not in this file.  Section 6: a reply carries a
    domain status that can be failed even when the transport error is
    nil; a failed status has a code and a reason. *)
Inductive ZapiStatus : Type :=
| Passed
| Failed (code reason : string).

Definition IsPassed (z : ZapiStatus) : bool :=
  match z with Passed => true | Failed _ _ => false end.

Record LunCreateResponse : Type :=
  { lunCreateStatus : ZapiStatus; ActualSize : Z }.

Record LunGetGeometryResponse : Type :=
  { lunGeometryStatus : ZapiStatus; MaxResizeSize : Z }.

Record InitiatorGroupInfo : Type :=
  { InitiatorGroupName : string; LunId : Z }.

Record LunMapListInfoResponse : Type :=
  { lunMapStatus : ZapiStatus;
    InitiatorGroupsPtr : option (list InitiatorGroupInfo) }.

Record VolumeIdAttributesType : Type :=
  { TypePtr : option string }.

Record VolumeAttributesType : Type :=
  { VolumeIdAttributesPtr : option VolumeIdAttributesType }.

Record LunInfoType : Type :=
  { Path : string;
    OnlinePtr : option bool;
    SizePtr : option Z;
    MappedPtr : option bool }.

(** Modelled from the spec: [api.GetError] is not part of the driver's
    file.  Section 6: every verb returns [(response, transportError)] and
    the engine extracts a domain error from the response even when the
    transport error is nil.  A non-nil transport error wins; a nil
    response is an error; otherwise the reply's status decides. *)
Definition GetError {R : Type} (status : R -> ZapiStatus)
    (response : option R) (err : goerror) : goerror :=
  match err with
  | Some e => Some e
  | None =>
      match response with
      | None => Some (OtherError "nil result")
      | Some r =>
          match status r with
          | Passed => None
          | Failed code reason => Some (ZapiError code reason)
          end
      end
  end.

(** ** Driver data *)

(** The keys of [storagePool.InternalAttributes] that the driver reads
    (package-level string constants of the ontap package). *)
Module Attr.
Inductive PoolAttribute : Type :=
| Size | SpaceAllocation | SpaceReserve | SnapshotPolicy | SnapshotReserve
| UnixPermissions | ExportPolicy | SecurityStyle | Encryption | TieringPolicy
| FileSystemType | SplitOnClone.
End Attr.

(** [storage.Pool]; a missing map key reads as the empty string. *)
Record Pool : Type :=
  { Name : string;
    InternalAttributes : Attr.PoolAttribute -> string }.

(** The fields of [storage.VolumeConfig] the four methods touch. *)
Record VolumeConfig : Type :=
  { InternalName : string;
    Size : string;
    ImportNotManaged : bool }.

(** [volConfig.Size = s]. *)
Definition setSize (volConfig : VolumeConfig) (s : string) : VolumeConfig :=
  {| InternalName := volConfig.(InternalName);
     Size := s;
     ImportNotManaged := volConfig.(ImportNotManaged) |}.

(** [lunPath(name)]: [fmt.Sprintf("/vol/%v/lun0", name)]. *)
Definition lunPath (name : string) : string :=
  ("/vol/" ++ name ++ "/lun0")%string.

(** ** Controller calls *)

(** The methods of [d.API] the driver calls, with their arguments, and
    the helpers of the package that take the API client and are not part
    of this file ([checkAggregateLimits], [checkAggregateLimitsForFlexvol],
    [GetISCSITargetInfo]) or act on the host
    ([utils.PrepareDeviceForRemoval]). *)
Inductive Call : Type :=
| VolumeExists (name : string)
| VolumeCreate (name aggregate size spaceReserve snapshotPolicy unixPermissions
                exportPolicy securityStyle tieringPolicy : string)
               (encrypt : bool) (snapshotReserve : Z)
| VolumeSize (name : string)
| VolumeSetSize (name newSize : string)
| VolumeGet (name : string)
| VolumeRename (name newName : string)
| VolumeDestroy (name : string) (force : bool)
| LunCreate (lunPath : string) (sizeInBytes : Z) (osType : string)
            (qos spaceAllocation : bool)
| LunSetAttribute (lunPath attribute fstype : string)
| LunDestroy (lunPath : string)
| LunGetGeometry (lunPath : string)
| LunResize (lunPath : string) (sizeBytes : Z)
| LunGet (path : string)
| LunRename (path newPath : string)
| LunMapListInfo (lunPath : string)
| TieringPolicyValue
| SupportsFeature (feature : string)
| checkAggregateLimits (aggregate spaceReserve : string) (requestedSize : Z)
| checkAggregateLimitsForFlexvol (flexvol : string) (requestedSize : Z)
| GetISCSITargetInfo
| PrepareDeviceForRemoval (lunID : Z) (iSCSINodeName : string).

(** The Go result of each call; a pointer that may be nil is an option. *)
Definition result (c : Call) : Type :=
  match c with
  | VolumeExists _ => bool * goerror
  | VolumeCreate _ _ _ _ _ _ _ _ _ _ _ => option ZapiStatus * goerror
  | VolumeSize _ => Z * goerror
  | VolumeSetSize _ _ => option ZapiStatus * goerror
  | VolumeGet _ => option VolumeAttributesType * goerror
  | VolumeRename _ _ => option ZapiStatus * goerror
  | VolumeDestroy _ _ => option ZapiStatus * goerror
  | LunCreate _ _ _ _ _ => option LunCreateResponse * goerror
  | LunSetAttribute _ _ _ => option ZapiStatus * goerror
  | LunDestroy _ => option ZapiStatus * goerror
  | LunGetGeometry _ => option LunGetGeometryResponse * goerror
  | LunResize _ _ => Z * goerror
  | LunGet _ => option LunInfoType * goerror
  | LunRename _ _ => option ZapiStatus * goerror
  | LunMapListInfo _ => option LunMapListInfoResponse * goerror
  | TieringPolicyValue => string
  | SupportsFeature _ => bool
  | checkAggregateLimits _ _ _ => goerror
  | checkAggregateLimitsForFlexvol _ _ => goerror
  | GetISCSITargetInfo => string * list string * goerror
  | PrepareDeviceForRemoval _ _ => unit
  end.

(** Calls that change state on the controller. *)
Definition mutates (c : Call) : bool :=
  match c with
  | VolumeCreate _ _ _ _ _ _ _ _ _ _ _ | VolumeSetSize _ _ | VolumeRename _ _
  | VolumeDestroy _ _ | LunCreate _ _ _ _ _ | LunSetAttribute _ _ _
  | LunDestroy _ | LunResize _ _ | LunRename _ _ => true
  | _ => false
  end.

(** One call together with the reply it got. *)
Definition Event : Type := { c : Call & result c }.
Definition Ev (c : Call) (r : result c) : Event := existT result c r.
Definition Trace : Type := list Event.

Definition callOf (e : Event) : Call := projT1 e.
Definition calls (tr : Trace) : list Call := map callOf tr.

(** ** Programs over the controller *)

Inductive Prog (A : Type) : Type :=
| Ret (a : A)
| Vis (c : Call) (k : result c -> Prog A).
Arguments Ret {A} a.
Arguments Vis {A} c k.

Notation "x <- c ;; k" := (Vis c (fun x => k))
  (at level 61, c at next level, right associativity).
Notation "' pat <- c ;; k" := (Vis c (fun x => match x with pat => k end))
  (at level 61, pat pattern, c at next level, right associativity).

(** [exec p tr a]: some controller makes [p] issue exactly the calls of
    [tr], get the replies of [tr], and return [a]. *)
Fixpoint exec {A : Type} (p : Prog A) (tr : Trace) (a : A) : Prop :=
  match p with
  | Ret x => tr = [] /\ a = x
  | Vis c k => exists (r : result c) (tr' : Trace),
      tr = Ev c r :: tr' /\ exec (k r) tr' a
  end.

(** A controller with state [W]. *)
Definition Controller (W : Type) : Type := forall c : Call, W -> result c * W.

Fixpoint run {W A : Type} (h : Controller W) (p : Prog A) (w : W)
  : A * Trace * W :=
  match p with
  | Ret x => (x, [], w)
  | Vis c k =>
      let '(r, w1) := h c w in
      let '(a, tr, w2) := run h (k r) w1 in
      (a, Ev c r :: tr, w2)
  end.

(** *** Observations on traces *)

(** The error, if any, that [api.GetError] reads from the reply of a
    volume create call. *)
Definition volumeCreateError (e : Event) : goerror :=
  match e with
  | existT _ c r =>
      match c return result c -> goerror with
      | VolumeCreate _ _ _ _ _ _ _ _ _ _ _ => fun r => GetError id (fst r) (snd r)
      | _ => fun _ => None
      end r
  end.

(** The Flexvols the controller has acknowledged creating, in order. *)
Definition createdVolume (e : Event) : option string :=
  match e with
  | existT _ c r =>
      match c return result c -> option string with
      | VolumeCreate name _ _ _ _ _ _ _ _ _ _ =>
          fun r => match GetError id (fst r) (snd r) with
                   | None => Some name
                   | Some _ => None
                   end
      | _ => fun _ => None
      end r
  end.

Fixpoint createdVolumes (tr : Trace) : list string :=
  match tr with
  | [] => []
  | e :: tr' =>
      match createdVolume e with
      | Some name => name :: createdVolumes tr'
      | None => createdVolumes tr'
      end
  end.

(** The calls of the capacity reconciliation: reading and setting the
    Flexvol size. *)
Definition reconcileCall (c : Call) : bool :=
  match c with
  | VolumeSize _ | VolumeSetSize _ _ => true
  | _ => false
  end.

(** A reconciliation call that failed. *)
Definition reconcileFailed (e : Event) : bool :=
  match e with
  | existT _ c r =>
      match c return result c -> bool with
      | VolumeSize _ => fun r => match snd r with Some _ => true | None => false end
      | VolumeSetSize _ _ =>
          fun r => match GetError id (fst r) (snd r) with
                   | Some _ => true
                   | None => false
                   end
      | _ => fun _ => false
      end r
  end.

(** The LUN resize call succeeded. *)
Definition lunResized (e : Event) : bool :=
  match e with
  | existT _ c r =>
      match c return result c -> bool with
      | LunResize _ _ => fun r => match snd r with None => true | Some _ => false end
      | _ => fun _ => false
      end r
  end.

(** The size a successful LUN resize call reported. *)
Definition lunResizedTo (e : Event) : option Z :=
  match e with
  | existT _ c r =>
      match c return result c -> option Z with
      | LunResize _ _ =>
          fun r => match snd r with None => Some (fst r) | Some _ => None end
      | _ => fun _ => None
      end r
  end.

(** The type the controller reports for a volume, when it reports one. *)
Definition volumeType (flexvol : VolumeAttributesType) : option string :=
  match flexvol.(VolumeIdAttributesPtr) with
  | Some volumeIdAttrs => volumeIdAttrs.(TypePtr)
  | None => None
  end.

(** [lunInfo] with the online flag set to [online]. *)
Definition withOnline (lunInfo : LunInfoType) (online : bool) : LunInfoType :=
  {| Path := lunInfo.(Path);
     OnlinePtr := Some online;
     SizePtr := lunInfo.(SizePtr);
     MappedPtr := lunInfo.(MappedPtr) |}.

(** A volume of type [type]. *)
Definition volumeOfType (type : string) : VolumeAttributesType :=
  {| VolumeIdAttributesPtr := Some {| TypePtr := Some type |} |}.

(** Replies seen in a trace. *)
Definition destroyReply (e : Event) : option (option ZapiStatus * goerror) :=
  match e with
  | existT _ c r =>
      match c return result c -> option (option ZapiStatus * goerror) with
      | VolumeDestroy _ _ => fun r => Some r
      | _ => fun _ => None
      end r
  end.

(** ** The driver *)

Section Driver.

(** [drivers.CommonStorageDriverConfig] and [map[string]sa.Request]
    are only handed on to helpers. *)
Context {CommonConfig VolAttributes : Type}.

(** [map[string]string] and [map[string]*storage.Pool]. *)
Definition Opts : Type := string -> option string.
Definition PoolMap : Type := string -> option Pool.

Record OntapStorageDriverConfig : Type :=
  { CommonStorageDriverConfig : CommonConfig;
    DriverContext : string;
    IgroupName : string }.

Record SANStorageDriver : Type :=
  { Config : OntapStorageDriverConfig;
    physicalPools : PoolMap;
    virtualPools : PoolMap }.

(** Constants and pure helpers of other packages of the repository that
    the driver uses; their definitions are not in this file. *)
Record Package : Type :=
  { EAPIERROR : string;            (* azgo.EAPIERROR *)
    EVOLUMEDOESNOTEXIST : string;  (* azgo.EVOLUMEDOESNOTEXIST *)
    ContextDocker : string;        (* tridentconfig.ContextDocker *)
    SANResizeDelta : Z;            (* tridentconfig.SANResizeDelta *)
    LUNAttributeFSType : string;
    LunGeometrySkip : string;      (* api.LunGeometrySkip *)
    getPoolsForCreate :
      VolumeConfig -> Pool -> VolAttributes -> PoolMap -> PoolMap ->
      list Pool * goerror;
    ConvertSizeToBytes : string -> string * goerror;
    GetVolumeSize : Z -> string -> Z * goerror;
    GetVolumeOpts :
      SANStorageDriver -> VolumeConfig -> VolAttributes -> Opts * goerror;
    GetV : Opts -> string -> string -> string;
    CheckVolumeSizeLimits : Z -> CommonConfig -> goerror;
    GetSnapshotReserve : string -> string -> Z * goerror;
    CheckSupportedFilesystem : string -> string -> string * goerror }.

Variable pkg : Package.
Variable d : SANStorageDriver.

(** *** Destroy *)

(** The loop of [Destroy] over the initiator groups: the LUN id of the
    last group named [d.Config.IgroupName], or -1. *)
Definition findLunID (groups : list InitiatorGroupInfo) : Z :=
  fold_left
    (fun lunID g =>
       if String.eqb g.(InitiatorGroupName) d.(Config).(IgroupName)
       then g.(LunId) else lunID)
    groups (-1).

(** Lines 572-586: the end of [Destroy], the delete call and the reading
    of its reply. *)
Definition deleteFlexvol (name : string) : Prog goerror :=
  (* Delete the Flexvol & LUN *)
  '(volDestroyResponse, err) <- VolumeDestroy name true ;;
  match err with
  | Some e =>
      Ret (Some (Errorf "error destroying volume %v: %v" [AStr name; AErr e]))
  | None =>
      match volDestroyResponse with
      | None => Ret (Some (Panic "nil pointer dereference"))
      | Some Passed => Ret None
      | Some (Failed code reason) =>
          (* Handle case where the Destroy is passed to every Docker Swarm
             node *)
          if String.eqb code pkg.(EVOLUMEDOESNOTEXIST) then Ret None
          else Ret (Some (Errorf "error destroying volume %v: %v"
                                 [AStr name; AErr (ZapiError code reason)]))
      end
  end.

(** What the reply to the delete call makes of [Destroy]. *)
Definition deleteOutcome (name : string) (reply : option ZapiStatus * goerror)
  : goerror :=
  match reply with
  | (_, Some err) =>
      Some (Errorf "error destroying volume %v: %v" [AStr name; AErr err])
  | (None, None) => Some (Panic "nil pointer dereference")
  | (Some Passed, None) => None
  | (Some (Failed code reason), None) =>
      if String.eqb code pkg.(EVOLUMEDOESNOTEXIST) then None
      else Some (Errorf "error destroying volume %v: %v"
                        [AStr name; AErr (ZapiError code reason)])
  end.

Definition Destroy (name : string) : Prog goerror :=
  (* Validate Flexvol exists before trying to destroy *)
  '(volExists, err) <- VolumeExists name ;;
  match err with
  | Some e =>
      Ret (Some (Errorf "error checking for existing volume: %v" [AErr e]))
  | None =>
      if negb volExists then Ret None
      else if String.eqb d.(Config).(DriverContext) pkg.(ContextDocker) then
        (* Get target info *)
        '(iSCSINodeName, _, err) <- GetISCSITargetInfo ;;
        match err with
        | Some e => Ret (Some e)
        | None =>
            (* Get the LUN ID *)
            '(lunMapResponse, err) <- LunMapListInfo (lunPath name) ;;
            match err with
            | Some e =>
                Ret (Some (Errorf "error reading LUN maps for volume %s: %v"
                                  [AStr name; AErr e]))
            | None =>
                match lunMapResponse with
                | None => Ret (Some (Panic "nil pointer dereference"))
                | Some resp =>
                    let lunID :=
                      match resp.(InitiatorGroupsPtr) with
                      | Some groups => findLunID groups
                      | None => -1
                      end in
                    if 0 <=? lunID then
                      (* Inform the host about the device removal *)
                      _ <- PrepareDeviceForRemoval lunID iSCSINodeName ;;
                      deleteFlexvol name
                    else deleteFlexvol name
                end
            end
        end
      else deleteFlexvol name
  end.

(** *** Create *)

(** The test of line 284-286 on a volume-create error: a ZAPI error with
    code [azgo.EAPIERROR] whose trimmed reason ends in "Job exists". *)
Definition isJobExists (err : error) : bool :=
  match err with
  | ZapiError code reason =>
      String.eqb code pkg.(EAPIERROR)
      && GoStrings.HasSuffix (GoStrings.TrimSpace reason) "Job exists"
  | _ => false
  end.

Section CreateLoop.

(** The locals of [Create] that the loop over the physical pools reads. *)
Variables (volConfig : VolumeConfig) (storagePool : Pool).
Variables (name size spaceReserve snapshotPolicy unixPermissions
           exportPolicy securityStyle tieringPolicy fstype : string).
Variables (sizeBytes snapshotReserveInt : Z).
Variables (spaceAllocation enableEncryption : bool).

(** Lines 326-351: the new Flexvol is resized to the size of the LUN,
    then [return nil]. *)
Definition createReconcile (lunSize : Z) : Prog (VolumeConfig * goerror) :=
  '(initialVolumeSize, err) <- VolumeSize name ;;
  match err with
  | Some _ => Ret (volConfig, None)
  | None =>
      if negb (lunSize =? GoInt.uint64 initialVolumeSize) then
        '(volumeSizeResponse, err) <-
           VolumeSetSize name (GoInt.FormatUint lunSize) ;;
        match GetError id volumeSizeResponse err with
        | Some _ =>
            Ret (setSize volConfig
                   (GoInt.FormatUint (GoInt.uint64 initialVolumeSize)), None)
        | None =>
            '(adjustedVolumeSize, err) <- VolumeSize name ;;
            match err with
            | Some _ => Ret (volConfig, None)
            | None =>
                Ret (setSize volConfig
                       (GoInt.FormatUint (GoInt.uint64 adjustedVolumeSize)),
                     None)
            end
        end
      else Ret (volConfig, None)
  end.

(** Lines 264-355: [for _, physicalPool := range physicalPools]; a
    [continue] is the recursive call, and the last line of [Create]
    is the empty case. *)
Fixpoint createLoop (physicalPools : list Pool) (createErrors : list error)
    (physicalPoolNames : list string) : Prog (VolumeConfig * goerror) :=
  match physicalPools with
  | [] =>
      (* All physical pools that were eligible ultimately failed, so
         don't try this backend again *)
      Ret (volConfig,
           Some (BackendIneligibleError name createErrors physicalPoolNames))
  | physicalPool :: rest =>
      let aggregate := physicalPool.(Name) in
      let physicalPoolNames := (physicalPoolNames ++ [aggregate]) in
      aggrLimitsErr <- checkAggregateLimits aggregate spaceReserve sizeBytes ;;
      match aggrLimitsErr with
      | Some aggrLimitsErr =>
          createLoop rest
            (createErrors ++
               [Errorf "ONTAP-SAN pool %s/%s; error: %v"
                  [AStr storagePool.(Name); AStr aggregate; AErr aggrLimitsErr]])
            physicalPoolNames
      | None =>
      (* Create the volume *)
      '(volCreateResponse, err) <-
         VolumeCreate name aggregate size spaceReserve snapshotPolicy
           unixPermissions exportPolicy securityStyle tieringPolicy
           enableEncryption snapshotReserveInt ;;
      match GetError id volCreateResponse err with
      | Some err =>
          (* Handle case where the Create is passed to every Docker
             Swarm node *)
          if isJobExists err then Ret (volConfig, None)
          else
            createLoop rest
              (createErrors ++
                 [Errorf "ONTAP-SAN pool %s/%s; error creating volume %s: %v"
                    [AStr storagePool.(Name); AStr aggregate; AStr name; AErr err]])
              physicalPoolNames
      | None =>
      let lunPath := lunPath name in
      let osType := "linux" in
      (* Create the LUN *)
      '(lunCreateResponse, err) <-
         LunCreate lunPath (GoInt.int sizeBytes) osType false spaceAllocation ;;
      match GetError lunCreateStatus lunCreateResponse err with
      | Some err =>
          createLoop rest
            (createErrors ++
               [Errorf "ONTAP-SAN pool %s/%s; error creating LUN %s: %v"
                  [AStr storagePool.(Name); AStr aggregate; AStr name; AErr err]])
            physicalPoolNames
      | None =>
      (* Save the fstype in a LUN attribute so we know what to do in
         Attach *)
      '(attrResponse, err) <-
         LunSetAttribute lunPath pkg.(LUNAttributeFSType) fstype ;;
      match GetError id attrResponse err with
      | Some err =>
          (* defer d.API.LunDestroy(lunPath) *)
          _ <- LunDestroy lunPath ;;
          Ret (volConfig,
               Some (Errorf "ONTAP-SAN pool %s/%s; error saving file system type for LUN %s: %v"
                       [AStr storagePool.(Name); AStr aggregate; AStr name; AErr err]))
      | None =>
      (* Save the context; a failure is only logged *)
      _ <- LunSetAttribute lunPath "context" d.(Config).(DriverContext) ;;
      match lunCreateResponse with
      | None => Ret (volConfig, Some (Panic "nil pointer dereference"))
      | Some response =>
          createReconcile (GoInt.uint64 response.(ActualSize))
      end
      end
      end
      end
      end
  end.

(** The calls of one turn of the loop on [physicalPool], and the errors
    the turn appends to [createErrors] or returns. *)
Definition limitsCall (physicalPool : Pool) : Call :=
  checkAggregateLimits physicalPool.(Name) spaceReserve sizeBytes.

Definition volumeCreateCall (physicalPool : Pool) : Call :=
  VolumeCreate name physicalPool.(Name) size spaceReserve snapshotPolicy
    unixPermissions exportPolicy securityStyle tieringPolicy
    enableEncryption snapshotReserveInt.

Definition lunCreateCall : Call :=
  LunCreate (lunPath name) (GoInt.int sizeBytes) "linux" false spaceAllocation.

Definition fstypeCall : Call :=
  LunSetAttribute (lunPath name) pkg.(LUNAttributeFSType) fstype.

Definition contextCall : Call :=
  LunSetAttribute (lunPath name) "context" d.(Config).(DriverContext).

Definition limitsError (physicalPool : Pool) (err : error) : error :=
  Errorf "ONTAP-SAN pool %s/%s; error: %v"
    [AStr storagePool.(Name); AStr physicalPool.(Name); AErr err].

Definition volumeError (physicalPool : Pool) (err : error) : error :=
  Errorf "ONTAP-SAN pool %s/%s; error creating volume %s: %v"
    [AStr storagePool.(Name); AStr physicalPool.(Name); AStr name; AErr err].

Definition lunError (physicalPool : Pool) (err : error) : error :=
  Errorf "ONTAP-SAN pool %s/%s; error creating LUN %s: %v"
    [AStr storagePool.(Name); AStr physicalPool.(Name); AStr name; AErr err].

Definition fstypeError (physicalPool : Pool) (err : error) : error :=
  Errorf "ONTAP-SAN pool %s/%s; error saving file system type for LUN %s: %v"
    [AStr storagePool.(Name); AStr physicalPool.(Name); AStr name; AErr err].

(** How the controller makes a candidate fail with a recorded error: at
    the aggregate limits check, at the volume create call, or at the LUN
    create call after the volume was created. *)
Inductive Failure : Type :=
| FailLimits (aggrLimitsErr : error)
| FailVolumeCreate (volReply : option ZapiStatus * goerror)
| FailLunCreate (volReply : option ZapiStatus * goerror)
                (lunReply : option LunCreateResponse * goerror).

(** The replies of [f] are replies of that failure. *)
Definition isFailure (f : Failure) : bool :=
  match f with
  | FailLimits _ => true
  | FailVolumeCreate (resp, err) =>
      match GetError id resp err with
      | Some err => negb (isJobExists err)
      | None => false
      end
  | FailLunCreate (resp, err) (lunResp, lunErr) =>
      match GetError id resp err, GetError lunCreateStatus lunResp lunErr with
      | None, Some _ => true
      | _, _ => false
      end
  end.

(** The calls and replies of the turn on [physicalPool] that fails by [f]. *)
Definition failureTrace (pf : Pool * Failure) : Trace :=
  let physicalPool := fst pf in
  match snd pf with
  | FailLimits e => [Ev (limitsCall physicalPool) (Some e)]
  | FailVolumeCreate volReply =>
      [Ev (limitsCall physicalPool) None;
       Ev (volumeCreateCall physicalPool) volReply]
  | FailLunCreate volReply lunReply =>
      [Ev (limitsCall physicalPool) None;
       Ev (volumeCreateCall physicalPool) volReply;
       Ev lunCreateCall lunReply]
  end.

(** The error that turn appends to [createErrors]. *)
Definition failureError (pf : Pool * Failure) : error :=
  let physicalPool := fst pf in
  match snd pf with
  | FailLimits e => limitsError physicalPool e
  | FailVolumeCreate (resp, err) =>
      match GetError id resp err with
      | Some e => volumeError physicalPool e
      | None => volumeError physicalPool (OtherError "")
      end
  | FailLunCreate _ (lunResp, lunErr) =>
      match GetError lunCreateStatus lunResp lunErr with
      | Some e => lunError physicalPool e
      | None => lunError physicalPool (OtherError "")
      end
  end.

(** The turn got as far as creating the Flexvol. *)
Definition leavesVolume (pf : Pool * Failure) : bool :=
  match snd pf with
  | FailLunCreate _ _ => true
  | _ => false
  end.

End CreateLoop.

Definition Create (volConfig : VolumeConfig) (storagePool : Pool)
    (volAttributes : VolAttributes) : Prog (VolumeConfig * goerror) :=
  let name := volConfig.(InternalName) in
  let attr := storagePool.(InternalAttributes) in
  (* If the volume already exists, bail out *)
  '(volExists, err) <- VolumeExists name ;;
  match err with
  | Some e =>
      Ret (volConfig,
           Some (Errorf "error checking for existing volume: %v" [AErr e]))
  | None =>
  if volExists then Ret (volConfig, Some (VolumeExistsError name)) else
  (* Get candidate physical pools *)
  let '(physicalPools, err) :=
    pkg.(getPoolsForCreate) volConfig storagePool volAttributes
      d.(physicalPools) d.(virtualPools) in
  match err with
  | Some e => Ret (volConfig, Some e)
  | None =>
  (* Determine volume size in bytes *)
  let '(requestedSize, err) := pkg.(ConvertSizeToBytes) volConfig.(Size) in
  match err with
  | Some e =>
      Ret (volConfig,
           Some (Errorf "could not convert volume size %s: %v"
                        [AStr volConfig.(Size); AErr e]))
  | None =>
  match GoInt.ParseUint requestedSize with
  | None =>
      Ret (volConfig,
           Some (Errorf "%v is an invalid volume size: %v"
                        [AStr volConfig.(Size); AErr (OtherError "strconv.ParseUint")]))
  | Some sizeBytes =>
  let '(sizeBytes, err) := pkg.(GetVolumeSize) sizeBytes (attr Attr.Size) in
  match err with
  | Some e => Ret (volConfig, Some e)
  | None =>
  (* Get options *)
  let '(opts, err) := pkg.(GetVolumeOpts) d volConfig volAttributes in
  match err with
  | Some e => Ret (volConfig, Some e)
  | None =>
  (* Get options with default fallback values *)
  let size := GoInt.FormatUint sizeBytes in
  let spaceAllocation :=
    match GoInt.ParseBool
            (pkg.(GetV) opts "spaceAllocation" (attr Attr.SpaceAllocation)) with
    | Some b => b
    | None => false
    end in
  let spaceReserve := pkg.(GetV) opts "spaceReserve" (attr Attr.SpaceReserve) in
  let snapshotPolicy := pkg.(GetV) opts "snapshotPolicy" (attr Attr.SnapshotPolicy) in
  let snapshotReserve := pkg.(GetV) opts "snapshotReserve" (attr Attr.SnapshotReserve) in
  let unixPermissions := pkg.(GetV) opts "unixPermissions" (attr Attr.UnixPermissions) in
  let exportPolicy := pkg.(GetV) opts "exportPolicy" (attr Attr.ExportPolicy) in
  let securityStyle := pkg.(GetV) opts "securityStyle" (attr Attr.SecurityStyle) in
  let encryption := pkg.(GetV) opts "encryption" (attr Attr.Encryption) in
  let tieringPolicy := pkg.(GetV) opts "tieringPolicy" (attr Attr.TieringPolicy) in
  match pkg.(CheckVolumeSizeLimits) sizeBytes d.(Config).(CommonStorageDriverConfig) with
  | Some e => Ret (volConfig, Some e)
  | None =>
  match GoInt.ParseBool encryption with
  | None =>
      Ret (volConfig,
           Some (Errorf "invalid boolean value for encryption: %v"
                        [AErr (OtherError "strconv.ParseBool")]))
  | Some enableEncryption =>
  let '(snapshotReserveInt, err) :=
    pkg.(GetSnapshotReserve) snapshotPolicy snapshotReserve in
  match err with
  | Some e =>
      Ret (volConfig,
           Some (Errorf "invalid value for snapshotReserve: %v" [AErr e]))
  | None =>
  let '(fstype, err) :=
    pkg.(CheckSupportedFilesystem)
      (pkg.(GetV) opts "fstype|fileSystemType" (attr Attr.FileSystemType)) name in
  match err with
  | Some e => Ret (volConfig, Some e)
  | None =>
  let loop (tieringPolicy : string) : Prog (VolumeConfig * goerror) :=
    createLoop volConfig storagePool name size spaceReserve snapshotPolicy
      unixPermissions exportPolicy securityStyle tieringPolicy fstype
      sizeBytes snapshotReserveInt spaceAllocation enableEncryption
      physicalPools [] [] in
  if String.eqb tieringPolicy "" then
    tieringPolicy <- TieringPolicyValue ;;
    loop tieringPolicy
  else loop tieringPolicy
  end
  end
  end
  end
  end
  end
  end
  end
  end
  end.

(** *** Resize *)

(** Modelled from the spec: [utils.VolumeSizeWithinTolerance] is not in
    this file.  Section 8: the sizes are the same when
    |x - currentSize| <= tolerance; the arithmetic is Go's int64. *)
Definition VolumeSizeWithinTolerance (requestedSize currentSize delta : Z)
  : bool * goerror :=
  let sizeDiff := GoInt.int64 (requestedSize - currentSize) in
  let sizeDiff := if sizeDiff <? 0 then GoInt.int64 (- sizeDiff) else sizeDiff in
  (sizeDiff <=? delta, None).

Definition Resize (volConfig : VolumeConfig) (sizeBytes : Z)
  : Prog (VolumeConfig * goerror) :=
  let name := volConfig.(InternalName) in
  (* Validation checks *)
  '(volExists, err) <- VolumeExists name ;;
  match err with
  | Some _ =>
      Ret (volConfig, Some (Errorf "error occurred checking for existing volume" []))
  | None =>
  if negb volExists then
    Ret (volConfig, Some (Errorf "volume %s does not exist" [AStr name]))
  else
  '(volSize, err) <- VolumeSize name ;;
  match err with
  | Some _ =>
      Ret (volConfig, Some (Errorf "error occurred when checking volume size" []))
  | None =>
  let '(sameSize, err) :=
    VolumeSizeWithinTolerance (GoInt.int64 sizeBytes) (GoInt.int64 volSize)
                              pkg.(SANResizeDelta) in
  match err with
  | Some e => Ret (volConfig, Some e)
  | None =>
  if sameSize then
    Ret (setSize volConfig (GoInt.FormatUint (GoInt.uint64 volSize)), None)
  else
  let volSizeBytes := GoInt.uint64 volSize in
  if sizeBytes <? volSizeBytes then
    Ret (volConfig,
         Some (Errorf "requested size %d is less than existing volume size %d"
                      [AInt sizeBytes; AInt volSizeBytes]))
  else
  aggrLimitsErr <- checkAggregateLimitsForFlexvol name sizeBytes ;;
  match aggrLimitsErr with
  | Some e => Ret (volConfig, Some e)
  | None =>
  match pkg.(CheckVolumeSizeLimits) sizeBytes d.(Config).(CommonStorageDriverConfig) with
  | Some e => Ret (volConfig, Some e)
  | None =>
  (* Resize operations *)
  let lunPath := lunPath name in
  let resize : Prog (VolumeConfig * goerror) :=
    (* Resize FlexVol *)
    '(response, err) <- VolumeSetSize name (GoInt.FormatUint sizeBytes) ;;
    match response with
    | None => Ret (volConfig, Some (Panic "nil pointer dereference"))
    | Some _ =>
    match GetError id response err with
    | Some _ => Ret (volConfig, Some (Errorf "volume resize failed" []))
    | None =>
    (* Resize LUN0 *)
    '(returnSize, err) <- LunResize lunPath (GoInt.int sizeBytes) ;;
    match err with
    | Some _ => Ret (volConfig, Some (Errorf "volume resize failed" []))
    | None =>
    let finish (volConfig : VolumeConfig) : Prog (VolumeConfig * goerror) :=
      Ret (setSize volConfig (GoInt.FormatUint returnSize), None) in
    (* Resize FlexVol to be the same size or bigger than LUN because ONTAP
       creates larger LUNs sometimes based on internal geometry *)
    '(initialVolumeSize, err) <- VolumeSize name ;;
    match err with
    | Some _ => finish volConfig
    | None =>
        if negb (returnSize =? GoInt.uint64 initialVolumeSize) then
          '(volumeSizeResponse, err) <-
             VolumeSetSize name (GoInt.FormatUint returnSize) ;;
          match GetError id volumeSizeResponse err with
          | Some _ =>
              finish (setSize volConfig
                        (GoInt.FormatUint (GoInt.uint64 initialVolumeSize)))
          | None =>
              '(adjustedVolumeSize, err) <- VolumeSize name ;;
              match err with
              | Some _ => finish volConfig
              | None =>
                  finish (setSize volConfig
                            (GoInt.FormatUint (GoInt.uint64 adjustedVolumeSize)))
              end
          end
        else finish volConfig
    end
    end
    end
    end in
  supportsSkip <- SupportsFeature pkg.(LunGeometrySkip) ;;
  if negb supportsSkip then
    (* Check LUN geometry and verify LUN max size. *)
    '(lunGeometry, err) <- LunGetGeometry lunPath ;;
    match err with
    | Some _ => Ret (volConfig, Some (Errorf "volume resize failed" []))
    | None =>
        match lunGeometry with
        | None => Ret (volConfig, Some (Panic "nil pointer dereference"))
        | Some geometry =>
            let lunMaxSize := geometry.(MaxResizeSize) in
            if lunMaxSize <? GoInt.int sizeBytes then
              Ret (volConfig,
                   Some (Errorf "volume resize failed as requested size is larger than LUN's maximum capacity" []))
            else resize
        end
    end
  else resize
  end
  end
  end
  end
  end.

(** *** Import *)

(** Lines 435-490 of [Import]: the validation of the volume and of its
    LUN once both have been read, and the renames.  [lunInfo] is first
    dereferenced by the online check. *)
Definition importValidate (volConfig : VolumeConfig) (originalName : string)
    (flexvol : VolumeAttributesType) (lunInfo : option LunInfoType)
  : Prog (VolumeConfig * goerror) :=
  let targetPath := ("/vol/" ++ originalName ++ "/lun0")%string in
  (* Validate the volume is what it should be *)
  let typeErr : goerror :=
    match flexvol.(VolumeIdAttributesPtr) with
    | Some volumeIdAttrs =>
        match volumeIdAttrs.(TypePtr) with
        | Some type =>
            if negb (String.eqb type "rw") then
              Some (Errorf "volume %s type is %s, not rw"
                           [AStr originalName; AStr type])
            else None
        | None => None
        end
    | None => None
    end in
  match typeErr with
  | Some e => Ret (volConfig, Some e)
  | None =>
  match lunInfo with
  | None => Ret (volConfig, Some (Panic "nil pointer dereference"))
  | Some lunInfo =>
  (* The LUN should be online *)
  let onlineErr : goerror :=
    match lunInfo.(OnlinePtr) with
    | Some online =>
        if negb online then
          Some (Errorf "LUN %s is not online" [AStr lunInfo.(Path)])
        else None
    | None => None
    end in
  match onlineErr with
  | Some e => Ret (volConfig, Some e)
  | None =>
  (* Use the LUN size *)
  match lunInfo.(SizePtr) with
  | None =>
      Ret (volConfig,
           Some (Errorf "volume %s size not available" [AStr originalName]))
  | Some size =>
  let volConfig := setSize volConfig (GoInt.FormatInt (GoInt.int64 size)) in
  (* Rename the volume or LUN if Trident will manage its lifecycle *)
  if negb volConfig.(ImportNotManaged) then
    let renameVolume : Prog (VolumeConfig * goerror) :=
      '(renameResponse, err) <-
         VolumeRename originalName volConfig.(InternalName) ;;
      match GetError id renameResponse err with
      | Some e =>
          Ret (volConfig,
               Some (Errorf "volume %s rename failed: %v"
                            [AStr originalName; AErr e]))
      | None => Ret (volConfig, None)
      end in
    if negb (String.eqb lunInfo.(Path) targetPath) then
      '(renameResponse, err) <- LunRename lunInfo.(Path) targetPath ;;
      match GetError id renameResponse err with
      | Some e =>
          Ret (volConfig,
               Some (Errorf "LUN path %s rename failed: %v"
                            [AStr lunInfo.(Path); AErr e]))
      | None => renameVolume
      end
    else renameVolume
  else
    (* Volume import is not managed by Trident *)
    match flexvol.(VolumeIdAttributesPtr) with
    | None =>
        Ret (volConfig,
             Some (Errorf "unable to read volume id attributes of volume %s"
                          [AStr originalName]))
    | Some _ =>
        if negb (String.eqb lunInfo.(Path) targetPath) then
          Ret (volConfig,
               Some (Errorf "Could not import volume, LUN is nammed incorrectly: %s"
                            [AStr lunInfo.(Path)]))
        else
          match lunInfo.(MappedPtr) with
          | Some false =>
              Ret (volConfig,
                   Some (Errorf "Could not import volume, LUN is not mapped: %s"
                                [AStr lunInfo.(Path)]))
          | _ => Ret (volConfig, None)
          end
    end
  end
  end
  end
  end.

Definition Import (volConfig : VolumeConfig) (originalName : string)
  : Prog (VolumeConfig * goerror) :=
  (* Ensure the volume exists *)
  '(flexvol, err) <- VolumeGet originalName ;;
  match err with
  | Some e => Ret (volConfig, Some e)
  | None =>
      match flexvol with
      | None =>
          Ret (volConfig,
               Some (Errorf "volume %s not found" [AStr originalName]))
      | Some flexvol =>
          (* Ensure the volume has only one LUN *)
          '(lunInfo, err) <- LunGet ("/vol/" ++ originalName ++ "/*")%string ;;
          match err with
          | Some e => Ret (volConfig, Some e)
          | None => importValidate volConfig originalName flexvol lunInfo
          end
      end
  end.

(** The run of [Import] in which the controller reports [flexvol] and
    its one LUN [lunInfo]. *)
Definition importRun (volConfig : VolumeConfig) (originalName : string)
    (flexvol : VolumeAttributesType) (lunInfo : LunInfoType)
    (tr : Trace) (res : VolumeConfig * goerror) : Prop :=
  exec (Import volConfig originalName)
       (Ev (VolumeGet originalName) (Some flexvol, None)
        :: Ev (LunGet ("/vol/" ++ originalName ++ "/*")%string)
              (Some lunInfo, None)
        :: tr)
       res.

End Driver.

Arguments Package : clear implicits.
Arguments SANStorageDriver : clear implicits.
Arguments OntapStorageDriverConfig : clear implicits.

(** ** A concrete driver and concrete controllers *)

Module Demo.

Definition aggr1 : Pool :=
  {| Name := "aggr1"; InternalAttributes := fun _ => "" |}.
Definition aggr2 : Pool :=
  {| Name := "aggr2"; InternalAttributes := fun _ => "" |}.

(** The package with [candidates] as the pools [getPoolsForCreate] finds. *)
Definition pkgWith (candidates : list Pool) : Package unit unit :=
  {| EAPIERROR := "13001";
     EVOLUMEDOESNOTEXIST := "13040";
     ContextDocker := "docker";
     SANResizeDelta := 50000000;
     LUNAttributeFSType := "com.netapp.ndvp.fstype";
     LunGeometrySkip := "LUN_GEOMETRY_SKIP";
     getPoolsForCreate := fun _ _ _ _ _ => (candidates, None);
     ConvertSizeToBytes := fun s => (s, None);
     GetVolumeSize := fun z _ => (z, None);
     GetVolumeOpts := fun _ _ _ => (fun _ => None, None);
     GetV := fun opts key dflt =>
               match opts key with Some v => v | None => dflt end;
     CheckVolumeSizeLimits := fun _ _ => None;
     GetSnapshotReserve := fun _ _ => (0, None);
     CheckSupportedFilesystem := fun fs _ => (fs, None) |}.

Definition pkg : Package unit unit := pkgWith [aggr1; aggr2].

Definition driver (context : string) : SANStorageDriver unit :=
  {| Config := {| CommonStorageDriverConfig := tt;
                  DriverContext := context;
                  IgroupName := "trident" |};
     physicalPools := fun _ => None;
     virtualPools := fun _ => None |}.

Definition storagePool : Pool :=
  {| Name := "pool1";
     InternalAttributes := fun a =>
       match a with
       | Attr.Encryption => "false"
       | Attr.FileSystemType => "ext4"
       | Attr.TieringPolicy => "none"
       | Attr.SpaceReserve => "none"
       | _ => ""
       end |}.

Definition volConfig (size : string) : VolumeConfig :=
  {| InternalName := "vol1"; Size := size; ImportNotManaged := false |}.

(** A controller on which every call succeeds: no volume exists yet,
    sizes are reported as 1000 bytes. *)
Definition okReply (c : Call) : result c :=
  match c with
  | VolumeExists _ => (false, None)
  | VolumeCreate _ _ _ _ _ _ _ _ _ _ _ => (Some Passed, None)
  | VolumeSize _ => (1000, None)
  | VolumeSetSize _ _ => (Some Passed, None)
  | VolumeGet _ =>
      (Some {| VolumeIdAttributesPtr := Some {| TypePtr := Some "rw" |} |}, None)
  | VolumeRename _ _ => (Some Passed, None)
  | VolumeDestroy _ _ => (Some Passed, None)
  | LunCreate _ sizeInBytes _ _ _ =>
      (Some {| lunCreateStatus := Passed; ActualSize := sizeInBytes |}, None)
  | LunSetAttribute _ _ _ => (Some Passed, None)
  | LunDestroy _ => (Some Passed, None)
  | LunGetGeometry _ =>
      (Some {| lunGeometryStatus := Passed; MaxResizeSize := 2 ^ 40 |}, None)
  | LunResize _ sizeBytes => (sizeBytes, None)
  | LunGet path =>
      (Some {| Path := "/vol/vol0/lun0"; OnlinePtr := Some true;
               SizePtr := Some 1000; MappedPtr := Some true |}, None)
  | LunRename _ _ => (Some Passed, None)
  | LunMapListInfo _ =>
      (Some {| lunMapStatus := Passed; InitiatorGroupsPtr := None |}, None)
  | TieringPolicyValue => "none"
  | SupportsFeature _ => true
  | checkAggregateLimits _ _ _ => None
  | checkAggregateLimitsForFlexvol _ _ => None
  | GetISCSITargetInfo => ("iqn.1992-08.com.netapp:sn.1", [], None)
  | PrepareDeviceForRemoval _ _ => tt
  end.

(** A controller without state that answers call [c] with [reply c]. *)
Definition answering (reply : forall c : Call, result c) : Controller unit :=
  fun c w => (reply c, w).

(** The volume exists already. *)
Definition existing (c : Call) : result c :=
  match c with
  | VolumeExists _ => (true, None)
  | c' => okReply c'
  end.

(** The volume exists; deleting it fails with [status]. *)
Definition deleteFails (status : option ZapiStatus) (err : goerror)
    (c : Call) : result c :=
  match c with
  | VolumeDestroy _ _ => (status, err)
  | c' => existing c'
  end.

(** The LUN create call fails: the aggregate has no space left. *)
Definition lunCreateFails (c : Call) : result c :=
  match c with
  | LunCreate _ _ _ _ _ => (None, Some (OtherError "no space left on aggregate"))
  | c' => okReply c'
  end.

(** Setting a LUN attribute fails. *)
Definition setAttributeFails (c : Call) : result c :=
  match c with
  | LunSetAttribute _ _ _ => (Some (Failed "13115" "invalid attribute"), None)
  | c' => okReply c'
  end.

(** aggr1 is above its usage limit and aggr2 has no room for the volume. *)
Definition noSpace (c : Call) : result c :=
  match c with
  | checkAggregateLimits aggregate _ _ =>
      if String.eqb aggregate "aggr1"
      then Some (OtherError "aggregate usage above the limit")
      else None
  | VolumeCreate _ _ _ _ _ _ _ _ _ _ _ =>
      (Some (Failed "13001" "insufficient space"), None)
  | c' => okReply c'
  end.

(** Another node has submitted the same volume create. *)
Definition jobExists (c : Call) : result c :=
  match c with
  | VolumeCreate _ _ _ _ _ _ _ _ _ _ _ =>
      (Some (Failed "13001" "Job exists "), None)
  | c' => okReply c'
  end.

(** The volume exists and the controller rounds LUN sizes up by 2048
    bytes. *)
Definition rounding (c : Call) : result c :=
  match c with
  | LunResize _ sizeBytes => (sizeBytes + 2048, None)
  | c' => existing c'
  end.

(** The volume to import carries neither a type nor an online flag. *)
Definition untyped (c : Call) : result c :=
  match c with
  | VolumeGet _ =>
      (Some {| VolumeIdAttributesPtr := Some {| TypePtr := None |} |}, None)
  | LunGet _ =>
      (Some {| Path := "/vol/vol0/lun0"; OnlinePtr := None;
               SizePtr := Some 1000; MappedPtr := Some true |}, None)
  | c' => okReply c'
  end.

(** The locals of [Create] on [volConfig "1000"] and [storagePool]. *)
Definition loop (candidates : list Pool)
  : list Pool -> list error -> list string -> Prog (VolumeConfig * goerror) :=
  createLoop (pkgWith candidates) (driver "csi") (volConfig "1000") storagePool
    "vol1" "1000" "none" "" "" "" "" "none" "ext4" 1000 0 false false.

(** A controller that answers the successive [VolumeSize] calls with the
    replies it holds, in order, and every other call with [reply]. *)
Definition sizing (reply : forall c : Call, result c)
  : Controller (list (Z * goerror)) :=
  fun c w =>
    match c return result c * list (Z * goerror) with
    | VolumeSize name =>
        match w with
        | r :: w' => (r, w')
        | [] => (reply (VolumeSize name), [])
        end
    | c' => (reply c', w)
    end.

End Demo.


(** ** Further observations on traces *)

(** The calls [Create] can make. *)
Definition createCall (c : Call) : bool :=
  match c with
  | VolumeExists _ | TieringPolicyValue | checkAggregateLimits _ _ _
  | VolumeCreate _ _ _ _ _ _ _ _ _ _ _ | LunCreate _ _ _ _ _
  | LunSetAttribute _ _ _ | LunDestroy _ | VolumeSize _ | VolumeSetSize _ _ =>
      true
  | _ => false
  end.

Definition isLunDestroy (c : Call) : bool :=
  match c with LunDestroy _ => true | _ => false end.

(** The aggregate an aggregate limits check is about. *)
Definition limitsCheck (c : Call) : option string :=
  match c with
  | checkAggregateLimits aggregate _ _ => Some aggregate
  | _ => None
  end.

(** The aggregates checked in a trace, in order. *)
Fixpoint limitChecks (tr : Trace) : list string :=
  match tr with
  | [] => []
  | e :: tr' =>
      match limitsCheck (callOf e) with
      | Some aggregate => aggregate :: limitChecks tr'
      | None => limitChecks tr'
      end
  end.

(** The limits check on [aggregate] that found no violation. *)
Definition limitsPassedOn (aggregate : string) (e : Event) : bool :=
  match e with
  | existT _ c r =>
      match c return result c -> bool with
      | checkAggregateLimits a _ _ =>
          fun r => match r with
                   | None => String.eqb a aggregate
                   | Some _ => false
                   end
      | _ => fun _ => false
      end r
  end.

(** The aggregate a volume create call places the Flexvol on. *)
Definition volumeCreateOn (c : Call) : option string :=
  match c with
  | VolumeCreate _ aggregate _ _ _ _ _ _ _ _ _ => Some aggregate
  | _ => None
  end.

(** A Flexvol resize that the controller accepted. *)
Definition sizeSet (e : Event) : bool :=
  match e with
  | existT _ c r =>
      match c return result c -> bool with
      | VolumeSetSize _ _ =>
          fun r => match GetError id (fst r) (snd r) with
                   | None => true
                   | Some _ => false
                   end
      | _ => fun _ => false
      end r
  end.

(** A Flexvol resize that failed. *)
Definition sizeSetFailed (e : Event) : bool :=
  match e with
  | existT _ c r =>
      match c return result c -> bool with
      | VolumeSetSize _ _ =>
          fun r => match GetError id (fst r) (snd r) with
                   | None => false
                   | Some _ => true
                   end
      | _ => fun _ => false
      end r
  end.

(** The Flexvol size a successful size read returned. *)
Definition sizeRead (e : Event) : option Z :=
  match e with
  | existT _ c r =>
      match c return result c -> option Z with
      | VolumeSize _ =>
          fun r => match snd r with None => Some (fst r) | Some _ => None end
      | _ => fun _ => None
      end r
  end.

Definition isLunCreate (c : Call) : bool :=
  match c with LunCreate _ _ _ _ _ => true | _ => false end.

Definition isLunResize (c : Call) : bool :=
  match c with LunResize _ _ => true | _ => false end.

Definition isLunGetGeometry (c : Call) : bool :=
  match c with LunGetGeometry _ => true | _ => false end.

(** The LUN resize call failed. *)
Definition lunResizeFailed (e : Event) : bool :=
  match e with
  | existT _ c r =>
      match c return result c -> bool with
      | LunResize _ _ => fun r => match snd r with Some _ => true | None => false end
      | _ => fun _ => false
      end r
  end.

(** The maximum size a successful read of the LUN geometry reported. *)
Definition geometryMax (e : Event) : option Z :=
  match e with
  | existT _ c r =>
      match c return result c -> option Z with
      | LunGetGeometry _ =>
          fun r => match r with
                   | (Some geometry, None) => Some geometry.(MaxResizeSize)
                   | _ => None
                   end
      | _ => fun _ => None
      end r
  end.

(** The controller said that it supports a feature. *)
Definition featureSupported (e : Event) : bool :=
  match e with
  | existT _ c r =>
      match c return result c -> bool with
      | SupportsFeature _ => fun r => r
      | _ => fun _ => false
      end r
  end.

(** The LUN id and the target node name the host is told to forget. *)
Definition deviceRemoval (c : Call) : option (Z * string) :=
  match c with
  | PrepareDeviceForRemoval lunID iSCSINodeName => Some (lunID, iSCSINodeName)
  | _ => None
  end.

(** A rename of the LUN or of the Flexvol that failed. *)
Definition renameFailed (e : Event) : bool :=
  match e with
  | existT _ c r =>
      match c return result c -> bool with
      | LunRename _ _ =>
          fun r => match GetError id (fst r) (snd r) with
                   | Some _ => true
                   | None => false
                   end
      | VolumeRename _ _ =>
          fun r => match GetError id (fst r) (snd r) with
                   | Some _ => true
                   | None => false
                   end
      | _ => fun _ => false
      end r
  end.

(** ** The inventory of volumes *)

Module Inventory.

(** The fields of the azgo reply types that [getVolumeExternal] and
    [GetVolumeExternalWrappers] read.  The source reads them through
    accessors without a nil check, so the records hold the values
    themselves: a reply that lacks one of them is not covered. *)
Record VolumeIdAttributesType : Type :=
  { NamePtr : string;
    ContainingAggregateNamePtr : string }.

Record VolumeSnapshotAttributesType : Type :=
  { SnapshotPolicyPtr : string }.

Record VolumeAttributesType : Type :=
  { VolumeIdAttributesPtr : VolumeIdAttributesType;
    VolumeSnapshotAttributesPtr : VolumeSnapshotAttributesType }.

Record LunInfoType : Type :=
  { PathPtr : string;
    VolumePtr : string;
    SizePtr : Z }.

(** The replies of [VolumeGetAll] and [LunGetAll]: a status and the
    attribute list, which may be nil. *)
Record VolumeGetIterResponse : Type :=
  { volumesStatus : ZapiStatus;
    VolumeAttributesPtr : option (list VolumeAttributesType) }.

Record LunGetIterResponse : Type :=
  { lunsStatus : ZapiStatus;
    LunInfoPtr : option (list LunInfoType) }.

(** The string fields of the [storage.VolumeConfig] that
    [getVolumeExternal] builds; its other fields are constants of other
    packages. *)
Record VolumeConfig : Type :=
  { Name : string;
    InternalName : string;
    Size : string;
    SnapshotPolicy : string;
    ExportPolicy : string;
    SnapshotDir : string;
    UnixPermissions : string;
    StorageClass : string;
    BlockSize : string;
    FileSystem : string }.

Record VolumeExternal : Type :=
  { Config : VolumeConfig;
    Pool : string }.

Record VolumeExternalWrapper : Type :=
  { Volume : option VolumeExternal;
    Error : goerror }.

(** [strings.HasPrefix(s, prefix)]. *)
Definition HasPrefix (s prefix : string) : bool := String.prefix prefix s.

(** [s[n:]] for [n <= len(s)]. *)
Definition sliceFrom (s : string) (n : nat) : string :=
  String.substring n (String.length s - n) s.

(** [getVolumeExternal]; [StoragePrefix] is [*d.Config.StoragePrefix]. *)
Definition getVolumeExternal (StoragePrefix : string)
    (lunAttrs : LunInfoType) (volumeAttrs : VolumeAttributesType)
  : VolumeExternal :=
  let volumeIDAttrs := volumeAttrs.(VolumeIdAttributesPtr) in
  let volumeSnapshotAttrs := volumeAttrs.(VolumeSnapshotAttributesPtr) in
  let internalName := volumeIDAttrs.(NamePtr) in
  let name :=
    if HasPrefix internalName StoragePrefix
    then sliceFrom internalName (String.length StoragePrefix)
    else internalName in
  {| Config :=
       {| Name := name;
          InternalName := internalName;
          Size := GoInt.FormatInt (GoInt.int64 lunAttrs.(SizePtr));
          SnapshotPolicy := volumeSnapshotAttrs.(SnapshotPolicyPtr);
          ExportPolicy := EmptyString;
          SnapshotDir := "false";
          UnixPermissions := EmptyString;
          StorageClass := EmptyString;
          BlockSize := EmptyString;
          FileSystem := EmptyString |};
     Pool := volumeIDAttrs.(ContainingAggregateNamePtr) |}.

(** The Go map [volumeMap]: an assignment puts the entry in front, a
    lookup finds the entry assigned last. *)
Definition VolumeMap : Type := list (string * VolumeAttributesType).

Definition assign (m : VolumeMap) (key : string) (v : VolumeAttributesType)
  : VolumeMap :=
  (key, v) :: m.

Fixpoint lookup (m : VolumeMap) (key : string) : option VolumeAttributesType :=
  match m with
  | [] => None
  | (k, v) :: m' => if String.eqb k key then Some v else lookup m' key
  end.

(** Lines 856-863: the map of the volumes by internal name. *)
Definition makeVolumeMap (volumesResponse : VolumeGetIterResponse)
  : VolumeMap :=
  match volumesResponse.(VolumeAttributesPtr) with
  | Some volumes =>
      fold_left
        (fun volumeMap volumeAttrs =>
           let internalName :=
             volumeAttrs.(VolumeIdAttributesPtr).(NamePtr) in
           assign volumeMap internalName volumeAttrs)
        volumes []
  | None => []
  end.

(** Lines 867-876: the loop over the LUNs; what it sends, in order. *)
Fixpoint sendVolumes (StoragePrefix : string) (volumeMap : VolumeMap)
    (luns : list LunInfoType) : list VolumeExternalWrapper :=
  match luns with
  | [] => []
  | lun :: luns' =>
      match lookup volumeMap lun.(VolumePtr) with
      | None => sendVolumes StoragePrefix volumeMap luns'
      | Some volume =>
          {| Volume := Some (getVolumeExternal StoragePrefix lun volume);
             Error := None |}
          :: sendVolumes StoragePrefix volumeMap luns'
      end
  end.

(** [GetVolumeExternalWrappers]: the wrappers written to the channel
    before it is closed, in order.  The two reads of the controller are
    the functions [VolumeGetAll] and [LunGetAll]; the second is called
    only when the first succeeded.  After [GetError] has returned nil the
    response is not nil. *)
Definition GetVolumeExternalWrappers (StoragePrefix : string)
    (VolumeGetAll : string -> option VolumeGetIterResponse * goerror)
    (LunGetAll : string -> option LunGetIterResponse * goerror)
  : list VolumeExternalWrapper :=
  (* Get all volumes matching the storage prefix *)
  let '(volumesResponse, err) := VolumeGetAll StoragePrefix in
  match GetError volumesStatus volumesResponse err with
  | Some err => [ {| Volume := None; Error := Some err |} ]
  | None =>
  (* Get all LUNs named 'lun0' in volumes matching the storage prefix *)
  let lunPathPattern := ("/vol/" ++ (StoragePrefix ++ "*") ++ "/lun0")%string in
  let '(lunsResponse, err) := LunGetAll lunPathPattern in
  match GetError lunsStatus lunsResponse err with
  | Some err => [ {| Volume := None; Error := Some err |} ]
  | None =>
  match volumesResponse, lunsResponse with
  | Some volumesResponse, Some lunsResponse =>
      (* Make a map of volumes for faster correlation with LUNs *)
      let volumeMap := makeVolumeMap volumesResponse in
      (* Convert all LUNs to VolumeExternal and write them to the channel *)
      match lunsResponse.(LunInfoPtr) with
      | Some luns => sendVolumes StoragePrefix volumeMap luns
      | None => []
      end
  | _, _ => []
  end
  end
  end.

(** The internal names of the volumes a list of wrappers carries. *)
Fixpoint volumeNames (ws : list VolumeExternalWrapper) : list string :=
  match ws with
  | [] => []
  | w :: ws' =>
      match w.(Volume) with
      | Some v => v.(Config).(InternalName) :: volumeNames ws'
      | None => volumeNames ws'
      end
  end.

(** The controller reports a volume named [name]. *)
Definition reported (volumes : list VolumeAttributesType) (name : string)
  : bool :=
  existsb (fun v => String.eqb v.(VolumeIdAttributesPtr).(NamePtr) name)
          volumes.

End Inventory.

(** ** Updates of the backend *)

Module Update.

(** The flags of the storage package that [GetUpdateType] sets. *)
Inductive Flag : Type :=
| InvalidUpdate
| VolumeAccessInfoChange
| PasswordChange
| UsernameChange.

Definition Flag_eqb (f g : Flag) : bool :=
  match f, g with
  | InvalidUpdate, InvalidUpdate
  | VolumeAccessInfoChange, VolumeAccessInfoChange
  | PasswordChange, PasswordChange
  | UsernameChange, UsernameChange => true
  | _, _ => false
  end.

(** [roaring.Bitmap], a set of flags. *)
Definition Bitmap : Type := Flag -> bool.

Definition New : Bitmap := fun _ => false.

Definition Add (bitmap : Bitmap) (f : Flag) : Bitmap :=
  fun g => if Flag_eqb g f then true else bitmap g.

(** The fields of [d.Config] that [GetUpdateType] compares. *)
Record Credentials : Type :=
  { DataLIF : string;
    Password : string;
    Username : string }.

(** [GetUpdateType]; [driverOrig] is [None] when the type assertion of
    [driverOrig] to a SAN driver fails. *)
Definition GetUpdateType (d : Credentials) (driverOrig : option Credentials)
  : Bitmap :=
  let bitmap := New in
  match driverOrig with
  | None => Add bitmap InvalidUpdate
  | Some dOrig =>
      let bitmap :=
        if negb (String.eqb d.(DataLIF) dOrig.(DataLIF))
        then Add bitmap VolumeAccessInfoChange else bitmap in
      let bitmap :=
        if negb (String.eqb d.(Password) dOrig.(Password))
        then Add bitmap PasswordChange else bitmap in
      let bitmap :=
        if negb (String.eqb d.(Username) dOrig.(Username))
        then Add bitmap UsernameChange else bitmap in
      bitmap
  end.

End Update.

(** ** Further controllers *)

Module Scenario.

(** The volume exists and its LUN is mapped to two initiator groups, to
    the driver's group under id 7. *)
Definition mapped (c : Call) : result c :=
  match c with
  | LunMapListInfo _ =>
      (Some {| lunMapStatus := Passed;
               InitiatorGroupsPtr :=
                 Some [ {| InitiatorGroupName := "other"; LunId := 3 |};
                        {| InitiatorGroupName := "trident"; LunId := 7 |} ] |},
       None)
  | c' => Demo.existing c'
  end.

(** The volume exists; the controller needs the LUN geometry, and the
    LUN cannot grow beyond 1500000000 bytes. *)
Definition smallGeometry (c : Call) : result c :=
  match c with
  | SupportsFeature _ => false
  | LunGetGeometry _ =>
      (Some {| lunGeometryStatus := Passed; MaxResizeSize := 1500000000 |},
       None)
  | c' => Demo.existing c'
  end.

(** The volume exists; the LUN resize call fails. *)
Definition lunResizeFails (c : Call) : result c :=
  match c with
  | LunResize _ _ => (0, Some (OtherError "LUN is busy"))
  | c' => Demo.existing c'
  end.

(** The LUN of the volume to import is not at the target path. *)
Definition misplaced (c : Call) : result c :=
  match c with
  | LunGet _ =>
      (Some {| Path := "/vol/vol0/lun1"; OnlinePtr := Some true;
               SizePtr := Some 1000; MappedPtr := Some true |}, None)
  | c' => Demo.okReply c'
  end.

(** As [misplaced]; renaming the Flexvol fails. *)
Definition volumeRenameFails (c : Call) : result c :=
  match c with
  | VolumeRename _ _ => (Some (Failed "13001" "name in use"), None)
  | c' => misplaced c'
  end.

(** A volume to import that the orchestrator will not manage. *)
Definition unmanaged : VolumeConfig :=
  {| InternalName := "vol1"; Size := EmptyString; ImportNotManaged := true |}.

(** Two volumes on the controller, and three LUNs of which one is in a
    volume that was not reported. *)
Definition volumes : list Inventory.VolumeAttributesType :=
  [ {| Inventory.VolumeIdAttributesPtr :=
         {| Inventory.NamePtr := "trident_pvc1";
            Inventory.ContainingAggregateNamePtr := "aggr1" |};
       Inventory.VolumeSnapshotAttributesPtr :=
         {| Inventory.SnapshotPolicyPtr := "none" |} |};
    {| Inventory.VolumeIdAttributesPtr :=
         {| Inventory.NamePtr := "trident_pvc2";
            Inventory.ContainingAggregateNamePtr := "aggr2" |};
       Inventory.VolumeSnapshotAttributesPtr :=
         {| Inventory.SnapshotPolicyPtr := "default" |} |} ].

Definition luns : list Inventory.LunInfoType :=
  [ {| Inventory.PathPtr := "/vol/trident_pvc2/lun0";
       Inventory.VolumePtr := "trident_pvc2";
       Inventory.SizePtr := 2000 |};
    {| Inventory.PathPtr := "/vol/trident_gone/lun0";
       Inventory.VolumePtr := "trident_gone";
       Inventory.SizePtr := 3000 |};
    {| Inventory.PathPtr := "/vol/trident_pvc1/lun0";
       Inventory.VolumePtr := "trident_pvc1";
       Inventory.SizePtr := 1000 |} ].

Definition volumesResponse : Inventory.VolumeGetIterResponse :=
  {| Inventory.volumesStatus := Passed;
     Inventory.VolumeAttributesPtr := Some volumes |}.

Definition lunsResponse : Inventory.LunGetIterResponse :=
  {| Inventory.lunsStatus := Passed;
     Inventory.LunInfoPtr := Some luns |}.

Definition VolumeGetAll (prefix : string)
  : option Inventory.VolumeGetIterResponse * goerror :=
  (Some volumesResponse, None).

Definition LunGetAll (pattern : string)
  : option Inventory.LunGetIterResponse * goerror :=
  (Some lunsResponse, None).

(** The read of the LUNs fails. *)
Definition LunGetAllFails (pattern : string)
  : option Inventory.LunGetIterResponse * goerror :=
  (None, Some (OtherError "connection refused")).

(** The runs the controllers above give. *)

Definition create : Prog (VolumeConfig * goerror) :=
  Create Demo.pkg (Demo.driver "csi") (Demo.volConfig "1000")
         Demo.storagePool tt.

Definition resize : Prog (VolumeConfig * goerror) :=
  Resize Demo.pkg (Demo.driver "csi") (Demo.volConfig "1000") 2000000000.

Definition createOn (aggregate : string) : Call :=
  VolumeCreate "vol1" aggregate "1000" "none" "" "" "" "" "none" false 0.

(** [Create] up to the LUN on aggr1. *)
Definition lunCreated : Trace :=
  [Ev (VolumeExists "vol1") (false, None);
   Ev (checkAggregateLimits "aggr1" "none" 1000) None;
   Ev (createOn "aggr1") (Some Passed, None);
   Ev (LunCreate "/vol/vol1/lun0" 1000 "linux" false false)
      (Some {| lunCreateStatus := Passed; ActualSize := 1000 |}, None)].

(** [Create] against [Demo.setAttributeFails]. *)
Definition fstypeRejected : Event :=
  Ev (LunSetAttribute "/vol/vol1/lun0" "com.netapp.ndvp.fstype" "ext4")
     (Some (Failed "13115" "invalid attribute"), None).

Definition lunDestroyed : Event :=
  Ev (LunDestroy "/vol/vol1/lun0") (Some Passed, None).

Definition createAborted : Trace :=
  lunCreated ++ [fstypeRejected; lunDestroyed].

(** [Create] against [Demo.noSpace]. *)
Definition limitsChecked : Trace :=
  [Ev (VolumeExists "vol1") (false, None);
   Ev (checkAggregateLimits "aggr1" "none" 1000)
      (Some (OtherError "aggregate usage above the limit"));
   Ev (checkAggregateLimits "aggr2" "none" 1000) None].

Definition volumeRejected : Event :=
  Ev (createOn "aggr2") (Some (Failed "13001" "insufficient space"), None).

(** [Create] against [Demo.lunCreateFails]. *)
Definition lunRejected : Event :=
  Ev (LunCreate "/vol/vol1/lun0" 1000 "linux" false false)
     (None, Some (OtherError "no space left on aggregate")).

Definition lunsRejected : Trace :=
  [Ev (VolumeExists "vol1") (false, None);
   Ev (checkAggregateLimits "aggr1" "none" 1000) None;
   Ev (createOn "aggr1") (Some Passed, None);
   lunRejected;
   Ev (checkAggregateLimits "aggr2" "none" 1000) None;
   Ev (createOn "aggr2") (Some Passed, None);
   lunRejected].

(** [Create] on a controller that first reports a Flexvol of 900 bytes. *)
Definition attributesSet : Trace :=
  lunCreated
  ++ [Ev (LunSetAttribute "/vol/vol1/lun0" "com.netapp.ndvp.fstype" "ext4")
         (Some Passed, None);
      Ev (LunSetAttribute "/vol/vol1/lun0" "context" "csi") (Some Passed, None);
      Ev (VolumeSize "vol1") (900, None)].

Definition sizeAccepted : Event :=
  Ev (VolumeSetSize "vol1" "1000") (Some Passed, None).

Definition sizeReread : Event := Ev (VolumeSize "vol1") (1000, None).

(** [Resize] up to the geometry check. *)
Definition resizeChecked (supportsSkip : bool) : Trace :=
  [Ev (VolumeExists "vol1") (true, None);
   Ev (VolumeSize "vol1") (1000, None);
   Ev (checkAggregateLimitsForFlexvol "vol1" 2000000000) None;
   Ev (SupportsFeature "LUN_GEOMETRY_SKIP") supportsSkip].

(** [Resize] against [smallGeometry]. *)
Definition geometryRead : Event :=
  Ev (LunGetGeometry "/vol/vol1/lun0")
     (Some {| lunGeometryStatus := Passed; MaxResizeSize := 1500000000 |},
      None).

(** [Resize] against [lunResizeFails]. *)
Definition flexvolGrown : Trace :=
  resizeChecked true
  ++ [Ev (VolumeSetSize "vol1" "2000000000") (Some Passed, None)].

Definition lunBusy : Event :=
  Ev (LunResize "/vol/vol1/lun0" 2000000000)
     (0, Some (OtherError "LUN is busy")).

(** [Resize] against [Demo.rounding]. *)
Definition resizeRounded : Trace :=
  flexvolGrown
  ++ [Ev (LunResize "/vol/vol1/lun0" 2000000000) (2000002048, None);
      Ev (VolumeSize "vol1") (1000, None);
      Ev (VolumeSetSize "vol1" "2000002048") (Some Passed, None);
      Ev (VolumeSize "vol1") (1000, None)].

(** [Destroy] in the Docker context against [mapped]. *)
Definition mapsRead : Trace :=
  [Ev (VolumeExists "vol1") (true, None);
   Ev GetISCSITargetInfo ("iqn.1992-08.com.netapp:sn.1", [], None);
   Ev (LunMapListInfo "/vol/vol1/lun0")
      (Some {| lunMapStatus := Passed;
               InitiatorGroupsPtr :=
                 Some [ {| InitiatorGroupName := "other"; LunId := 3 |};
                        {| InitiatorGroupName := "trident"; LunId := 7 |} ] |},
       None)].

Definition hostTold : Event :=
  Ev (PrepareDeviceForRemoval 7 "iqn.1992-08.com.netapp:sn.1") tt.

Definition flexvolDeleted : Event :=
  Ev (VolumeDestroy "vol1" true) (Some Passed, None).

(** [Import] of vol0. *)
Definition flexvolRw : VolumeAttributesType :=
  {| VolumeIdAttributesPtr := Some {| TypePtr := Some "rw" |} |}.

Definition lunAt (path : string) : LunInfoType :=
  {| Path := path; OnlinePtr := Some true; SizePtr := Some 1000;
     MappedPtr := Some true |}.

Definition importRead (path : string) : Trace :=
  [Ev (VolumeGet "vol0") (Some flexvolRw, None);
   Ev (LunGet "/vol/vol0/*") (Some (lunAt path), None)].

Definition lunRenamed : Event :=
  Ev (LunRename "/vol/vol0/lun1" "/vol/vol0/lun0") (Some Passed, None).

Definition flexvolRenamed : Event :=
  Ev (VolumeRename "vol0" "vol1") (Some Passed, None).

Definition renameRejected : Event :=
  Ev (VolumeRename "vol0" "vol1") (Some (Failed "13001" "name in use"), None).

End Scenario.


(** * Properties *)

#[local] Set Warnings "-notation-for-abbreviation".

Arguments exec : simpl never.
Arguments VolumeSizeWithinTolerance : simpl never.
Arguments GoInt.int64 : simpl never.
Arguments GoInt.uint64 : simpl never.
Arguments GoInt.int : simpl never.
Arguments GoInt.FormatUint : simpl never.
Arguments GoInt.FormatInt : simpl never.

(** ** Traces *)

Lemma Call_eq_dec (c1 c2 : Call) : {c1 = c2} + {c1 <> c2}.
Proof.
  decide equality;
    first [apply string_dec | apply Z.eq_dec | apply bool_dec].
Qed.

Lemma Ev_inj (c : Call) (r r' : result c) : Ev c r = Ev c r' -> r = r'.
Proof.
  unfold Ev; intros H.
  apply (Eqdep_dec.inj_pair2_eq_dec Call Call_eq_dec) in H; exact H.
Qed.

Lemma Ev_cons_inv (c : Call) (r r' : result c) (tr tr' : Trace) :
  Ev c r :: tr = Ev c r' :: tr' -> r = r' /\ tr = tr'.
Proof.
  intros H; injection H as He Ht.
  split; [apply Ev_inj; exact He | exact Ht].
Qed.

(** A run whose first reply is known continues with that reply. *)
Lemma exec_Vis_cons {A : Type} (c : Call) (k : result c -> Prog A)
    (r : result c) (tr : Trace) (a : A) :
  exec (Vis c k) (Ev c r :: tr) a <-> exec (k r) tr a.
Proof.
  split.
  - intros (r' & tr' & Heq & H).
    apply Ev_cons_inv in Heq as [-> ->]; exact H.
  - intros H; exists r, tr; auto.
Qed.

(** Feed the reply at the head of the trace of [H] to the program. *)
Ltac exec_reply H := apply exec_Vis_cons in H; simpl in H.

(** Name the next reply of the run [H]. *)
Ltac exec_call H r tr :=
  let Heq := fresh "Heq" in
  destruct H as (r & tr & Heq & H);
  first [subst | idtac]; simpl in H.

(** Where an event of a trace lies, given the first event of the trace. *)
Lemma app_cons_split {A : Type} (l1 l2 l : list A) (e x : A) :
  l1 ++ e :: l2 = x :: l ->
  (l1 = [] /\ e = x /\ l2 = l) \/ (exists l1', l1 = x :: l1' /\ l1' ++ e :: l2 = l).
Proof.
  destruct l1 as [|y l1]; simpl; intros H; injection H as Hx Hl.
  - left; auto.
  - right; exists l1; subst; auto.
Qed.

Lemma createdVolumes_app (tr1 tr2 : Trace) :
  createdVolumes (tr1 ++ tr2) = createdVolumes tr1 ++ createdVolumes tr2.
Proof.
  induction tr1 as [|e tr1 IH]; simpl; [reflexivity|].
  destruct (createdVolume e); simpl; rewrite IH; reflexivity.
Qed.

Lemma volumeCreateError_not_reconcile (e : Event) (err : error) :
  volumeCreateError e = Some err -> reconcileCall (callOf e) = false.
Proof. destruct e as [c r]; destruct c; simpl; congruence. Qed.

(** Peel the known events off the front of a trace [tr1 ++ e :: tr2],
    closing the cases where [e] would be one of them by [tac]. *)
Ltac peel Hsplit tac :=
  repeat
    (let tr1' := fresh "pre" in
     apply app_cons_split in Hsplit
       as [(-> & -> & ->) | (tr1' & -> & Hsplit)]; [solve [tac]|]).

(** Finish a run [H] all of whose ends return nil. *)
Ltac returns_nil H :=
  repeat
    match type of H with
    | exec (Vis _ _) _ _ =>
        let r := fresh "r" in
        let tr := fresh "tr" in
        let Heq := fresh "Heq" in
        destruct H as (r & tr & Heq & H); clear Heq; simpl in H
    | exec (Ret _) _ _ => destruct H as [_ ->]; reflexivity
    | exec (let (_, _) := ?x in _) _ _ => destruct x; simpl in H
    | exec (match ?x with _ => _ end) _ _ => destruct x; simpl in H
    | exec (if ?x then _ else _) _ _ => destruct x; simpl in H
    end.

(** The innermost term a nest of matches inspects. *)
Ltac scrutinee x :=
  lazymatch x with
  | match ?y with _ => _ end => scrutinee y
  | _ => x
  end.

(** Show that the result of the run [H] is not a given error: every end
    of the run returns nil or another error. *)
Ltac walk_result H :=
  repeat
    match type of H with
    | exec (Vis _ _) _ _ =>
        let r := fresh "r" in
        let tr := fresh "tr" in
        let Heq := fresh "Heq" in
        destruct H as (r & tr & Heq & H); clear Heq; simpl in H
    | exec (Ret _) _ _ => destruct H as [_ ->]; simpl; congruence
    | exec (match ?x with _ => _ end) _ _ =>
        let y := scrutinee x in destruct y eqn:?; simpl in H
    end.

(** Walk a run [H] up to the event [l] of [Hin] for which [He] holds. *)
Ltac walk_to H Hin He tac :=
  repeat
    match type of H with
    | exec (Vis _ _) _ _ =>
        let r := fresh "r" in
        let tr := fresh "tr" in
        destruct H as (r & tr & -> & H); simpl in H;
        destruct Hin as [<- | Hin]; [try discriminate He; tac|]
    | exec (Ret _) _ _ => destruct H as [-> _]; destruct Hin
    | exec (let (_, _) := ?x in _) _ _ => destruct x; simpl in H
    | exec (match ?x with _ => _ end) _ _ => destruct x; simpl in H
    | exec (if ?x then _ else _) _ _ => destruct x; simpl in H
    end.

(** Compare a known trace with [pre ++ suffix] in [Htr]: the cases in
    which the lengths do not fit are closed. *)
Ltac unsnoc Htr :=
  lazymatch type of Htr with
  | [] = _ => solve [exfalso; eapply app_cons_not_nil; exact Htr]
  | _ :: _ = ?pre ++ _ =>
      destruct pre as [|? pre]; simpl in Htr;
      [ try discriminate Htr
      | let Hhd := fresh "Hhd" in
        injection Htr as Hhd Htr; clear Hhd; unsnoc Htr ]
  end.

(** Close a goal about the last events of a known trace. *)
Ltac ends_with :=
  match goal with
  | Htr : _ = _ ++ _ |- _ =>
      unsnoc Htr; injection Htr; intros; subst; simpl in *;
      repeat match goal with
             | Hg : GetError _ _ _ = _ |- _ => rewrite Hg in *
             end;
      try discriminate; try congruence
  end.

(** Walk every path of the run [H], closing each end by [fin]. *)
Ltac walk_all H fin :=
  repeat
    match type of H with
    | exec (Vis _ _) _ _ =>
        let r := fresh "r" in
        let tr := fresh "tr" in
        destruct H as (r & tr & -> & H); simpl in H
    | exec (Ret _) _ _ => destruct H as [-> ->]; fin
    | exec (match ?x with _ => _ end) _ _ =>
        let y := scrutinee x in destruct y eqn:?; simpl in H
    end.

(** Walk the run [H] to the event [e] of [Htr : tr1 ++ e :: tr2 = tr];
    [tac] closes the case of each call that can be [e]. *)
Ltac walk_split H Htr tac :=
  repeat
    match type of H with
    | exec (Vis _ _) _ _ =>
        let r := fresh "r" in
        let tr := fresh "tr" in
        let before := fresh "before" in
        destruct H as (r & tr & -> & H); simpl in H;
        apply app_cons_split in Htr
          as [(-> & -> & ->) | (before & -> & Htr)]; [solve [tac]|]
    | exec (Ret _) _ _ =>
        destruct H as [-> _];
        destruct (app_cons_not_nil _ _ _ (eq_sym Htr))
    | exec (match ?x with _ => _ end) _ _ =>
        let y := scrutinee x in destruct y eqn:?; simpl in H
    end.

(** The replies determine the result. *)
Lemma exec_det {A : Type} (p : Prog A) :
  forall tr a b, exec p tr a -> exec p tr b -> a = b.
Proof.
  induction p as [x | c k IH]; intros tr a b Ha Hb.
  - destruct Ha as [_ ->], Hb as [_ ->]; reflexivity.
  - destruct Ha as (r & tr1 & -> & Ha), Hb as (r' & tr2 & Heq & Hb).
    apply Ev_cons_inv in Heq as [-> ->]; eauto.
Qed.

(** What [run] computes is a run. *)
Lemma run_exec {W A : Type} (h : Controller W) (p : Prog A) :
  forall w a tr w', run h p w = (a, tr, w') -> exec p tr a.
Proof.
  induction p as [x | c k IH]; simpl; intros w a tr w' Hrun.
  - inversion Hrun; subst; split; reflexivity.
  - destruct (h c w) as [r w1].
    destruct (run h (k r) w1) as [[a1 tr1] w2] eqn:Hk.
    inversion Hrun; subst.
    exists r, tr1; split; [reflexivity | eapply IH; eassumption].
Qed.

(** ** Destroy *)

Section DestroyFacts.

Variables (CommonConfig VolAttributes : Type).
Variable pkg : Package CommonConfig VolAttributes.
Variable d : SANStorageDriver CommonConfig.

Lemma deleteFlexvol_outcome (name : string) (tr : Trace) (r : goerror) :
  exec (deleteFlexvol pkg name) tr r ->
  exists reply, tr = [Ev (VolumeDestroy name true) reply]
                /\ r = deleteOutcome pkg name reply.
Proof.
  intros (reply & tr' & -> & H); exists reply.
  destruct reply as [[[|code reason]|] [err|]]; simpl in *;
    try destruct (String.eqb code _); destruct H as [-> ->]; auto.
Qed.

(** Every run of [Destroy] that reaches the delete call ends there. *)
Lemma Destroy_delete (name : string) (tr : Trace) (r : goerror) :
  exec (Destroy pkg d name) tr r ->
  forall e reply, In e tr -> destroyReply e = Some reply ->
    r = deleteOutcome pkg name reply.
Proof.
  assert (Hdel : forall tr r, exec (deleteFlexvol pkg name) tr r ->
    forall e reply, In e tr -> destroyReply e = Some reply ->
      r = deleteOutcome pkg name reply).
  { clear tr r; intros tr r H e reply Hin He.
    apply deleteFlexvol_outcome in H as (reply' & -> & ->).
    destruct Hin as [<- | []]; simpl in He; congruence. }
  unfold Destroy. intros ([volExists err] & tr1 & -> & H) e reply Hin He.
  destruct Hin as [<- | Hin]; [discriminate He|].
  destruct err as [err|]; [destruct H as [-> _]; destruct Hin|].
  destruct volExists; simpl in H; [|destruct H as [-> _]; destruct Hin].
  destruct (String.eqb _ _); [|eapply Hdel; eassumption].
  destruct H as ([[node ifs] err] & tr2 & -> & H).
  destruct Hin as [<- | Hin]; [discriminate He|].
  destruct err as [err|]; [destruct H as [-> _]; destruct Hin|].
  destruct H as ([resp err] & tr3 & -> & H).
  destruct Hin as [<- | Hin]; [discriminate He|].
  destruct err as [err|]; [destruct H as [-> _]; destruct Hin|].
  destruct resp as [resp|]; [|destruct H as [-> _]; destruct Hin].
  destruct (0 <=? _); [|eapply Hdel; eassumption].
  destruct H as ([] & tr4 & -> & H).
  destruct Hin as [<- | Hin]; [discriminate He|].
  eapply Hdel; eassumption.
Qed.

(** C9. [Destroy] succeeds when the existence probe says the volume is
    absent, and then calls nothing else (no delete is attempted); when
    the delete call is answered with the controller's "volume does not
    exist" error, [Destroy] still succeeds; any other error of the
    delete call, a transport error or another ZAPI code, makes
    [Destroy] fail. *)
Theorem Destroy_idempotent (name : string) (tr : Trace) (r : goerror) :
  exec (Destroy pkg d name) tr r ->
  (forall tr', tr = Ev (VolumeExists name) (false, None) :: tr' ->
     r = None /\ tr' = []
     /\ existsb mutates (calls tr) = false) /\
  (forall e resp reason, In e tr ->
     destroyReply e = Some (resp, None) ->
     resp = Some (Failed pkg.(EVOLUMEDOESNOTEXIST) reason) ->
     r = None) /\
  (forall e resp err, In e tr ->
     destroyReply e = Some (resp, Some err) ->
     r = Some (Errorf "error destroying volume %v: %v" [AStr name; AErr err])) /\
  (forall e code reason, In e tr ->
     destroyReply e = Some (Some (Failed code reason), None) ->
     code <> pkg.(EVOLUMEDOESNOTEXIST) ->
     r = Some (Errorf "error destroying volume %v: %v"
                      [AStr name; AErr (ZapiError code reason)])).
Proof.
  intros H; split; [|split; [|split]].
  - intros tr' ->. unfold Destroy in H. apply exec_Vis_cons in H.
    destruct H as [-> ->]; repeat split.
  - intros e resp reason Hin He ->.
    rewrite (Destroy_delete name tr r H e _ Hin He); simpl.
    rewrite String.eqb_refl; reflexivity.
  - intros e resp err Hin He.
    rewrite (Destroy_delete name tr r H e _ Hin He).
    destruct resp as [[|]|]; reflexivity.
  - intros e code reason Hin He Hcode.
    rewrite (Destroy_delete name tr r H e _ Hin He); simpl.
    destruct (String.eqb_spec code pkg.(EVOLUMEDOESNOTEXIST)); congruence.
Qed.

End DestroyFacts.

(** C9, at a concrete input: the controller reports the volume, the delete
    call is answered "volume does not exist" (code 13040). *)
Lemma Destroy_idempotent_witness :
  let tr := [Ev (VolumeExists "vol1") (true, None);
             Ev (VolumeDestroy "vol1" true)
                (Some (Failed "13040" "volume does not exist"), None)] in
  exec (Destroy Demo.pkg (Demo.driver "csi") "vol1") tr None
  /\ (forall r, exec (Destroy Demo.pkg (Demo.driver "csi") "vol1") tr r ->
        r = None).
Proof.
  intros tr.
  assert (Hrun : exec (Destroy Demo.pkg (Demo.driver "csi") "vol1") tr None).
  { apply (run_exec
             (Demo.answering
                (Demo.deleteFails
                   (Some (Failed "13040" "volume does not exist")) None))
             _ tt _ _ tt).
    reflexivity. }
  split; [exact Hrun|].
  intros r H.
  destruct (Destroy_idempotent unit unit Demo.pkg (Demo.driver "csi")
              "vol1" tr r H) as (_ & Hgone & _).
  apply (Hgone (Ev (VolumeDestroy "vol1" true)
                   (Some (Failed "13040" "volume does not exist"), None))
               (Some (Failed "13040" "volume does not exist"))
               "volume does not exist").
  - simpl; auto.
  - reflexivity.
  - reflexivity.
Defined.

(** ** Go integer conversions *)

Lemma int64_small (z : Z) : - 2 ^ 63 <= z < 2 ^ 63 -> GoInt.int64 z = z.
Proof.
  intros H; unfold GoInt.int64.
  rewrite Z.mod_small; lia.
Qed.

Lemma uint64_small (z : Z) : 0 <= z < 2 ^ 64 -> GoInt.uint64 z = z.
Proof. intros H; unfold GoInt.uint64; apply Z.mod_small; exact H. Qed.

(** Conversion to int64 only depends on the value modulo 2^64. *)
Lemma int64_sub (a b : Z) :
  GoInt.int64 (GoInt.int64 a - GoInt.int64 b) = GoInt.int64 (a - b).
Proof.
  unfold GoInt.int64. f_equal.
  replace ((a + 2 ^ 63) mod 2 ^ 64 - 2 ^ 63
           - ((b + 2 ^ 63) mod 2 ^ 64 - 2 ^ 63) + 2 ^ 63)
    with ((a + 2 ^ 63) mod 2 ^ 64 - (b + 2 ^ 63) mod 2 ^ 64 + 2 ^ 63) by lia.
  rewrite <- Zplus_mod_idemp_l, <- Zminus_mod.
  rewrite Zplus_mod_idemp_l. f_equal; lia.
Qed.

(** On sizes that differ by less than 2^63 the tolerance test is the
    mathematical one. *)
Lemma VolumeSizeWithinTolerance_spec (x cur delta : Z) :
  - 2 ^ 63 < x - cur < 2 ^ 63 ->
  VolumeSizeWithinTolerance (GoInt.int64 x) (GoInt.int64 cur) delta
  = (Z.abs (x - cur) <=? delta, None).
Proof.
  intros H; unfold VolumeSizeWithinTolerance.
  rewrite int64_sub, (int64_small (x - cur)) by lia.
  destruct (Z.ltb_spec (x - cur) 0).
  - rewrite int64_small, Z.abs_neq by lia; reflexivity.
  - rewrite Z.abs_eq by lia; reflexivity.
Qed.

(** ** Resize: the paths that change nothing *)

Section ResizeFacts.

Opaque VolumeSizeWithinTolerance.

Variables (CommonConfig VolAttributes : Type).
Variable pkg : Package CommonConfig VolAttributes.
Variable d : SANStorageDriver CommonConfig.

(** C6. When the volume exists and the requested size is within
    [SANResizeDelta] of the current Flexvol size, [Resize] returns success,
    has called nothing but the existence probe and the size read (no
    mutating call), and has set [volConfig.Size] to the current size. *)
Theorem Resize_within_tolerance (volConfig : VolumeConfig)
    (sizeBytes volSize : Z) (tr : Trace) (res : VolumeConfig * goerror) :
  0 <= sizeBytes < 2 ^ 64 ->
  0 <= volSize < 2 ^ 63 ->
  pkg.(SANResizeDelta) < 2 ^ 63 ->
  Z.abs (sizeBytes - volSize) <= pkg.(SANResizeDelta) ->
  exec (Resize pkg d volConfig sizeBytes)
       (Ev (VolumeExists volConfig.(InternalName)) (true, None)
        :: Ev (VolumeSize volConfig.(InternalName)) (volSize, None) :: tr) res ->
  res = (setSize volConfig (GoInt.FormatUint volSize), None)
  /\ tr = []
  /\ existsb mutates
       (calls (Ev (VolumeExists volConfig.(InternalName)) (true, None)
               :: Ev (VolumeSize volConfig.(InternalName)) (volSize, None) :: tr))
     = false.
Proof.
  intros Hx Hcur Hdelta Htol H.
  unfold Resize in H.
  exec_reply H. exec_reply H.
  rewrite VolumeSizeWithinTolerance_spec in H by lia.
  destruct (Z.leb_spec (Z.abs (sizeBytes - volSize)) pkg.(SANResizeDelta));
    [|lia].
  rewrite uint64_small in H by lia.
  destruct H as [-> ->]; auto.
Qed.

(** C7. When the volume exists, the requested size is outside the
    tolerance band and below the current Flexvol size, [Resize] fails with
    the "requested size is less than existing volume size" error, has
    called nothing but the existence probe and the size read, and leaves
    [volConfig] as it was. *)
Theorem Resize_shrink_rejected (volConfig : VolumeConfig)
    (sizeBytes volSize : Z) (tr : Trace) (res : VolumeConfig * goerror) :
  0 <= sizeBytes < 2 ^ 64 ->
  - 2 ^ 63 <= volSize < 2 ^ 63 ->
  pkg.(SANResizeDelta) < Z.abs (sizeBytes - volSize) ->
  sizeBytes < volSize ->
  exec (Resize pkg d volConfig sizeBytes)
       (Ev (VolumeExists volConfig.(InternalName)) (true, None)
        :: Ev (VolumeSize volConfig.(InternalName)) (volSize, None) :: tr) res ->
  res = (volConfig,
         Some (Errorf "requested size %d is less than existing volume size %d"
                      [AInt sizeBytes; AInt volSize]))
  /\ tr = []
  /\ existsb mutates
       (calls (Ev (VolumeExists volConfig.(InternalName)) (true, None)
               :: Ev (VolumeSize volConfig.(InternalName)) (volSize, None) :: tr))
     = false.
Proof.
  intros Hx Hcur Htol Hlt H.
  unfold Resize in H.
  exec_reply H. exec_reply H.
  rewrite VolumeSizeWithinTolerance_spec in H by lia.
  destruct (Z.leb_spec (Z.abs (sizeBytes - volSize)) pkg.(SANResizeDelta));
    [lia|].
  rewrite uint64_small in H by lia.
  destruct (Z.ltb_spec sizeBytes volSize); [|lia].
  destruct H as [-> ->]; auto.
Qed.

End ResizeFacts.

Transparent VolumeSizeWithinTolerance.

(** C6 on a 1 GB volume asked to become 1 GB + 1 MB, with the 50 MB delta. *)
Lemma Resize_within_tolerance_witness :
  exec (Resize Demo.pkg (Demo.driver "csi") (Demo.volConfig "") 1001000000)
       [Ev (VolumeExists "vol1") (true, None);
        Ev (VolumeSize "vol1") (1000000000, None)]
       (setSize (Demo.volConfig "") "1000000000", None)
  /\ existsb mutates
       (calls [Ev (VolumeExists "vol1") (true, None);
               Ev (VolumeSize "vol1") (1000000000, None)]) = false.
Proof.
  assert (H : exec (Resize Demo.pkg (Demo.driver "csi") (Demo.volConfig "")
                           1001000000)
                   [Ev (VolumeExists "vol1") (true, None);
                    Ev (VolumeSize "vol1") (1000000000, None)]
                   (setSize (Demo.volConfig "") "1000000000", None)).
  { apply (run_exec (Demo.sizing Demo.existing) _ [(1000000000, None)] _ _ []).
    vm_compute; reflexivity. }
  split; [exact H|].
  refine (proj2 (proj2
    (Resize_within_tolerance unit unit Demo.pkg (Demo.driver "csi")
       (Demo.volConfig "") 1001000000 1000000000 [] _ _ _ _ _ H)));
    [vm_compute; intuition discriminate | vm_compute; intuition discriminate
     | reflexivity | vm_compute; discriminate].
Defined.

(** C7 on a 2 GB volume asked to become 1 GB. *)
Lemma Resize_shrink_rejected_witness :
  exec (Resize Demo.pkg (Demo.driver "csi") (Demo.volConfig "") 1000000000)
       [Ev (VolumeExists "vol1") (true, None);
        Ev (VolumeSize "vol1") (2000000000, None)]
       (Demo.volConfig "",
        Some (Errorf "requested size %d is less than existing volume size %d"
                     [AInt 1000000000; AInt 2000000000]))
  /\ existsb mutates
       (calls [Ev (VolumeExists "vol1") (true, None);
               Ev (VolumeSize "vol1") (2000000000, None)]) = false.
Proof.
  assert (H : exec (Resize Demo.pkg (Demo.driver "csi") (Demo.volConfig "")
                           1000000000)
                   [Ev (VolumeExists "vol1") (true, None);
                    Ev (VolumeSize "vol1") (2000000000, None)]
                   (Demo.volConfig "",
                    Some (Errorf "requested size %d is less than existing volume size %d"
                                 [AInt 1000000000; AInt 2000000000]))).
  { apply (run_exec (Demo.sizing Demo.existing) _ [(2000000000, None)] _ _ []).
    vm_compute; reflexivity. }
  split; [exact H|].
  refine (proj2 (proj2
    (Resize_shrink_rejected unit unit Demo.pkg (Demo.driver "csi")
       (Demo.volConfig "") 1000000000 2000000000 [] _ _ _ _ _ H)));
    [vm_compute; intuition discriminate | vm_compute; intuition discriminate
     | reflexivity | reflexivity].
Defined.

(** ** White space in the reason of a ZAPI error *)

(** The "Job exists" test trims Unicode white space: a reason that ends
    in U+00A0 (bytes C2 A0) or starts with U+3000 (bytes E3 80 80) is
    still recognised, one that ends in U+200B (E2 80 8B, no white space)
    is not. *)
Lemma isJobExists_unicode_space (pkg : Package unit unit) :
  let byte n := String (ascii_of_nat n) EmptyString in
  isJobExists pkg
    (ZapiError pkg.(EAPIERROR) ("Job exists" ++ byte 194%nat ++ byte 160%nat))
  = true
  /\ isJobExists pkg
       (ZapiError pkg.(EAPIERROR)
          (byte 227%nat ++ byte 128%nat ++ byte 128%nat ++ "Job exists"))
     = true
  /\ isJobExists pkg
       (ZapiError pkg.(EAPIERROR)
          ("Job exists" ++ byte 226%nat ++ byte 128%nat ++ byte 139%nat))
     = false.
Proof.
  intros byte; unfold isJobExists; rewrite String.eqb_refl.
  repeat split; vm_compute; reflexivity.
Qed.

(** ** Create: the loop over the candidate pools *)

Section LoopFacts.

Variables (CommonConfig VolAttributes : Type).
Variable pkg : Package CommonConfig VolAttributes.
Variable d : SANStorageDriver CommonConfig.
Variables (volConfig : VolumeConfig) (storagePool : Pool).
Variables (name size spaceReserve snapshotPolicy unixPermissions
           exportPolicy securityStyle tieringPolicy fstype : string).
Variables (sizeBytes snapshotReserveInt : Z).
Variables (spaceAllocation enableEncryption : bool).

Local Notation loop :=
  (createLoop pkg d volConfig storagePool name size spaceReserve
     snapshotPolicy unixPermissions exportPolicy securityStyle tieringPolicy
     fstype sizeBytes snapshotReserveInt spaceAllocation enableEncryption).
Local Notation limits := (limitsCall spaceReserve sizeBytes).
Local Notation volumeCreate :=
  (volumeCreateCall name size spaceReserve snapshotPolicy unixPermissions
     exportPolicy securityStyle tieringPolicy snapshotReserveInt
     enableEncryption).
Local Notation lunCreate := (lunCreateCall name sizeBytes spaceAllocation).
Local Notation setFstype := (fstypeCall pkg name fstype).
Local Notation setContext := (contextCall d name).
Local Notation reconcile := (createReconcile volConfig name).
Local Notation ftrace :=
  (failureTrace name size spaceReserve snapshotPolicy unixPermissions
     exportPolicy securityStyle tieringPolicy sizeBytes snapshotReserveInt
     spaceAllocation enableEncryption).
Local Notation ferror := (failureError storagePool name).

(** The reconciliation after a create always ends in [return nil], and
    only reads and sets the Flexvol size. *)
Lemma createReconcile_success (lunSize : Z) (tr : Trace)
    (res : VolumeConfig * goerror) :
  exec (reconcile lunSize) tr res ->
  snd res = None /\ Forall (fun e => reconcileCall (callOf e) = true) tr.
Proof.
  unfold createReconcile; intros H.
  exec_call H r1 tr1. destruct r1 as [initialVolumeSize [err|]]; simpl in H.
  { destruct H as [-> ->]; auto. }
  destruct (negb _); [|destruct H as [-> ->]; auto].
  exec_call H r2 tr2. destruct r2 as [resp err].
  destruct (GetError id resp err); simpl in H.
  { destruct H as [-> ->]; auto. }
  exec_call H r3 tr3. destruct r3 as [adjusted [err'|]]; simpl in H;
    destruct H as [-> ->]; auto.
Qed.

(** One turn of the loop, read off the replies. *)
Lemma createLoop_turn (p : Pool) (rest : list Pool) (errs : list error)
    (names : list string) (tr : Trace) (res : VolumeConfig * goerror) :
  exec (loop (p :: rest) errs names) tr res ->
  (exists e tr',
      tr = Ev (limits p) (Some e) :: tr'
      /\ exec (loop rest (errs ++ [limitsError storagePool p e])
                    (names ++ [p.(Name)])) tr' res)
  \/ (exists volReply err tr',
      tr = Ev (limits p) None :: Ev (volumeCreate p) volReply :: tr'
      /\ GetError id (fst volReply) (snd volReply) = Some err
      /\ if isJobExists pkg err then tr' = [] /\ res = (volConfig, None)
         else exec (loop rest (errs ++ [volumeError storagePool name p err])
                         (names ++ [p.(Name)])) tr' res)
  \/ (exists volReply lunReply err tr',
      tr = Ev (limits p) None :: Ev (volumeCreate p) volReply
           :: Ev lunCreate lunReply :: tr'
      /\ GetError id (fst volReply) (snd volReply) = None
      /\ GetError lunCreateStatus (fst lunReply) (snd lunReply) = Some err
      /\ exec (loop rest (errs ++ [lunError storagePool name p err])
                    (names ++ [p.(Name)])) tr' res)
  \/ (exists volReply lunReply attrReply err destroyed,
      tr = [Ev (limits p) None; Ev (volumeCreate p) volReply;
            Ev lunCreate lunReply; Ev setFstype attrReply;
            Ev (LunDestroy (lunPath name)) destroyed]
      /\ GetError id (fst volReply) (snd volReply) = None
      /\ GetError lunCreateStatus (fst lunReply) (snd lunReply) = None
      /\ GetError id (fst attrReply) (snd attrReply) = Some err
      /\ res = (volConfig, Some (fstypeError storagePool name p err)))
  \/ (exists volReply response lunErr attrReply ctxReply tr',
      tr = Ev (limits p) None :: Ev (volumeCreate p) volReply
           :: Ev lunCreate (Some response, lunErr) :: Ev setFstype attrReply
           :: Ev setContext ctxReply :: tr'
      /\ GetError id (fst volReply) (snd volReply) = None
      /\ GetError lunCreateStatus (Some response) lunErr = None
      /\ GetError id (fst attrReply) (snd attrReply) = None
      /\ exec (reconcile (GoInt.uint64 response.(ActualSize))) tr' res).
Proof.
  intros H; simpl in H.
  exec_call H r1 tr1. destruct r1 as [e|].
  { left; exists e, tr1; auto. }
  right.
  exec_call H r2 tr2. destruct r2 as [resp err].
  destruct (GetError id resp err) as [verr|] eqn:Hv.
  { left; exists (resp, err), verr, tr2; repeat split; auto.
    destruct (isJobExists pkg verr); [destruct H as [-> ->]|]; auto. }
  right.
  exec_call H r3 tr3. destruct r3 as [lunResp lunErr].
  destruct (GetError lunCreateStatus lunResp lunErr) as [lerr|] eqn:Hl.
  { left; exists (resp, err), (lunResp, lunErr), lerr, tr3; auto. }
  right.
  exec_call H r4 tr4. destruct r4 as [attrResp attrErr].
  destruct (GetError id attrResp attrErr) as [aerr|] eqn:Ha.
  { left. exec_call H r5 tr5. destruct H as [-> ->].
    exists (resp, err), (lunResp, lunErr), (attrResp, attrErr), aerr, r5; auto. }
  right.
  exec_call H r5 tr5.
  destruct lunResp as [response|].
  - exists (resp, err), response, lunErr, (attrResp, attrErr), r5, tr5; auto.
  - destruct lunErr; discriminate Hl.
Qed.



Lemma createLoop_job_exists (pools : list Pool) :
  forall (errs : list error) (names : list string) (tr : Trace)
         (res : VolumeConfig * goerror),
    exec (loop pools errs names) tr res ->
    forall tr1 e tr2 err,
      tr = tr1 ++ e :: tr2 ->
      volumeCreateError e = Some err ->
      isJobExists pkg err = true ->
      res = (volConfig, None) /\ tr2 = [].
Proof.
  induction pools as [|p rest IH]; intros errs names tr res H tr1 e tr2 err Htr He Hjob.
  { destruct H as [-> _]. destruct (app_cons_not_nil _ _ _ Htr). }
  symmetry in Htr.
  apply createLoop_turn in H
    as [(le & tr' & -> & H)
       |[(volReply & verr & tr' & -> & Hv & H)
        |[(volReply & lunReply & lerr & tr' & -> & Hv & Hl & H)
         |[(volReply & lunReply & attrReply & aerr & dr & -> & Hv & Hl & Ha & ->)
          |(volReply & response & lunErr & attrReply & ctxReply & tr' & ->
            & Hv & Hl & Ha & H)]]]].
  - peel Htr ltac:(discriminate He).
    symmetry in Htr; eapply IH; eassumption.
  - apply app_cons_split in Htr as [(-> & -> & ->) | (pre & -> & Htr)];
      [discriminate He|].
    apply app_cons_split in Htr as [(-> & -> & ->) | (pre' & -> & Htr)].
    + simpl in He. rewrite Hv in He; injection He as <-.
      rewrite Hjob in H. destruct H as [-> ->]; auto.
    + destruct (isJobExists pkg verr).
      * destruct H as [-> _].
        symmetry in Htr; destruct (app_cons_not_nil _ _ _ Htr).
      * symmetry in Htr; eapply IH; eassumption.
  - peel Htr ltac:(simpl in He; congruence).
    symmetry in Htr; eapply IH; eassumption.
  - peel Htr ltac:(simpl in He; congruence).
    symmetry in Htr; destruct (app_cons_not_nil _ _ _ Htr).
  - peel Htr ltac:(simpl in He; congruence).
    apply createReconcile_success in H as [_ Hcalls].
    subst tr'. apply Forall_app in Hcalls as [_ Hcalls].
    inversion Hcalls as [|? ? Hrec _]; subst.
    rewrite (volumeCreateError_not_reconcile _ _ He) in Hrec; discriminate.
Qed.

(** Once a turn of the loop has reached the reconciliation, [Create]
    returns nil. *)
Lemma createLoop_reconcile (pools : list Pool) :
  forall (errs : list error) (names : list string) (tr : Trace)
         (res : VolumeConfig * goerror),
    exec (loop pools errs names) tr res ->
    forall e, In e tr -> reconcileCall (callOf e) = true -> snd res = None.
Proof.
  induction pools as [|p rest IH]; intros errs names tr res H e Hin He.
  { destruct H as [-> _]; destruct Hin. }
  apply createLoop_turn in H
    as [(le & tr' & -> & H)
       |[(volReply & verr & tr' & -> & Hv & H)
        |[(volReply & lunReply & lerr & tr' & -> & Hv & Hl & H)
         |[(volReply & lunReply & attrReply & aerr & dr & -> & Hv & Hl & Ha & ->)
          |(volReply & response & lunErr & attrReply & ctxReply & tr' & ->
            & Hv & Hl & Ha & H)]]]].
  - destruct Hin as [<- | Hin]; [discriminate He | eauto].
  - destruct Hin as [<- | [<- | Hin]]; try discriminate He.
    destruct (isJobExists pkg verr); [destruct H as [_ ->]; reflexivity | eauto].
  - destruct Hin as [<- | [<- | [<- | Hin]]]; try discriminate He; eauto.
  - repeat (destruct Hin as [<- | Hin]; [discriminate He|]). destruct Hin.
  - apply createReconcile_success in H as [Hres _]; exact Hres.
Qed.


(** When the loop ends in the backend-ineligible error, every pool has
    added one error and its name. *)
Lemma createLoop_ineligible (pools : list Pool) :
  forall (errs : list error) (names : list string) (tr : Trace)
         (res : VolumeConfig * goerror) volume errs' names',
    exec (loop pools errs names) tr res ->
    snd res = Some (BackendIneligibleError volume errs' names') ->
    volume = name
    /\ List.length errs' = (List.length errs + List.length pools)%nat
    /\ names' = names ++ map Name pools.
Proof.
  induction pools as [|p rest IH];
    intros errs names tr res volume errs' names' H Hres.
  { destruct H as [_ ->]; simpl in Hres. injection Hres as <- <- <-.
    rewrite app_nil_r, Nat.add_0_r; auto. }
  apply createLoop_turn in H
    as [(le & tr' & -> & H)
       |[(volReply & verr & tr' & -> & Hv & H)
        |[(volReply & lunReply & lerr & tr' & -> & Hv & Hl & H)
         |[(volReply & lunReply & attrReply & aerr & dr & -> & Hv & Hl & Ha & ->)
          |(volReply & response & lunErr & attrReply & ctxReply & tr' & ->
            & Hv & Hl & Ha & H)]]]].
  - destruct (IH _ _ _ _ _ _ _ H Hres) as (-> & Hlen & ->).
    rewrite Hlen, length_app, <- app_assoc; simpl; repeat split; lia.
  - destruct (isJobExists pkg verr).
    + destruct H as [_ ->]; discriminate Hres.
    + destruct (IH _ _ _ _ _ _ _ H Hres) as (-> & Hlen & ->).
      rewrite Hlen, length_app, <- app_assoc; simpl; repeat split; lia.
  - destruct (IH _ _ _ _ _ _ _ H Hres) as (-> & Hlen & ->).
    rewrite Hlen, length_app, <- app_assoc; simpl; repeat split; lia.
  - discriminate Hres.
  - apply createReconcile_success in H as [Hnil _].
    rewrite Hnil in Hres; discriminate Hres.
Qed.

(** The run in which every candidate fails with a recorded error. *)
Lemma createLoop_all_fail (failures : list (Pool * Failure)) :
  forall (errs : list error) (names : list string),
    forallb (fun pf => isFailure pkg (snd pf)) failures = true ->
    exec (loop (map fst failures) errs names)
         (flat_map ftrace failures)
         (volConfig,
          Some (BackendIneligibleError name
                  (errs ++ map ferror failures)
                  (names ++ map (fun pf => (fst pf).(Name)) failures))).
Proof.
  induction failures as [|[p f] failures IH]; intros errs names Hall.
  { simpl. rewrite !app_nil_r. split; reflexivity. }
  simpl in Hall. apply andb_true_iff in Hall as [Hf Hall].
  specialize (IH (errs ++ [ferror (p, f)]) (names ++ [p.(Name)]) Hall).
  rewrite <- !app_assoc in IH.
  cbn [map flat_map fst snd createLoop].
  destruct f as [e | [resp err] | [resp err] [lunResp lunErr]];
    unfold failureTrace, failureError in *; cbn [fst snd app] in *;
    unfold limitsCall, volumeCreateCall, lunCreateCall.
  - apply exec_Vis_cons. exact IH.
  - simpl in Hf.
    destruct (GetError id resp err) as [verr|] eqn:Hv; [|discriminate Hf].
    apply exec_Vis_cons; simpl. apply exec_Vis_cons; simpl. rewrite Hv.
    destruct (isJobExists pkg verr); [discriminate Hf | exact IH].
  - simpl in Hf.
    destruct (GetError id resp err) as [verr|] eqn:Hv; [discriminate Hf|].
    destruct (GetError lunCreateStatus lunResp lunErr) as [lerr|] eqn:Hl;
      [|discriminate Hf].
    apply exec_Vis_cons; simpl. apply exec_Vis_cons; simpl. rewrite Hv.
    apply exec_Vis_cons; simpl. rewrite Hl. exact IH.
Qed.

Lemma createdVolumes_failures (failures : list (Pool * Failure)) :
  forallb (fun pf => isFailure pkg (snd pf)) failures = true ->
  createdVolumes (flat_map ftrace failures)
  = map (fun _ => name) (filter leavesVolume failures).
Proof.
  induction failures as [|[p f] failures IH]; intros Hall; [reflexivity|].
  simpl in Hall. apply andb_true_iff in Hall as [Hf Hall].
  cbn [flat_map]. rewrite createdVolumes_app, (IH Hall).
  destruct f as [e | [resp err] | [resp err] [lunResp lunErr]];
    simpl in *.
  - reflexivity.
  - destruct (GetError id resp err); [reflexivity | discriminate Hf].
  - destruct (GetError id resp err); [discriminate Hf | reflexivity].
Qed.

(** C4 (amended). When every one of the N candidate pools fails at the
    aggregate limits check, at the volume create call or at the LUN create
    call, the loop of [Create], started as [Create] starts it, returns
    the backend-ineligible error with exactly N errors, the error of each
    pool in the order of the pools, and the N pool names in that order.
    The Flexvols created in the run are those of the pools that failed at
    the LUN create call, which are left in place; when no pool got that
    far, no Flexvol was created. *)
Theorem Create_all_candidates_fail (failures : list (Pool * Failure))
    (res : VolumeConfig * goerror) :
  forallb (fun pf => isFailure pkg (snd pf)) failures = true ->
  exec (loop (map fst failures) [] []) (flat_map ftrace failures) res ->
  res = (volConfig,
         Some (BackendIneligibleError name (map ferror failures)
                 (map (fun pf => (fst pf).(Name)) failures)))
  /\ List.length (map ferror failures) = List.length failures
  /\ createdVolumes (flat_map ftrace failures)
     = map (fun _ => name) (filter leavesVolume failures)
  /\ (forallb (fun pf => negb (leavesVolume pf)) failures = true ->
      createdVolumes (flat_map ftrace failures) = []).
Proof.
  intros Hall H.
  pose proof (createLoop_all_fail failures [] [] Hall) as Hrun.
  split; [exact (exec_det _ _ _ _ H Hrun)|].
  split; [apply List.length_map|].
  split; [apply createdVolumes_failures; exact Hall|].
  intros Hnone. rewrite createdVolumes_failures by exact Hall.
  clear H Hrun Hall.
  induction failures as [|pf failures IH]; [reflexivity|].
  simpl in Hnone. apply andb_true_iff in Hnone as [Hpf Hnone].
  simpl. destruct (leavesVolume pf); [discriminate Hpf | auto].
Qed.

End LoopFacts.

(** ** Create *)

Section CreateFacts.

Variables (CommonConfig VolAttributes : Type).
Variable pkg : Package CommonConfig VolAttributes.
Variable d : SANStorageDriver CommonConfig.

(** Every run of [Create] either ends before the loop, with an error and
    the existence probe as its only call, or it is the probe, possibly
    the read of the default tiering policy, and a run of the loop on the
    pools of [getPoolsForCreate], started with no error recorded. *)
Lemma Create_runs_loop (volConfig : VolumeConfig) (storagePool : Pool)
    (volAttributes : VolAttributes) (tr : Trace)
    (res : VolumeConfig * goerror) :
  exec (Create pkg d volConfig storagePool volAttributes) tr res ->
  (exists reply e,
      tr = [Ev (VolumeExists volConfig.(InternalName)) reply]
      /\ res = (volConfig, Some e))
  \/ (exists size spaceReserve snapshotPolicy unixPermissions exportPolicy
             securityStyle tieringPolicy fstype sizeBytes snapshotReserveInt
             spaceAllocation enableEncryption pre tr',
      tr = Ev (VolumeExists volConfig.(InternalName)) (false, None)
           :: pre ++ tr'
      /\ (pre = [] \/ exists policy, pre = [Ev TieringPolicyValue policy])
      /\ exec (createLoop pkg d volConfig storagePool
                 volConfig.(InternalName) size spaceReserve snapshotPolicy
                 unixPermissions exportPolicy securityStyle tieringPolicy
                 fstype sizeBytes snapshotReserveInt spaceAllocation
                 enableEncryption
                 (fst (pkg.(getPoolsForCreate) volConfig storagePool
                         volAttributes d.(physicalPools) d.(virtualPools)))
                 [] [])
              tr' res).
Proof.
  unfold Create; intros H.
  exec_call H r0 tr0. destruct r0 as [volExists [e|]]; simpl in H.
  { destruct H as [-> ->]; left; eauto. }
  destruct volExists; simpl in H.
  { destruct H as [-> ->]; left; eauto. }
  destruct (pkg.(getPoolsForCreate) _ _ _ _ _) as [pools [e|]];
    [destruct H as [-> ->]; left; eauto|].
  repeat
    (match type of H with
     | exec (let (_, _) := ?x in _) _ _ => destruct x as [? [?|]]
     | exec (match ?x with _ => _ end) _ _ => destruct x
     end;
     try (destruct H as [-> ->]; left; eexists _, _; split; reflexivity)).
  - exec_call H policy tr1.
    right. do 12 eexists. exists [Ev TieringPolicyValue policy], tr1.
    split; [reflexivity|]. split; [right; eauto|]. exact H.
  - right. do 12 eexists. exists [], tr0.
    split; [reflexivity|]. split; [left; reflexivity|]. exact H.
Qed.

(** Whenever [Create] returns the backend-ineligible error, it carries
    one error for each pool of [getPoolsForCreate] and their names in
    order. *)
Lemma Create_ineligible (volConfig : VolumeConfig) (storagePool : Pool)
    (volAttributes : VolAttributes) (tr : Trace)
    (res : VolumeConfig * goerror) (volume : string) (errs : list error)
    (names : list string) :
  exec (Create pkg d volConfig storagePool volAttributes) tr res ->
  snd res = Some (BackendIneligibleError volume errs names) ->
  (forall reply, tr <> [Ev (VolumeExists volConfig.(InternalName)) reply]) ->
  let pools :=
    fst (pkg.(getPoolsForCreate) volConfig storagePool volAttributes
           d.(physicalPools) d.(virtualPools)) in
  volume = volConfig.(InternalName)
  /\ List.length errs = List.length pools
  /\ names = map Name pools.
Proof.
  intros H Hres Hloop pools.
  apply Create_runs_loop in H
    as [(reply & e0 & -> & ->)
       |(size & spaceReserve & snapshotPolicy & unixPermissions & exportPolicy
         & securityStyle & tieringPolicy & fstype & sizeBytes
         & snapshotReserveInt & spaceAllocation & enableEncryption & pre & tr'
         & -> & Hpre & H)].
  - destruct (Hloop reply eq_refl).
  - eapply createLoop_ineligible in H; [|exact Hres]. exact H.
Qed.

(** C1 (amended). When the existence probe at the start of [Create]
    reports that the volume is there, [Create] returns the volume-exists
    error; it calls nothing else and leaves [volConfig] as it was. *)
Theorem Create_existing_volume (volConfig : VolumeConfig)
    (storagePool : Pool) (volAttributes : VolAttributes) (tr : Trace)
    (res : VolumeConfig * goerror) :
  exec (Create pkg d volConfig storagePool volAttributes)
       (Ev (VolumeExists volConfig.(InternalName)) (true, None) :: tr) res ->
  res = (volConfig, Some (VolumeExistsError volConfig.(InternalName)))
  /\ tr = [].
Proof.
  unfold Create; intros H. exec_reply H. destruct H as [-> ->]; auto.
Qed.

(** C5. Whenever, in a run of [Create], a volume create call is answered
    with a ZAPI error of code [EAPIERROR] whose trimmed reason ends in
    "Job exists", [Create] returns nil; that call is the last call of the
    run, so no further candidate is tried, and the result is not the
    list of recorded errors. *)
Theorem Create_job_exists (volConfig : VolumeConfig) (storagePool : Pool)
    (volAttributes : VolAttributes) (tr : Trace)
    (res : VolumeConfig * goerror) :
  exec (Create pkg d volConfig storagePool volAttributes) tr res ->
  forall (tr1 : Trace) (e : Event) (tr2 : Trace) (err : error),
    tr = tr1 ++ e :: tr2 ->
    volumeCreateError e = Some err ->
    isJobExists pkg err = true ->
    res = (volConfig, None) /\ tr2 = [].
Proof.
  intros H tr1 e tr2 err Htr He Hjob. symmetry in Htr.
  apply Create_runs_loop in H
    as [(reply & e0 & -> & ->)
       |(size & spaceReserve & snapshotPolicy & unixPermissions & exportPolicy
         & securityStyle & tieringPolicy & fstype & sizeBytes
         & snapshotReserveInt & spaceAllocation & enableEncryption & pre & tr'
         & -> & Hpre & H)].
  - peel Htr ltac:(discriminate He).
    symmetry in Htr; destruct (app_cons_not_nil _ _ _ Htr).
  - destruct Hpre as [-> | (policy & ->)]; simpl in Htr;
      peel Htr ltac:(discriminate He);
      symmetry in Htr; eapply createLoop_job_exists; eassumption.
Qed.

Lemma reconcileFailed_call (e : Event) :
  reconcileFailed e = true -> reconcileCall (callOf e) = true.
Proof. destruct e as [c r]; destruct c; simpl; congruence. Qed.

(** In [Create] the Flexvol size is only read and set by the
    reconciliation, after which [Create] returns nil. *)
Lemma Create_reconcile (volConfig : VolumeConfig) (storagePool : Pool)
    (volAttributes : VolAttributes) (tr : Trace)
    (res : VolumeConfig * goerror) :
  exec (Create pkg d volConfig storagePool volAttributes) tr res ->
  forall e, In e tr -> reconcileCall (callOf e) = true -> snd res = None.
Proof.
  intros H e Hin He.
  apply Create_runs_loop in H
    as [(reply & e0 & -> & ->)
       |(size & spaceReserve & snapshotPolicy & unixPermissions & exportPolicy
         & securityStyle & tieringPolicy & fstype & sizeBytes
         & snapshotReserveInt & spaceAllocation & enableEncryption & pre & tr'
         & -> & Hpre & H)].
  - destruct Hin as [<- | []]; discriminate He.
  - destruct Hin as [<- | Hin]; [discriminate He|].
    apply in_app_or in Hin as [Hin | Hin].
    + destruct Hpre as [-> | (policy & ->)]; [destruct Hin|].
      destruct Hin as [<- | []]; discriminate He.
    + eapply createLoop_reconcile; eassumption.
Qed.



(** Once the LUN resize call has succeeded, [Resize] returns nil. *)
Lemma Resize_after_lun_resize (volConfig : VolumeConfig) (sizeBytes : Z)
    (tr : Trace) (res : VolumeConfig * goerror) :
  exec (Resize pkg d volConfig sizeBytes) tr res ->
  forall l, In l tr -> lunResized l = true -> snd res = None.
Proof.
  unfold Resize; intros H l Hin He.
  walk_to H Hin He
    ltac:(simpl in He; match type of He with
                       | match snd ?r with _ => _ end = _ =>
                           destruct r as [? [?|]]; [discriminate He|]
                       end;
          simpl in H; returns_nil H).
Qed.

(** C8. A failed reconciliation call does not fail the operation: a run
    of [Create] in which a read or a set of the Flexvol size fails (these
    only happen in the reconciliation, after the LUN was created and
    tagged) returns nil, and a run of [Resize] in which such a call
    fails after the LUN resize call has succeeded returns nil. *)
Theorem reconcile_failure_is_warning :
  (forall (volConfig : VolumeConfig) (storagePool : Pool)
          (volAttributes : VolAttributes) (tr : Trace)
          (res : VolumeConfig * goerror),
      exec (Create pkg d volConfig storagePool volAttributes) tr res ->
      forall e, In e tr -> reconcileFailed e = true -> snd res = None)
  /\ (forall (volConfig : VolumeConfig) (sizeBytes : Z) (tr : Trace)
             (res : VolumeConfig * goerror),
         exec (Resize pkg d volConfig sizeBytes) tr res ->
         forall tr1 l tr2 e,
           tr = tr1 ++ l :: tr2 -> lunResized l = true ->
           In e tr2 -> reconcileFailed e = true -> snd res = None).
Proof.
  split.
  - intros volConfig storagePool volAttributes tr res H e Hin He.
    eapply Create_reconcile; eauto using reconcileFailed_call.
  - intros volConfig sizeBytes tr res H tr1 l tr2 e -> Hl _ _.
    eapply Resize_after_lun_resize; [exact H | | exact Hl].
    apply in_or_app; right; left; reflexivity.
Qed.

End CreateFacts.

(** ** Import *)

Section ImportFacts.

Variables (volConfig : VolumeConfig) (originalName : string).

Local Notation imports := (importRun volConfig originalName).

Lemma importRun_validate (flexvol : VolumeAttributesType)
    (lunInfo : LunInfoType) (tr : Trace) (res : VolumeConfig * goerror) :
  imports flexvol lunInfo tr res
  <-> exec (importValidate volConfig originalName flexvol (Some lunInfo)) tr res.
Proof.
  unfold importRun, Import. rewrite exec_Vis_cons; simpl.
  rewrite exec_Vis_cons; simpl. reflexivity.
Qed.

(** C10. [Import] checks the type of the volume and the online flag of
    the LUN only when the controller's reply carries them.  When the type
    is absent the result is never the "type is not rw" error, and when the
    online flag is absent the result is never the "LUN is not online"
    error; the import goes on exactly as for a volume of type rw (for a
    reply without any id attributes: in a managed import, which is the one
    that does not read them again), and exactly as for a LUN that is
    online. *)
Theorem Import_skips_absent_attributes (flexvol : VolumeAttributesType)
    (lunInfo : LunInfoType) (tr : Trace) (res : VolumeConfig * goerror) :
  (volumeType flexvol = None ->
   imports flexvol lunInfo tr res ->
   forall type,
     snd res <> Some (Errorf "volume %s type is %s, not rw"
                             [AStr originalName; AStr type]))
  /\ (lunInfo.(OnlinePtr) = None ->
      imports flexvol lunInfo tr res ->
      snd res <> Some (Errorf "LUN %s is not online" [AStr lunInfo.(Path)]))
  /\ (forall volumeIdAttrs,
        flexvol.(VolumeIdAttributesPtr) = Some volumeIdAttrs ->
        volumeIdAttrs.(TypePtr) = None ->
        (imports flexvol lunInfo tr res
         <-> imports (volumeOfType "rw") lunInfo tr res))
  /\ (flexvol.(VolumeIdAttributesPtr) = None ->
      volConfig.(ImportNotManaged) = false ->
      (imports flexvol lunInfo tr res
       <-> imports (volumeOfType "rw") lunInfo tr res))
  /\ (lunInfo.(OnlinePtr) = None ->
      (imports flexvol lunInfo tr res
       <-> imports flexvol (withOnline lunInfo true) tr res)).
Proof.
  rewrite !importRun_validate.
  destruct flexvol as [idAttrs], lunInfo as [path online size mapped];
    unfold volumeType; simpl.
  split; [|split; [|split; [|split]]].
  - intros Htype H type. unfold importValidate in H.
    destruct idAttrs as [[[ty|]]|]; simpl in Htype, H;
      [discriminate Htype | |]; walk_result H.
  - intros -> H. unfold importValidate in H; simpl in H.
    destruct idAttrs as [[[ty|]]|]; simpl in H;
      walk_result H.
  - intros [ty] [= ->] Hty; simpl in Hty; subst ty.
    rewrite !importRun_validate. reflexivity.
  - intros -> Hmanaged. rewrite !importRun_validate.
    unfold importValidate; simpl. rewrite Hmanaged. reflexivity.
  - intros ->. rewrite !importRun_validate. reflexivity.
Qed.

End ImportFacts.

(** ** Resize: the size reported after a grow *)

Section ResizeReport.

Variables (CommonConfig VolAttributes : Type).
Variable pkg : Package CommonConfig VolAttributes.
Variable d : SANStorageDriver CommonConfig.

(** Line 1070 runs on every path after the LUN resize call: whatever the
    reconciliation read or set, the size reported in [volConfig.Size] is
    the size the LUN resize call returned. *)
Lemma Resize_reports_lun_size (volConfig : VolumeConfig) (sizeBytes : Z)
    (tr : Trace) (res : VolumeConfig * goerror) :
  exec (Resize pkg d volConfig sizeBytes) tr res ->
  forall l returnSize,
    In l tr -> lunResizedTo l = Some returnSize ->
    (fst res).(Size) = GoInt.FormatUint returnSize.
Proof.
  unfold Resize; intros H l returnSize Hin He.
  walk_to H Hin He
    ltac:(simpl in He; match type of He with
                       | match snd ?r with _ => _ end = _ =>
                           destruct r as [? [?|]]; [discriminate He|]
                       end;
          simpl in He; injection He as ->; simpl in H;
          repeat
            match type of H with
            | exec (Vis _ _) _ _ =>
                let r := fresh "r" in
                let tr := fresh "tr" in
                let Heq := fresh "Heq" in
                destruct H as (r & tr & Heq & H); clear Heq; simpl in H
            | exec (Ret _) _ _ => destruct H as [_ ->]; reflexivity
            | exec (match ?x with _ => _ end) _ _ =>
                let y := scrutinee x in destruct y; simpl in H
            end).
Qed.

End ResizeReport.

(** * Concrete runs *)

(** C1, the claim as stated fails: the probe finds "vol1", and [Create]
    returns the volume-exists error, not nil. *)
Lemma Create_existing_volume_is_error :
  run (Demo.answering Demo.existing)
      (Create Demo.pkg (Demo.driver "csi") (Demo.volConfig "1000")
              Demo.storagePool tt) tt
  = ((Demo.volConfig "1000", Some (VolumeExistsError "vol1")),
     [Ev (VolumeExists "vol1") (true, None)], tt)
  /\ ~ (forall tr res,
          exec (Create Demo.pkg (Demo.driver "csi") (Demo.volConfig "1000")
                       Demo.storagePool tt)
               (Ev (VolumeExists "vol1") (true, None) :: tr) res ->
          snd res = None).
Proof.
  split; [reflexivity|].
  intros Hclaim.
  specialize (Hclaim [] (Demo.volConfig "1000", Some (VolumeExistsError "vol1"))).
  discriminate Hclaim.
  apply (run_exec (Demo.answering Demo.existing) _ tt _ _ tt); reflexivity.
Qed.

(** C1 (amended) at "vol1". *)
Lemma Create_existing_volume_witness :
  exec (Create Demo.pkg (Demo.driver "csi") (Demo.volConfig "1000")
               Demo.storagePool tt)
       [Ev (VolumeExists "vol1") (true, None)]
       (Demo.volConfig "1000", Some (VolumeExistsError "vol1"))
  /\ ((Demo.volConfig "1000", Some (VolumeExistsError "vol1"))
      = (Demo.volConfig "1000", Some (VolumeExistsError "vol1"))
      /\ @nil Event = []).
Proof.
  assert (H : exec (Create Demo.pkg (Demo.driver "csi") (Demo.volConfig "1000")
                           Demo.storagePool tt)
                   [Ev (VolumeExists "vol1") (true, None)]
                   (Demo.volConfig "1000", Some (VolumeExistsError "vol1"))).
  { apply (run_exec (Demo.answering Demo.existing) _ tt _ _ tt); reflexivity. }
  split; [exact H|].
  exact (Create_existing_volume unit unit Demo.pkg (Demo.driver "csi")
           (Demo.volConfig "1000") Demo.storagePool tt [] _ H).
Defined.

(** C2, the failing input.  "vol1" is 1 GiB and is resized to 2 GiB; the
    LUN resize call returns 2147485696; the reconciliation sets the Flexvol
    to that size and reads back 2147487744.  [Resize] reports 2147485696,
    the size of the LUN, not the size read back. *)
Lemma Resize_reports_lun_size_not_reread :
  run (Demo.sizing Demo.rounding)
      (Resize Demo.pkg (Demo.driver "csi") (Demo.volConfig "1073741824")
              2147483648)
      [(1073741824, None); (2147483648, None); (2147487744, None)]
  = ((Demo.volConfig "2147485696", None),
     [Ev (VolumeExists "vol1") (true, None);
      Ev (VolumeSize "vol1") (1073741824, None);
      Ev (checkAggregateLimitsForFlexvol "vol1" 2147483648) None;
      Ev (SupportsFeature "LUN_GEOMETRY_SKIP") true;
      Ev (VolumeSetSize "vol1" "2147483648") (Some Passed, None);
      Ev (LunResize "/vol/vol1/lun0" 2147483648) (2147485696, None);
      Ev (VolumeSize "vol1") (2147483648, None);
      Ev (VolumeSetSize "vol1" "2147485696") (Some Passed, None);
      Ev (VolumeSize "vol1") (2147487744, None)],
     [])
  /\ Demo.volConfig "2147485696" <> Demo.volConfig "2147487744".
Proof. split; [vm_compute; reflexivity | discriminate]. Qed.



(** C4, the claim as stated fails.  With the single candidate aggr1, on
    which the Flexvol is created and the LUN create call fails, [Create]
    returns the backend-ineligible error with one error, and the Flexvol
    "vol1" that the controller created is still there: the run has no
    destroy call.  With the same candidate failing at the file system
    type instead, [Create] does not return the backend-ineligible error
    at all. *)
Lemma Create_failed_candidate_leaves_volume :
  (let '(res, tr, _) :=
     run (Demo.answering Demo.lunCreateFails)
         (Create (Demo.pkgWith [Demo.aggr1]) (Demo.driver "csi")
                 (Demo.volConfig "1000") Demo.storagePool tt) tt in
   res = (Demo.volConfig "1000",
          Some (BackendIneligibleError "vol1"
                  [Errorf "ONTAP-SAN pool %s/%s; error creating LUN %s: %v"
                     [AStr "pool1"; AStr "aggr1"; AStr "vol1";
                      AErr (OtherError "no space left on aggregate")]]
                  ["aggr1"]))
   /\ calls tr
      = [VolumeExists "vol1"; checkAggregateLimits "aggr1" "none" 1000;
         VolumeCreate "vol1" "aggr1" "1000" "none" "" "" "" "" "none" false 0;
         LunCreate "/vol/vol1/lun0" 1000 "linux" false false]
   /\ createdVolumes tr = ["vol1"])
  /\ (let '(res, tr, _) :=
        run (Demo.answering Demo.setAttributeFails)
            (Create (Demo.pkgWith [Demo.aggr1]) (Demo.driver "csi")
                    (Demo.volConfig "1000") Demo.storagePool tt) tt in
      res = (Demo.volConfig "1000",
             Some (Errorf "ONTAP-SAN pool %s/%s; error saving file system type for LUN %s: %v"
                     [AStr "pool1"; AStr "aggr1"; AStr "vol1";
                      AErr (ZapiError "13115" "invalid attribute")]))
      /\ createdVolumes tr = ["vol1"]).
Proof. vm_compute; repeat split; reflexivity. Qed.

(** C4 (amended) on two candidates: aggr1 fails the limits check and the
    volume create call on aggr2 fails for lack of space. *)
Lemma Create_all_candidates_fail_witness :
  let failures :=
    [(Demo.aggr1, FailLimits (OtherError "aggregate usage above the limit"));
     (Demo.aggr2,
      FailVolumeCreate (Some (Failed "13001" "insufficient space"), None))] in
  let tr :=
    [Ev (checkAggregateLimits "aggr1" "none" 1000)
        (Some (OtherError "aggregate usage above the limit"));
     Ev (checkAggregateLimits "aggr2" "none" 1000) None;
     Ev (VolumeCreate "vol1" "aggr2" "1000" "none" "" "" "" "" "none" false 0)
        (Some (Failed "13001" "insufficient space"), None)] in
  let res :=
    (Demo.volConfig "1000",
     Some (BackendIneligibleError "vol1"
             [Errorf "ONTAP-SAN pool %s/%s; error: %v"
                [AStr "pool1"; AStr "aggr1";
                 AErr (OtherError "aggregate usage above the limit")];
              Errorf "ONTAP-SAN pool %s/%s; error creating volume %s: %v"
                [AStr "pool1"; AStr "aggr2"; AStr "vol1";
                 AErr (ZapiError "13001" "insufficient space")]]
             ["aggr1"; "aggr2"])) in
  forallb (fun pf => isFailure Demo.pkg (snd pf)) failures = true
  /\ exec (Demo.loop [Demo.aggr1; Demo.aggr2] (map fst failures) [] []) tr res
  /\ createdVolumes tr = [].
Proof.
  intros failures tr res.
  assert (H : exec (Demo.loop [Demo.aggr1; Demo.aggr2] (map fst failures) [] [])
                   tr res).
  { apply (run_exec (Demo.answering Demo.noSpace) _ tt _ _ tt); reflexivity. }
  split; [reflexivity|]. split; [exact H|].
  refine (proj2 (proj2 (proj2
    (Create_all_candidates_fail unit unit
       (Demo.pkgWith [Demo.aggr1; Demo.aggr2]) (Demo.driver "csi")
       (Demo.volConfig "1000") Demo.storagePool
       "vol1" "1000" "none" "" "" "" "" "none" "ext4" 1000 0 false false
       failures res eq_refl H))) eq_refl).
Defined.

(** C5 on a controller that answers the volume create call on aggr1 with
    "Job exists ". *)
Lemma Create_job_exists_witness :
  let tr1 :=
    [Ev (VolumeExists "vol1") (false, None);
     Ev (checkAggregateLimits "aggr1" "none" 1000) None] in
  let e :=
    Ev (VolumeCreate "vol1" "aggr1" "1000" "none" "" "" "" "" "none" false 0)
       (Some (Failed "13001" "Job exists "), None) in
  exec (Create Demo.pkg (Demo.driver "csi") (Demo.volConfig "1000")
               Demo.storagePool tt)
       (tr1 ++ [e]) (Demo.volConfig "1000", None)
  /\ volumeCreateError e = Some (ZapiError "13001" "Job exists ")
  /\ isJobExists Demo.pkg (ZapiError "13001" "Job exists ") = true
  /\ @nil Event = [].
Proof.
  intros tr1 e.
  assert (H : exec (Create Demo.pkg (Demo.driver "csi") (Demo.volConfig "1000")
                           Demo.storagePool tt)
                   (tr1 ++ [e]) (Demo.volConfig "1000", None)).
  { apply (run_exec (Demo.answering Demo.jobExists) _ tt _ _ tt); reflexivity. }
  split; [exact H|]. split; [reflexivity|]. split; [reflexivity|].
  exact (proj2
    (Create_job_exists unit unit Demo.pkg (Demo.driver "csi")
       (Demo.volConfig "1000") Demo.storagePool tt (tr1 ++ [e]) _ H
       tr1 e [] (ZapiError "13001" "Job exists ") eq_refl eq_refl eq_refl)).
Defined.

(** C8 on a controller whose size read fails during the reconciliation:
    in [Create] after the LUN was created and tagged, in [Resize] after
    the LUN was resized. *)
Lemma reconcile_failure_is_warning_witness :
  let failed := Ev (VolumeSize "vol1") (0, Some (OtherError "timeout")) in
  let resized :=
    Ev (LunResize "/vol/vol1/lun0" 2147483648) (2147485696, None) in
  let created :=
    [Ev (VolumeExists "vol1") (false, None);
     Ev (checkAggregateLimits "aggr1" "none" 1000) None;
     Ev (VolumeCreate "vol1" "aggr1" "1000" "none" "" "" "" "" "none" false 0)
        (Some Passed, None);
     Ev (LunCreate "/vol/vol1/lun0" 1000 "linux" false false)
        (Some {| lunCreateStatus := Passed; ActualSize := 1000 |}, None);
     Ev (LunSetAttribute "/vol/vol1/lun0" "com.netapp.ndvp.fstype" "ext4")
        (Some Passed, None);
     Ev (LunSetAttribute "/vol/vol1/lun0" "context" "csi") (Some Passed, None)] in
  let grown :=
    [Ev (VolumeExists "vol1") (true, None);
     Ev (VolumeSize "vol1") (1073741824, None);
     Ev (checkAggregateLimitsForFlexvol "vol1" 2147483648) None;
     Ev (SupportsFeature "LUN_GEOMETRY_SKIP") true;
     Ev (VolumeSetSize "vol1" "2147483648") (Some Passed, None)] in
  exec (Create Demo.pkg (Demo.driver "csi") (Demo.volConfig "1000")
               Demo.storagePool tt)
       (created ++ [failed]) (Demo.volConfig "1000", None)
  /\ exec (Resize Demo.pkg (Demo.driver "csi") (Demo.volConfig "1073741824")
                  2147483648)
          (grown ++ resized :: [failed]) (Demo.volConfig "2147485696", None)
  /\ reconcileFailed failed = true
  /\ lunResized resized = true
  /\ snd (Demo.volConfig "1000", @None error) = None
  /\ snd (Demo.volConfig "2147485696", @None error) = None.
Proof.
  intros failed resized created grown.
  assert (Hc : exec (Create Demo.pkg (Demo.driver "csi") (Demo.volConfig "1000")
                            Demo.storagePool tt)
                    (created ++ [failed]) (Demo.volConfig "1000", None)).
  { apply (run_exec (Demo.sizing Demo.okReply) _
             [(0, Some (OtherError "timeout"))] _ _ []).
    vm_compute; reflexivity. }
  assert (Hr : exec (Resize Demo.pkg (Demo.driver "csi")
                            (Demo.volConfig "1073741824") 2147483648)
                    (grown ++ resized :: [failed])
                    (Demo.volConfig "2147485696", None)).
  { apply (run_exec (Demo.sizing Demo.rounding) _
             [(1073741824, None); (0, Some (OtherError "timeout"))] _ _ []).
    vm_compute; reflexivity. }
  destruct (reconcile_failure_is_warning unit unit Demo.pkg
              (Demo.driver "csi")) as [HC HR].
  split; [exact Hc|]. split; [exact Hr|].
  split; [reflexivity|]. split; [reflexivity|].
  split.
  - refine (HC _ _ _ _ _ Hc failed _ eq_refl).
    apply in_or_app; right; left; reflexivity.
  - exact (HR _ _ _ _ Hr grown resized [failed] failed eq_refl eq_refl
              (or_introl eq_refl) eq_refl).
Defined.

(** C10 on a managed import of "vol0" whose controller replies carry
    neither the type of the volume nor the online flag of the LUN. *)
Lemma Import_skips_absent_attributes_witness :
  let flexvol := {| VolumeIdAttributesPtr := Some {| TypePtr := None |} |} in
  let lunInfo := {| Path := "/vol/vol0/lun0"; OnlinePtr := None;
                    SizePtr := Some 1000; MappedPtr := Some true |} in
  let tr := [Ev (VolumeRename "vol0" "vol1") (Some Passed, None)] in
  volumeType flexvol = None
  /\ lunInfo.(OnlinePtr) = None
  /\ importRun (Demo.volConfig "") "vol0" flexvol lunInfo tr
               (Demo.volConfig "1000", None)
  /\ importRun (Demo.volConfig "") "vol0" (volumeOfType "rw") lunInfo tr
               (Demo.volConfig "1000", None)
  /\ importRun (Demo.volConfig "") "vol0" flexvol (withOnline lunInfo true) tr
               (Demo.volConfig "1000", None).
Proof.
  intros flexvol lunInfo tr.
  assert (H : importRun (Demo.volConfig "") "vol0" flexvol lunInfo tr
                        (Demo.volConfig "1000", None)).
  { apply (run_exec (Demo.answering Demo.untyped) _ tt _ _ tt); reflexivity. }
  destruct (Import_skips_absent_attributes (Demo.volConfig "") "vol0"
              flexvol lunInfo tr (Demo.volConfig "1000", None))
    as (_ & _ & Hrw & _ & Honline).
  split; [reflexivity|]. split; [reflexivity|]. split; [exact H|].
  split.
  - exact (proj1 (Hrw {| TypePtr := None |} eq_refl eq_refl) H).
  - exact (proj1 (Honline eq_refl) H).
Defined.

(** * Further properties *)

(** ** Create: what the loop calls, and in which order *)

Section LoopMore.

Variables (CommonConfig VolAttributes : Type).
Variable pkg : Package CommonConfig VolAttributes.
Variable d : SANStorageDriver CommonConfig.
Variables (volConfig : VolumeConfig) (storagePool : Pool).
Variables (name size spaceReserve snapshotPolicy unixPermissions
           exportPolicy securityStyle tieringPolicy fstype : string).
Variables (sizeBytes snapshotReserveInt : Z).
Variables (spaceAllocation enableEncryption : bool).

Local Notation loop :=
  (createLoop pkg d volConfig storagePool name size spaceReserve
     snapshotPolicy unixPermissions exportPolicy securityStyle tieringPolicy
     fstype sizeBytes snapshotReserveInt spaceAllocation enableEncryption).
Local Notation limits := (limitsCall spaceReserve sizeBytes).
Local Notation volumeCreate :=
  (volumeCreateCall name size spaceReserve snapshotPolicy unixPermissions
     exportPolicy securityStyle tieringPolicy snapshotReserveInt
     enableEncryption).
Local Notation lunCreate := (lunCreateCall name sizeBytes spaceAllocation).
Local Notation setFstype := (fstypeCall pkg name fstype).
Local Notation setContext := (contextCall d name).
Local Notation reconcile := (createReconcile volConfig name).

Lemma reconcileCall_createCall (tr : Trace) :
  Forall (fun e => reconcileCall (callOf e) = true) tr ->
  Forall (fun e => createCall (callOf e) = true
                   /\ isLunDestroy (callOf e) = false) tr.
Proof.
  apply Forall_impl. intros [c r]; destruct c; simpl; auto; discriminate.
Qed.

(** The loop only makes the calls of [createCall]; a LUN destroy call is
    the last call of the run and comes with the file system type error. *)
Lemma createLoop_calls (pools : list Pool) :
  forall (errs : list error) (names : list string) (tr : Trace)
         (res : VolumeConfig * goerror),
    exec (loop pools errs names) tr res ->
    Forall (fun e => createCall (callOf e) = true) tr
    /\ (forall tr1 e tr2,
          tr = tr1 ++ e :: tr2 -> isLunDestroy (callOf e) = true ->
          tr2 = []
          /\ exists p err, snd res = Some (fstypeError storagePool name p err)).
Proof.
  induction pools as [|p rest IH]; intros errs names tr res H.
  { destruct H as [-> _]; split; [constructor|].
    intros tr1 e tr2 Htr; destruct (app_cons_not_nil _ _ _ Htr). }
  apply createLoop_turn in H
    as [(le & tr' & -> & H)
       |[(volReply & verr & tr' & -> & Hv & H)
        |[(volReply & lunReply & lerr & tr' & -> & Hv & Hl & H)
         |[(volReply & lunReply & attrReply & aerr & dr & -> & Hv & Hl & Ha & ->)
          |(volReply & response & lunErr & attrReply & ctxReply & tr' & ->
            & Hv & Hl & Ha & H)]]]].
  - destruct (IH _ _ _ _ H) as [Hc Hd]. split; [repeat constructor; exact Hc|].
    intros tr1 e tr2 Htr He. symmetry in Htr.
    peel Htr ltac:(discriminate He). symmetry in Htr; eauto.
  - assert (Htail : Forall (fun e => createCall (callOf e) = true) tr'
              /\ (forall tr1 e tr2,
                    tr' = tr1 ++ e :: tr2 -> isLunDestroy (callOf e) = true ->
                    tr2 = []
                    /\ exists p err,
                        snd res = Some (fstypeError storagePool name p err))).
    { destruct (isJobExists pkg verr); [|eauto].
      destruct H as [-> _]; split; [constructor|].
      intros tr1 e tr2 Htr; destruct (app_cons_not_nil _ _ _ Htr). }
    destruct Htail as [Hc Hd]. split; [repeat constructor; exact Hc|].
    intros tr1 e tr2 Htr He. symmetry in Htr.
    peel Htr ltac:(discriminate He). symmetry in Htr; eauto.
  - destruct (IH _ _ _ _ H) as [Hc Hd]. split; [repeat constructor; exact Hc|].
    intros tr1 e tr2 Htr He. symmetry in Htr.
    peel Htr ltac:(discriminate He). symmetry in Htr; eauto.
  - split; [repeat constructor|].
    intros tr1 e tr2 Htr He. symmetry in Htr.
    do 4 (apply app_cons_split in Htr
            as [(-> & -> & ->) | (? & -> & Htr)]; [discriminate He|]).
    apply app_cons_split in Htr as [(-> & -> & <-) | (? & -> & Htr)].
    + split; [reflexivity|]. exists p, aerr; reflexivity.
    + symmetry in Htr; destruct (app_cons_not_nil _ _ _ Htr).
  - apply createReconcile_success in H as [_ Hcalls].
    apply reconcileCall_createCall in Hcalls.
    split.
    + repeat constructor. revert Hcalls; apply Forall_impl; tauto.
    + intros tr1 e tr2 Htr He. symmetry in Htr.
      peel Htr ltac:(discriminate He).
      subst tr'. apply Forall_app in Hcalls as [_ Hcalls].
      inversion Hcalls as [|? ? [_ Hno] _]; subst.
      rewrite He in Hno; discriminate.
Qed.

Lemma limitChecks_app (tr1 tr2 : Trace) :
  limitChecks (tr1 ++ tr2) = limitChecks tr1 ++ limitChecks tr2.
Proof.
  induction tr1 as [|e tr1 IH]; simpl; [reflexivity|].
  destruct (limitsCheck (callOf e)); simpl; rewrite IH; reflexivity.
Qed.

Lemma limitChecks_reconcile (tr : Trace) :
  Forall (fun e => reconcileCall (callOf e) = true) tr -> limitChecks tr = [].
Proof.
  induction 1 as [|[c r] tr Hc _ IH]; [reflexivity|].
  destruct c; simpl in *; try discriminate; exact IH.
Qed.

(** The pools are checked one after the other, in their order. *)
Lemma createLoop_pool_order (pools : list Pool) :
  forall (errs : list error) (names : list string) (tr : Trace)
         (res : VolumeConfig * goerror),
    exec (loop pools errs names) tr res ->
    exists rest, map Name pools = limitChecks tr ++ rest.
Proof.
  induction pools as [|p rest IH]; intros errs names tr res H.
  { destruct H as [-> _]; exists []; reflexivity. }
  apply createLoop_turn in H
    as [(le & tr' & -> & H)
       |[(volReply & verr & tr' & -> & Hv & H)
        |[(volReply & lunReply & lerr & tr' & -> & Hv & Hl & H)
         |[(volReply & lunReply & attrReply & aerr & dr & -> & Hv & Hl & Ha & ->)
          |(volReply & response & lunErr & attrReply & ctxReply & tr' & ->
            & Hv & Hl & Ha & H)]]]]; cbn [map limitChecks callOf projT1 Ev
                                           limitsCheck limitsCall
                                           volumeCreateCall lunCreateCall
                                           fstypeCall contextCall].
  - destruct (IH _ _ _ _ H) as [rest' ->]. exists rest'; reflexivity.
  - destruct (isJobExists pkg verr).
    + destruct H as [-> _]. exists (map Name rest); reflexivity.
    + destruct (IH _ _ _ _ H) as [rest' ->]. exists rest'; reflexivity.
  - destruct (IH _ _ _ _ H) as [rest' ->]. exists rest'; reflexivity.
  - exists (map Name rest); reflexivity.
  - apply createReconcile_success in H as [_ Hcalls].
    rewrite (limitChecks_reconcile _ Hcalls).
    exists (map Name rest); reflexivity.
Qed.

(** A Flexvol is only created on an aggregate whose limits check, the
    call just before, found no violation. *)
Lemma createLoop_volume_after_limits (pools : list Pool) :
  forall (errs : list error) (names : list string) (tr : Trace)
         (res : VolumeConfig * goerror),
    exec (loop pools errs names) tr res ->
    forall tr1 e tr2 aggregate,
      tr = tr1 ++ e :: tr2 ->
      volumeCreateOn (callOf e) = Some aggregate ->
      exists tr0 l, tr1 = tr0 ++ [l] /\ limitsPassedOn aggregate l = true.
Proof.
  induction pools as [|p rest IH];
    intros errs names tr res H tr1 e tr2 aggregate Htr He.
  { destruct H as [-> _]; destruct (app_cons_not_nil _ _ _ Htr). }
  assert (Hpassed : limitsPassedOn (Name p) (Ev (limits p) None) = true)
    by (simpl; apply String.eqb_refl).
  symmetry in Htr.
  apply createLoop_turn in H
    as [(le & tr' & -> & H)
       |[(volReply & verr & tr' & -> & Hv & H)
        |[(volReply & lunReply & lerr & tr' & -> & Hv & Hl & H)
         |[(volReply & lunReply & attrReply & aerr & dr & -> & Hv & Hl & Ha & ->)
          |(volReply & response & lunErr & attrReply & ctxReply & tr' & ->
            & Hv & Hl & Ha & H)]]]].
  - apply app_cons_split in Htr as [(-> & -> & ->) | (pre & -> & Htr)];
      [discriminate He|].
    symmetry in Htr. destruct (IH _ _ _ _ H _ _ _ _ Htr He) as (tr0 & l & -> & Hl).
    exists (Ev (limits p) (Some le) :: tr0), l; auto.
  - apply app_cons_split in Htr as [(-> & -> & ->) | (pre & -> & Htr)];
      [discriminate He|].
    apply app_cons_split in Htr as [(-> & -> & ->) | (pre' & -> & Htr)].
    + injection He as <-. exists [], (Ev (limits p) None); auto.
    + destruct (isJobExists pkg verr).
      * destruct H as [-> _].
        symmetry in Htr; destruct (app_cons_not_nil _ _ _ Htr).
      * symmetry in Htr.
        destruct (IH _ _ _ _ H _ _ _ _ Htr He) as (tr0 & l & -> & Hl0).
        exists (Ev (limits p) None :: Ev (volumeCreate p) volReply :: tr0), l.
        auto.
  - apply app_cons_split in Htr as [(-> & -> & ->) | (pre & -> & Htr)];
      [discriminate He|].
    apply app_cons_split in Htr as [(-> & -> & ->) | (pre' & -> & Htr)].
    + injection He as <-. exists [], (Ev (limits p) None); auto.
    + apply app_cons_split in Htr as [(-> & -> & ->) | (pre'' & -> & Htr)];
        [discriminate He|].
      symmetry in Htr.
      destruct (IH _ _ _ _ H _ _ _ _ Htr He) as (tr0 & l & -> & Hl0).
      exists (Ev (limits p) None :: Ev (volumeCreate p) volReply
              :: Ev lunCreate lunReply :: tr0), l.
      auto.
  - apply app_cons_split in Htr as [(-> & -> & ->) | (pre & -> & Htr)];
      [discriminate He|].
    apply app_cons_split in Htr as [(-> & -> & ->) | (pre' & -> & Htr)].
    + injection He as <-. exists [], (Ev (limits p) None); auto.
    + peel Htr ltac:(discriminate He).
      symmetry in Htr; destruct (app_cons_not_nil _ _ _ Htr).
  - apply app_cons_split in Htr as [(-> & -> & ->) | (pre & -> & Htr)];
      [discriminate He|].
    apply app_cons_split in Htr as [(-> & -> & ->) | (pre' & -> & Htr)].
    + injection He as <-. exists [], (Ev (limits p) None); auto.
    + peel Htr ltac:(discriminate He).
      apply createReconcile_success in H as [_ Hcalls].
      subst tr'. apply Forall_app in Hcalls as [_ Hcalls].
      inversion Hcalls as [|? ? Hrec _]; subst.
      destruct e as [c r]; destruct c; simpl in *; discriminate.
Qed.

(** Every read or set of the Flexvol size lies in the reconciliation that
    ends the run. *)
Lemma createLoop_tail (pools : list Pool) :
  forall (errs : list error) (names : list string) (tr : Trace)
         (res : VolumeConfig * goerror),
    exec (loop pools errs names) tr res ->
    forall tr1 e tr2,
      tr = tr1 ++ e :: tr2 -> reconcileCall (callOf e) = true ->
      exists lunSize pre, exec (reconcile lunSize) (pre ++ e :: tr2) res.
Proof.
  induction pools as [|p rest IH]; intros errs names tr res H tr1 e tr2 Htr He.
  { destruct H as [-> _]; destruct (app_cons_not_nil _ _ _ Htr). }
  symmetry in Htr.
  apply createLoop_turn in H
    as [(le & tr' & -> & H)
       |[(volReply & verr & tr' & -> & Hv & H)
        |[(volReply & lunReply & lerr & tr' & -> & Hv & Hl & H)
         |[(volReply & lunReply & attrReply & aerr & dr & -> & Hv & Hl & Ha & ->)
          |(volReply & response & lunErr & attrReply & ctxReply & tr' & ->
            & Hv & Hl & Ha & H)]]]].
  - peel Htr ltac:(discriminate He). symmetry in Htr; eauto.
  - peel Htr ltac:(discriminate He).
    destruct (isJobExists pkg verr).
    + destruct H as [-> _].
      symmetry in Htr; destruct (app_cons_not_nil _ _ _ Htr).
    + symmetry in Htr; eauto.
  - peel Htr ltac:(discriminate He). symmetry in Htr; eauto.
  - peel Htr ltac:(discriminate He).
    symmetry in Htr; destruct (app_cons_not_nil _ _ _ Htr).
  - peel Htr ltac:(discriminate He).
    subst tr'. eauto.
Qed.

(** What the reconciliation after a create reports in [volConfig.Size]. *)
Lemma createReconcile_reports (lunSize : Z) (tr : Trace)
    (res : VolumeConfig * goerror) :
  exec (reconcile lunSize) tr res ->
  (forall pre e1 e2 adjusted,
      tr = pre ++ [e1; e2] -> sizeSet e1 = true ->
      sizeRead e2 = Some adjusted ->
      res = (setSize volConfig (GoInt.FormatUint (GoInt.uint64 adjusted)), None))
  /\ (forall pre e0 e1 initial,
        tr = pre ++ [e0; e1] -> sizeRead e0 = Some initial ->
        sizeSetFailed e1 = true ->
        res = (setSize volConfig (GoInt.FormatUint (GoInt.uint64 initial)), None))
  /\ (forall pre e,
        tr = pre ++ [e] -> reconcileFailed e = true -> sizeSetFailed e = false ->
        res = (volConfig, None)).
Proof.
  unfold createReconcile; intros H.
  exec_call H r1 tr1. destruct r1 as [initialVolumeSize [err|]]; simpl in H.
  { destruct H as [-> ->]. split; [|split]; intros; ends_with. }
  destruct (negb _).
  2:{ destruct H as [-> ->]. split; [|split]; intros; ends_with. }
  exec_call H r2 tr2. destruct r2 as [resp err].
  destruct (GetError id resp err) eqn:Hset; simpl in H.
  { destruct H as [-> ->]. split; [|split]; intros; ends_with. }
  exec_call H r3 tr3. destruct r3 as [adjusted' [err'|]]; simpl in H;
    destruct H as [-> ->]; (split; [|split]); intros; ends_with.
Qed.

(** The volume create calls of the loop are those of its pools, and its
    LUN create calls are all the same call. *)
Lemma createLoop_args (pools : list Pool) :
  forall (errs : list error) (names : list string) (tr : Trace)
         (res : VolumeConfig * goerror),
    exec (loop pools errs names) tr res ->
    forall e, In e tr ->
      (volumeCreateOn (callOf e) <> None ->
       exists p, In p pools /\ callOf e = volumeCreate p)
      /\ (isLunCreate (callOf e) = true -> callOf e = lunCreate).
Proof.
  induction pools as [|p rest IH]; intros errs names tr res H e Hin.
  { destruct H as [-> _]; destruct Hin. }
  assert (Hrest : forall tr', (exists errs' names', exec (loop rest errs' names') tr' res) ->
            In e tr' ->
            (volumeCreateOn (callOf e) <> None ->
             exists p0, In p0 (p :: rest) /\ callOf e = volumeCreate p0)
            /\ (isLunCreate (callOf e) = true -> callOf e = lunCreate)).
  { intros tr' (errs' & names' & H') Hin'.
    destruct (IH _ _ _ _ H' e Hin') as [Hv Hl]. split; [|exact Hl].
    intros Hne. destruct (Hv Hne) as (p0 & Hp0 & Hc). exists p0; simpl; auto. }
  assert (Hhere : forall r, (volumeCreateOn (callOf (Ev (volumeCreate p) r)) <> None ->
             exists p0, In p0 (p :: rest)
                        /\ callOf (Ev (volumeCreate p) r) = volumeCreate p0)
            /\ (isLunCreate (callOf (Ev (volumeCreate p) r)) = true ->
                callOf (Ev (volumeCreate p) r) = lunCreate)).
  { intros r; split; [exists p; simpl; auto | discriminate]. }
  assert (Hother : forall c r, volumeCreateOn c = None -> isLunCreate c = false ->
            (volumeCreateOn (callOf (Ev c r)) <> None ->
             exists p0, In p0 (p :: rest) /\ callOf (Ev c r) = volumeCreate p0)
            /\ (isLunCreate (callOf (Ev c r)) = true ->
                callOf (Ev c r) = lunCreate)).
  { intros c r Hv Hl; simpl; rewrite Hv, Hl; split; [congruence | discriminate]. }
  assert (Hlun : forall r,
            (volumeCreateOn (callOf (Ev lunCreate r)) <> None ->
             exists p0, In p0 (p :: rest)
                        /\ callOf (Ev lunCreate r) = volumeCreate p0)
            /\ (isLunCreate (callOf (Ev lunCreate r)) = true ->
                callOf (Ev lunCreate r) = lunCreate)).
  { intros r; split; [simpl; congruence | reflexivity]. }
  apply createLoop_turn in H
    as [(le & tr' & -> & H)
       |[(volReply & verr & tr' & -> & Hv & H)
        |[(volReply & lunReply & lerr & tr' & -> & Hv & Hl & H)
         |[(volReply & lunReply & attrReply & aerr & dr & -> & Hv & Hl & Ha & ->)
          |(volReply & response & lunErr & attrReply & ctxReply & tr' & ->
            & Hv & Hl & Ha & H)]]]].
  - destruct Hin as [<- | Hin]; [apply Hother; reflexivity | eauto].
  - destruct Hin as [<- | [<- | Hin]];
      [apply Hother; reflexivity | apply Hhere |].
    destruct (isJobExists pkg verr); [destruct H as [-> _]; destruct Hin | eauto].
  - destruct Hin as [<- | [<- | [<- | Hin]]];
      [apply Hother; reflexivity | apply Hhere | apply Hlun | eauto].
  - destruct Hin as [<- | [<- | [<- | [<- | [<- | []]]]]];
      [apply Hother; reflexivity | apply Hhere | apply Hlun
      | apply Hother; reflexivity | apply Hother; reflexivity].
  - destruct Hin as [<- | [<- | [<- | [<- | [<- | Hin]]]]];
      [apply Hother; reflexivity | apply Hhere | apply (Hlun (Some response, lunErr))
      | apply Hother; reflexivity | apply Hother; reflexivity |].
    apply createReconcile_success in H as [_ Hcalls].
    rewrite Forall_forall in Hcalls. specialize (Hcalls e Hin).
    destruct e as [c r]; destruct c; simpl in *; try discriminate;
      (split; [congruence | discriminate]).
Qed.

End LoopMore.

(** ** Create: further properties of whole runs *)

Section CreateMore.

Variables (CommonConfig VolAttributes : Type).
Variable pkg : Package CommonConfig VolAttributes.
Variable d : SANStorageDriver CommonConfig.
Variables (volConfig : VolumeConfig) (storagePool : Pool)
          (volAttributes : VolAttributes).

Local Notation pools :=
  (fst (pkg.(getPoolsForCreate) volConfig storagePool volAttributes
          d.(physicalPools) d.(virtualPools))).

(** [Create_runs_loop] with what [Create] has established about the size
    when the loop starts. *)
Lemma Create_loop_size (tr : Trace) (res : VolumeConfig * goerror) :
  exec (Create pkg d volConfig storagePool volAttributes) tr res ->
  (exists reply e,
      tr = [Ev (VolumeExists volConfig.(InternalName)) reply]
      /\ res = (volConfig, Some e))
  \/ (exists spaceReserve snapshotPolicy unixPermissions exportPolicy
             securityStyle tieringPolicy fstype sizeBytes snapshotReserveInt
             spaceAllocation enableEncryption pre tr',
      tr = Ev (VolumeExists volConfig.(InternalName)) (false, None)
           :: pre ++ tr'
      /\ (pre = [] \/ exists policy, pre = [Ev TieringPolicyValue policy])
      /\ pkg.(CheckVolumeSizeLimits) sizeBytes
           d.(Config).(CommonStorageDriverConfig) = None
      /\ exec (createLoop pkg d volConfig storagePool
                 volConfig.(InternalName) (GoInt.FormatUint sizeBytes)
                 spaceReserve snapshotPolicy
                 unixPermissions exportPolicy securityStyle tieringPolicy
                 fstype sizeBytes snapshotReserveInt spaceAllocation
                 enableEncryption pools [] [])
              tr' res).
Proof.
  unfold Create; intros H.
  exec_call H r0 tr0. destruct r0 as [volExists [e|]]; simpl in H.
  { destruct H as [-> ->]; left; eauto. }
  destruct volExists; simpl in H.
  { destruct H as [-> ->]; left; eauto. }
  destruct (pkg.(getPoolsForCreate) _ _ _ _ _) as [candidates [e|]];
    [destruct H as [-> ->]; left; eauto|].
  repeat
    (match type of H with
     | exec (let (_, _) := ?x in _) _ _ => destruct x as [? [?|]]
     | exec (match ?x with _ => _ end) _ _ => destruct x eqn:?
     end;
     try (destruct H as [-> ->]; left; eexists _, _; split; reflexivity)).
  - exec_call H policy tr1.
    right. do 11 eexists. exists [Ev TieringPolicyValue policy], tr1.
    split; [reflexivity|]. split; [right; eauto|].
    split; [eassumption | exact H].
  - right. do 11 eexists. exists [], tr0.
    split; [reflexivity|]. split; [left; reflexivity|].
    split; [eassumption | exact H].
Qed.

Ltac create_cases H :=
  apply Create_runs_loop in H
    as [(?reply & ?e0 & -> & ->)
       |(?size & ?spaceReserve & ?snapshotPolicy & ?unixPermissions
         & ?exportPolicy & ?securityStyle & ?tieringPolicy & ?fstype
         & ?sizeBytes & ?snapshotReserveInt & ?spaceAllocation
         & ?enableEncryption & ?pre & ?tr' & -> & [-> | (?policy & ->)] & H)];
  cbn [app] in *.

(** X1. [Create] never destroys or renames a volume and never resizes or
    renames a LUN: every call of a run is the existence probe, the read
    of the tiering policy, an aggregate limits check, a volume or LUN
    create, a LUN attribute, a LUN destroy, or a read or set of the
    Flexvol size.  A LUN destroy call is the last call of its run, and
    the run then returns the file system type error. *)
Theorem Create_never_removes_volume (tr : Trace)
    (res : VolumeConfig * goerror) :
  exec (Create pkg d volConfig storagePool volAttributes) tr res ->
  Forall (fun e => createCall (callOf e) = true) tr
  /\ (forall tr1 e tr2,
        tr = tr1 ++ e :: tr2 -> isLunDestroy (callOf e) = true ->
        tr2 = []
        /\ exists p err,
            snd res = Some (fstypeError storagePool volConfig.(InternalName)
                              p err)).
Proof.
  intros H. create_cases H.
  - split; [repeat constructor|].
    intros tr1 e tr2 Htr He. symmetry in Htr.
    peel Htr ltac:(discriminate He).
    symmetry in Htr; destruct (app_cons_not_nil _ _ _ Htr).
  - apply createLoop_calls in H as [Hc Hd].
    split; [repeat constructor; exact Hc|].
    intros tr1 e tr2 Htr He. symmetry in Htr.
    peel Htr ltac:(discriminate He). symmetry in Htr; eauto.
  - apply createLoop_calls in H as [Hc Hd].
    split; [repeat constructor; exact Hc|].
    intros tr1 e tr2 Htr He. symmetry in Htr.
    peel Htr ltac:(discriminate He). symmetry in Htr; eauto.
Qed.

(** X2. [Create] checks the candidate pools one after the other in the
    order [getPoolsForCreate] gave them, each at most once: the
    aggregates of the limits checks of a run are a prefix of the names of
    the pools. *)
Theorem Create_tries_pools_in_order (tr : Trace)
    (res : VolumeConfig * goerror) :
  exec (Create pkg d volConfig storagePool volAttributes) tr res ->
  exists rest, map Name pools = limitChecks tr ++ rest.
Proof.
  intros H. create_cases H.
  - exists (map Name pools); reflexivity.
  - apply createLoop_pool_order in H; exact H.
  - apply createLoop_pool_order in H; exact H.
Qed.

(** X3. [Create] creates a Flexvol on an aggregate only directly after
    the limits check on that aggregate found no violation: the call
    before any volume create call is that check, answered nil. *)
Theorem Create_volume_after_limits (tr : Trace)
    (res : VolumeConfig * goerror) :
  exec (Create pkg d volConfig storagePool volAttributes) tr res ->
  forall tr1 e tr2 aggregate,
    tr = tr1 ++ e :: tr2 ->
    volumeCreateOn (callOf e) = Some aggregate ->
    exists tr0 l, tr1 = tr0 ++ [l] /\ limitsPassedOn aggregate l = true.
Proof.
  intros H tr1 e tr2 aggregate Htr He. symmetry in Htr. create_cases H.
  - peel Htr ltac:(discriminate He).
    symmetry in Htr; destruct (app_cons_not_nil _ _ _ Htr).
  - peel Htr ltac:(discriminate He). symmetry in Htr.
    lazymatch type of Htr with
    | _ = ?before ++ _ =>
        assert (Hx : exists tr0 l,
                   before = tr0 ++ [l] /\ limitsPassedOn aggregate l = true)
          by (eapply createLoop_volume_after_limits;
              [exact H | exact Htr | exact He])
    end.
    destruct Hx as (tr0 & l & -> & Hl).
    exists (Ev (VolumeExists (InternalName volConfig)) (false, None) :: tr0), l.
    auto.
  - peel Htr ltac:(discriminate He). symmetry in Htr.
    lazymatch type of Htr with
    | _ = ?before ++ _ =>
        assert (Hx : exists tr0 l,
                   before = tr0 ++ [l] /\ limitsPassedOn aggregate l = true)
          by (eapply createLoop_volume_after_limits;
              [exact H | exact Htr | exact He])
    end.
    destruct Hx as (tr0 & l & -> & Hl).
    exists (Ev (VolumeExists (InternalName volConfig)) (false, None)
            :: Ev TieringPolicyValue policy :: tr0), l.
    auto.
Qed.

(** X4. In a run of [Create] that changes anything, every candidate gets
    the same request: all volume create calls carry the internal name of
    the volume, the same options and the same size, and differ only in
    the aggregate, which is one of the candidate pools; all LUN create
    calls are for lun0 of that volume with that same size in bytes; and
    this size has passed [CheckVolumeSizeLimits]. *)
Theorem Create_same_request (tr : Trace) (res : VolumeConfig * goerror) :
  exec (Create pkg d volConfig storagePool volAttributes) tr res ->
  existsb mutates (calls tr) = true ->
  exists sizeBytes spaceReserve snapshotPolicy unixPermissions exportPolicy
         securityStyle tieringPolicy snapshotReserveInt spaceAllocation
         enableEncryption,
    pkg.(CheckVolumeSizeLimits) sizeBytes
      d.(Config).(CommonStorageDriverConfig) = None
    /\ forall e, In e tr ->
        (volumeCreateOn (callOf e) <> None ->
         exists p,
           In p pools
           /\ callOf e
              = volumeCreateCall volConfig.(InternalName)
                  (GoInt.FormatUint sizeBytes) spaceReserve snapshotPolicy
                  unixPermissions exportPolicy securityStyle tieringPolicy
                  snapshotReserveInt enableEncryption p)
        /\ (isLunCreate (callOf e) = true ->
            callOf e
            = lunCreateCall volConfig.(InternalName) sizeBytes spaceAllocation).
Proof.
  intros H Hmut.
  apply Create_loop_size in H
    as [(reply & e0 & -> & ->)
       |(spaceReserve & snapshotPolicy & unixPermissions & exportPolicy
         & securityStyle & tieringPolicy & fstype & sizeBytes
         & snapshotReserveInt & spaceAllocation & enableEncryption & pre & tr'
         & -> & Hpre & Hlimit & H)].
  { discriminate Hmut. }
  exists sizeBytes, spaceReserve, snapshotPolicy, unixPermissions,
    exportPolicy, securityStyle, tieringPolicy, snapshotReserveInt,
    spaceAllocation, enableEncryption.
  split; [exact Hlimit|].
  intros e Hin.
  assert (Hloop : In e tr' ->
            (volumeCreateOn (callOf e) <> None ->
             exists p,
               In p pools
               /\ callOf e
                  = volumeCreateCall volConfig.(InternalName)
                      (GoInt.FormatUint sizeBytes) spaceReserve snapshotPolicy
                      unixPermissions exportPolicy securityStyle tieringPolicy
                      snapshotReserveInt enableEncryption p)
            /\ (isLunCreate (callOf e) = true ->
                callOf e
                = lunCreateCall volConfig.(InternalName) sizeBytes
                    spaceAllocation))
    by (intros Hin'; eapply createLoop_args; [exact H | exact Hin']).
  destruct Hin as [<- | Hin]; [split; [simpl; congruence | discriminate]|].
  apply in_app_or in Hin as [Hin | Hin]; [|auto].
  destruct Hpre as [-> | (policy & ->)]; [destruct Hin|].
  destruct Hin as [<- | []]; split; [simpl; congruence | discriminate].
Qed.

Lemma sizeSet_reconcile (e : Event) :
  sizeSet e = true -> reconcileCall (callOf e) = true.
Proof. destruct e as [c r]; destruct c; simpl; congruence. Qed.

Lemma sizeRead_reconcile (e : Event) (z : Z) :
  sizeRead e = Some z -> reconcileCall (callOf e) = true.
Proof. destruct e as [c r]; destruct c; simpl; congruence. Qed.

(** The reconciliation that a read or set of the Flexvol size is part
    of. *)
Lemma Create_tail (tr : Trace) (res : VolumeConfig * goerror) :
  exec (Create pkg d volConfig storagePool volAttributes) tr res ->
  forall tr1 e tr2,
    tr = tr1 ++ e :: tr2 -> reconcileCall (callOf e) = true ->
    exists lunSize before,
      exec (createReconcile volConfig volConfig.(InternalName) lunSize)
           (before ++ e :: tr2) res.
Proof.
  intros H tr1 e tr2 Htr He. symmetry in Htr. create_cases H.
  - peel Htr ltac:(discriminate He).
    symmetry in Htr; destruct (app_cons_not_nil _ _ _ Htr).
  - peel Htr ltac:(discriminate He). symmetry in Htr.
    eapply createLoop_tail; [exact H | exact Htr | exact He].
  - peel Htr ltac:(discriminate He). symmetry in Htr.
    eapply createLoop_tail; [exact H | exact Htr | exact He].
Qed.

(** X5. The size [Create] reports after the reconciliation.  When the
    run ends with an accepted Flexvol resize followed by a successful
    size read, [Create] returns nil and [volConfig.Size] is the size that
    was read back.  When it ends with a successful size read followed by
    a failed Flexvol resize, [Create] returns nil and [volConfig.Size] is
    the size read before the resize.  When it ends with a failed size
    read, [Create] returns nil and [volConfig] is unchanged. *)
Theorem Create_reports_reread_size (tr : Trace)
    (res : VolumeConfig * goerror) :
  exec (Create pkg d volConfig storagePool volAttributes) tr res ->
  (forall tr1 e1 e2 adjusted,
      tr = tr1 ++ [e1; e2] -> sizeSet e1 = true ->
      sizeRead e2 = Some adjusted ->
      res = (setSize volConfig (GoInt.FormatUint (GoInt.uint64 adjusted)), None))
  /\ (forall tr1 e0 e1 initial,
        tr = tr1 ++ [e0; e1] -> sizeRead e0 = Some initial ->
        sizeSetFailed e1 = true ->
        res = (setSize volConfig (GoInt.FormatUint (GoInt.uint64 initial)), None))
  /\ (forall tr1 e,
        tr = tr1 ++ [e] -> reconcileFailed e = true -> sizeSetFailed e = false ->
        res = (volConfig, None)).
Proof.
  intros H. split; [|split].
  - intros tr1 e1 e2 adjusted Htr H1 H2.
    destruct (Create_tail tr res H tr1 e1 [e2] Htr (sizeSet_reconcile _ H1))
      as (lunSize & before & Hrec).
    apply createReconcile_reports in Hrec as (Ha & _ & _). eauto.
  - intros tr1 e0 e1 initial Htr H0 H1.
    destruct (Create_tail tr res H tr1 e0 [e1] Htr (sizeRead_reconcile _ _ H0))
      as (lunSize & before & Hrec).
    apply createReconcile_reports in Hrec as (_ & Hb & _). eauto.
  - intros tr1 e Htr Hf Hs.
    destruct (Create_tail tr res H tr1 e [] Htr (reconcileFailed_call _ Hf))
      as (lunSize & before & Hrec).
    apply createReconcile_reports in Hrec as (_ & _ & Hc). eauto.
Qed.

End CreateMore.

(** ** Resize: further properties *)

Section ResizeMore.

Variables (CommonConfig VolAttributes : Type).
Variable pkg : Package CommonConfig VolAttributes.
Variable d : SANStorageDriver CommonConfig.
Variables (volConfig : VolumeConfig) (sizeBytes : Z).

Local Notation name := (volConfig.(InternalName)).

(** X6. The calls by which [Resize] changes the controller are, in this
    order and without repetition, a prefix of: the resize of the Flexvol
    to the requested size, the resize of lun0 to the requested size, and
    a second resize of the Flexvol.  The second resize of the Flexvol is
    to the size that the LUN resize call returned: that call succeeded
    with [returnSize], the Flexvol size read directly after it differs
    from [returnSize], and the Flexvol is set to [returnSize]. *)
Theorem Resize_mutation_sequence (tr : Trace) (res : VolumeConfig * goerror) :
  exec (Resize pkg d volConfig sizeBytes) tr res ->
  filter mutates (calls tr) = []
  \/ filter mutates (calls tr)
     = [VolumeSetSize name (GoInt.FormatUint sizeBytes)]
  \/ filter mutates (calls tr)
     = [VolumeSetSize name (GoInt.FormatUint sizeBytes);
        LunResize (lunPath name) (GoInt.int sizeBytes)]
  \/ exists returnSize initialVolumeSize pre post,
       tr = pre
            ++ Ev (LunResize (lunPath name) (GoInt.int sizeBytes))
                  (returnSize, None)
            :: Ev (VolumeSize name) (initialVolumeSize, None)
            :: post
       /\ returnSize <> GoInt.uint64 initialVolumeSize
       /\ filter mutates (calls tr)
          = [VolumeSetSize name (GoInt.FormatUint sizeBytes);
             LunResize (lunPath name) (GoInt.int sizeBytes);
             VolumeSetSize name (GoInt.FormatUint returnSize)].
Proof.
  unfold Resize; intros H.
  walk_all H
    ltac:(simpl;
          first [ left; reflexivity
                | right; left; reflexivity
                | right; right; left; reflexivity
                | right; right; right;
                  repeat match goal with
                         | Hn : negb _ = true |- _ =>
                             apply negb_true_iff in Hn
                         | Hn : (_ =? _) = false |- _ =>
                             apply Z.eqb_neq in Hn
                         end;
                  do 2 eexists;
                  (eexists [_; _; _; _; _] + eexists [_; _; _; _; _; _]);
                  eexists;
                  split; [reflexivity|]; split; [assumption | reflexivity] ]).
Qed.

(** X7. [Resize] changes the controller only to grow the volume: when
    a run that found the volume with size [volSize] makes a mutating call,
    the requested size is not below [volSize] (as a uint64), is outside
    the tolerance band, has passed [CheckVolumeSizeLimits], and the
    aggregate limits check for the Flexvol has found no violation. *)
Theorem Resize_grows_only (volSize : Z) (tr : Trace)
    (res : VolumeConfig * goerror) :
  exec (Resize pkg d volConfig sizeBytes)
       (Ev (VolumeExists name) (true, None)
        :: Ev (VolumeSize name) (volSize, None) :: tr) res ->
  existsb mutates (calls tr) = true ->
  GoInt.uint64 volSize <= sizeBytes
  /\ fst (VolumeSizeWithinTolerance (GoInt.int64 sizeBytes)
            (GoInt.int64 volSize) pkg.(SANResizeDelta)) = false
  /\ pkg.(CheckVolumeSizeLimits) sizeBytes
       d.(Config).(CommonStorageDriverConfig) = None
  /\ exists tr', tr = Ev (checkAggregateLimitsForFlexvol name sizeBytes) None
                      :: tr'.
Proof.
  unfold Resize; intros H.
  exec_reply H. exec_reply H.
  walk_all H
    ltac:(simpl; intros Hm;
          first
            [ discriminate Hm
            | split; [apply Z.ltb_ge; assumption|];
              split; [assumption|];
              split; [first [assumption | reflexivity]
                     | eexists; reflexivity] ]).
Qed.

(** X8. The LUN geometry ceiling.  When the maximum size read from the
    LUN geometry is below the requested size, [Resize] fails with the
    "larger than LUN's maximum capacity" error, leaves [volConfig] as it
    was and has made no mutating call.  When the controller supports
    skipping the geometry, [Resize] does not read it. *)
Theorem Resize_exceeds_lun_capacity (tr : Trace)
    (res : VolumeConfig * goerror) :
  exec (Resize pkg d volConfig sizeBytes) tr res ->
  (forall e lunMaxSize,
      In e tr -> geometryMax e = Some lunMaxSize ->
      lunMaxSize < GoInt.int sizeBytes ->
      res = (volConfig,
             Some (Errorf "volume resize failed as requested size is larger than LUN's maximum capacity" []))
      /\ existsb mutates (calls tr) = false)
  /\ (forall e,
        In e tr -> featureSupported e = true ->
        existsb isLunGetGeometry (calls tr) = false).
Proof.
  unfold Resize; intros H. split.
  - intros e lunMaxSize Hin He Hlt.
    walk_to H Hin He
      ltac:(simpl in He;
            match type of He with
            | match ?r with _ => _ end = _ =>
                destruct r as [[geometry|] [err|]]; try discriminate He
            end;
            injection He as <-; simpl in H;
            apply Z.ltb_lt in Hlt; rewrite Hlt in H;
            destruct H as [-> ->]; split; reflexivity).
  - intros e Hin He.
    walk_to H Hin He
      ltac:(simpl in He; subst; simpl in H;
            walk_all H ltac:(reflexivity)).
Qed.

(** X9. A failed change is fatal and is not undone.  When the LUN resize
    call fails, it is the last call of the run and [Resize] returns the
    "volume resize failed" error with [volConfig] as it was, although the
    Flexvol has been resized before.  When the Flexvol resize before the
    LUN resize fails, it is the last call of the run, [Resize] fails and
    the LUN is never resized. *)
Theorem Resize_failed_mutation_is_fatal (tr : Trace)
    (res : VolumeConfig * goerror) :
  exec (Resize pkg d volConfig sizeBytes) tr res ->
  (forall tr1 e tr2,
      tr = tr1 ++ e :: tr2 -> lunResizeFailed e = true ->
      tr2 = []
      /\ res = (volConfig, Some (Errorf "volume resize failed" []))
      /\ filter mutates (calls tr1)
         = [VolumeSetSize name (GoInt.FormatUint sizeBytes)])
  /\ (forall tr1 e tr2,
        tr = tr1 ++ e :: tr2 -> sizeSetFailed e = true ->
        existsb isLunResize (calls tr1) = false ->
        tr2 = [] /\ fst res = volConfig /\ snd res <> None
        /\ existsb isLunResize (calls tr) = false).
Proof.
  unfold Resize; intros H. split.
  - intros tr1 e tr2 Htr He. symmetry in Htr.
    walk_split H Htr
      ltac:(first
              [ discriminate He
              | simpl in He;
                match type of He with
                | match snd ?r with _ => _ end = _ =>
                    destruct r as [? [?|]]; [|discriminate He]
                end;
                simpl in H; destruct H as [-> ->];
                repeat split; reflexivity ]).
  - intros tr1 e tr2 Htr He Hno. symmetry in Htr.
    walk_split H Htr
      ltac:(first
              [ discriminate He
              | discriminate Hno
              | simpl in He;
                match type of He with
                | match GetError id (fst ?r) (snd ?r) with _ => _ end = _ =>
                    destruct r as [[?|] [?|]]; simpl in He, H;
                    try discriminate He
                end;
                repeat match type of H with
                       | exec (match ?x with _ => _ end) _ _ =>
                           let y := scrutinee x in
                           destruct y eqn:?; simpl in H
                       end;
                try discriminate He;
                destruct H as [-> ->];
                repeat split; simpl; congruence ]).
Qed.

End ResizeMore.

(** ** Destroy: what it calls *)

Section DestroyMore.

Variables (CommonConfig VolAttributes : Type).
Variable pkg : Package CommonConfig VolAttributes.
Variable d : SANStorageDriver CommonConfig.
Variable name : string.

(** Split a known trace into its last event and what comes before. *)
Ltac snoc_exists :=
  (exists [] + eexists [_] + eexists [_; _] + eexists [_; _; _]
   + eexists [_; _; _; _]);
  eexists; split; [reflexivity|].

(** X10. [Destroy] returns nil in two ways only: the existence probe
    said that the volume is absent and nothing else was called, or the
    last call was the delete of the Flexvol and the controller accepted
    it or answered that the volume does not exist. *)
Theorem Destroy_nil_cases (tr : Trace) :
  exec (Destroy pkg d name) tr None ->
  tr = [Ev (VolumeExists name) (false, None)]
  \/ exists pre reply,
       tr = pre ++ [Ev (VolumeDestroy name true) reply]
       /\ (reply = (Some Passed, None)
           \/ exists reason,
                reply = (Some (Failed pkg.(EVOLUMEDOESNOTEXIST) reason), None)).
Proof.
  intros H. remember (@None error) as r eqn:Hr in H.
  unfold Destroy, deleteFlexvol in H.
  walk_all H
    ltac:(repeat match goal with
                 | Hn : negb _ = true |- _ => apply negb_true_iff in Hn
                 end;
          subst;
          first
            [ discriminate
            | left; reflexivity
            | right; snoc_exists;
              first
                [ left; reflexivity
                | right;
                  repeat match goal with
                         | Hc : String.eqb _ _ = true |- _ =>
                             apply String.eqb_eq in Hc
                         end;
                  subst; eexists; reflexivity ] ]).
Qed.

(** X11. The only state [Destroy] changes on the controller is the
    Flexvol it deletes: a mutating call of a run is the forced delete of
    the Flexvol [name], it is the last call of the run and no mutating
    call comes before it.  Outside the Docker context [Destroy] calls the
    existence probe and then at most the delete. *)
Theorem Destroy_single_forced_delete (tr : Trace) (r : goerror) :
  exec (Destroy pkg d name) tr r ->
  (forall tr1 e tr2,
      tr = tr1 ++ e :: tr2 -> mutates (callOf e) = true ->
      callOf e = VolumeDestroy name true /\ tr2 = []
      /\ existsb mutates (calls tr1) = false)
  /\ (d.(Config).(DriverContext) <> pkg.(ContextDocker) ->
      calls tr = [VolumeExists name]
      \/ calls tr = [VolumeExists name; VolumeDestroy name true]).
Proof.
  unfold Destroy, deleteFlexvol; intros H. split.
  - intros tr1 e tr2 Htr He. symmetry in Htr.
    walk_split H Htr
      ltac:(first
              [ discriminate He
              | simpl; split; [reflexivity|]; split; [|reflexivity];
                walk_all H ltac:(reflexivity) ]).
  - intros Hctx.
    walk_all H
      ltac:(first
              [ left; reflexivity
              | right; reflexivity
              | exfalso; apply Hctx; apply String.eqb_eq; assumption ]).
Qed.

(** X12. The host is told to forget the device only in the Docker
    context, only with a LUN id that is not negative, and only between
    the reading of the LUN maps and the delete: the id is the one
    [findLunID] finds in the maps read just before and the node name is
    the one the target info gave. *)
Theorem Destroy_host_notification (tr : Trace) (r : goerror) :
  exec (Destroy pkg d name) tr r ->
  forall tr1 e tr2 lunID iSCSINodeName,
    tr = tr1 ++ e :: tr2 ->
    deviceRemoval (callOf e) = Some (lunID, iSCSINodeName) ->
    d.(Config).(DriverContext) = pkg.(ContextDocker)
    /\ 0 <= lunID
    /\ exists ifs resp groups reply,
         tr1 = [Ev (VolumeExists name) (true, None);
                Ev GetISCSITargetInfo (iSCSINodeName, ifs, None);
                Ev (LunMapListInfo (lunPath name)) (Some resp, None)]
         /\ resp.(InitiatorGroupsPtr) = Some groups
         /\ lunID = findLunID d groups
         /\ tr2 = [Ev (VolumeDestroy name true) reply].
Proof.
  unfold Destroy, deleteFlexvol; intros H tr1 e tr2 lunID node Htr He.
  symmetry in Htr.
  walk_split H Htr
    ltac:(first
            [ discriminate He
            | simpl in He; injection He as <- <-;
              repeat match goal with
                     | Hc : String.eqb _ _ = true |- _ =>
                         apply String.eqb_eq in Hc
                     | Hc : (0 <=? _) = true |- _ => apply Z.leb_le in Hc
                     | Hn : negb _ = false |- _ => apply negb_false_iff in Hn
                     end;
              subst;
              match goal with
              | Hc : 0 <= match ?p with _ => _ end |- _ =>
                  destruct p as [groups|] eqn:Hg; [|lia]
              end;
              split; [assumption|]; split; [assumption|];
              walk_all H
                ltac:(do 4 eexists; split; [reflexivity|];
                      split; [eassumption|]; split; reflexivity) ]).
Qed.

(** X13. The loop of [Destroy] over the initiator groups keeps the LUN
    id of the last group named [d.Config.IgroupName], and -1 when no
    group has that name. *)
Theorem findLunID_last_match (groups : list InitiatorGroupInfo) :
  (forall l1 g l2,
      groups = l1 ++ g :: l2 ->
      g.(InitiatorGroupName) = d.(Config).(IgroupName) ->
      (forall g', In g' l2 ->
                  g'.(InitiatorGroupName) <> d.(Config).(IgroupName)) ->
      findLunID d groups = g.(LunId))
  /\ ((forall g, In g groups ->
                 g.(InitiatorGroupName) <> d.(Config).(IgroupName)) ->
      findLunID d groups = -1).
Proof.
  assert (Hskip : forall l acc,
    (forall g, In g l -> g.(InitiatorGroupName) <> d.(Config).(IgroupName)) ->
    fold_left
      (fun lunID g =>
         if String.eqb g.(InitiatorGroupName) d.(Config).(IgroupName)
         then g.(LunId) else lunID) l acc = acc).
  { induction l as [|g l IH]; intros acc Hno; simpl; [reflexivity|].
    rewrite IH by (intros g' Hg'; apply Hno; right; exact Hg').
    destruct (String.eqb_spec g.(InitiatorGroupName) d.(Config).(IgroupName))
      as [Heq|_]; [|reflexivity].
    exfalso; exact (Hno g (or_introl eq_refl) Heq). }
  unfold findLunID; split.
  - intros l1 g l2 -> Hg Hno.
    rewrite fold_left_app; simpl.
    rewrite Hskip by exact Hno.
    rewrite Hg, String.eqb_refl; reflexivity.
  - intros Hno; apply Hskip; exact Hno.
Qed.

End DestroyMore.

(** ** Import: the two modes *)

Section ImportMore.

Variables (volConfig : VolumeConfig) (originalName : string).

Local Notation imports := (importRun volConfig originalName).
Local Notation targetPath := ("/vol/" ++ originalName ++ "/lun0")%string.
Local Notation lunPattern := ("/vol/" ++ originalName ++ "/*")%string.

(** Turn the boolean tests a run has passed into equations. *)
Ltac tests :=
  repeat match goal with
         | Hn : negb _ = true |- _ => apply negb_true_iff in Hn
         | Hn : negb _ = false |- _ => apply negb_false_iff in Hn
         | Hc : String.eqb _ _ = true |- _ => apply String.eqb_eq in Hc
         | Hc : String.eqb _ _ = false |- _ => apply String.eqb_neq in Hc
         end.

(** X14. An import that is not managed only reads: it makes no mutating
    call.  It succeeds only when both reads succeeded, the volume has id
    attributes whose type, if present, is rw, the LUN already sits at the
    target path, is not reported offline or unmapped and has a size; the
    configuration then carries that size. *)
Theorem Import_unmanaged_reads_only (tr : Trace)
    (res : VolumeConfig * goerror) :
  volConfig.(ImportNotManaged) = true ->
  exec (Import volConfig originalName) tr res ->
  existsb mutates (calls tr) = false
  /\ (snd res = None ->
      exists flexvol ids lunInfo size,
        tr = [Ev (VolumeGet originalName) (Some flexvol, None);
              Ev (LunGet lunPattern) (Some lunInfo, None)]
        /\ flexvol.(VolumeIdAttributesPtr) = Some ids
        /\ (forall type, ids.(TypePtr) = Some type -> type = "rw"%string)
        /\ lunInfo.(Path) = targetPath
        /\ lunInfo.(OnlinePtr) <> Some false
        /\ lunInfo.(MappedPtr) <> Some false
        /\ lunInfo.(SizePtr) = Some size
        /\ fst res = setSize volConfig
                       (GoInt.FormatInt (GoInt.int64 size))).
Proof.
  unfold Import, importValidate; intros Hnm H; simpl in H.
  rewrite Hnm in H; simpl in H. split.
  - walk_all H ltac:(reflexivity).
  - intros Hnil.
    walk_all H
      ltac:(first
              [ discriminate Hnil
              | tests; subst;
                do 4 eexists;
                split; [reflexivity|];
                split; [eassumption|];
                split; [intros; congruence|];
                split; [assumption|];
                split; [congruence|];
                split; [congruence|];
                split; [eassumption | reflexivity] ]).
Qed.

(** X15. A managed import renames and nothing else: its mutating calls
    are, in this order, at most one rename of the LUN to the target path
    (made only when the LUN is not there already) and at most one rename
    of the Flexvol from the original to the internal name.  It succeeds
    only when its last call is the rename of the Flexvol and the
    controller accepted it.  A rename that fails is the last call of the
    run and fails the import; a LUN rename made before it is not undone. *)
Theorem Import_managed_renames (tr : Trace) (res : VolumeConfig * goerror) :
  volConfig.(ImportNotManaged) = false ->
  exec (Import volConfig originalName) tr res ->
  (filter mutates (calls tr) = []
   \/ filter mutates (calls tr)
      = [VolumeRename originalName volConfig.(InternalName)]
   \/ exists path,
        path <> targetPath
        /\ (filter mutates (calls tr) = [LunRename path targetPath]
            \/ filter mutates (calls tr)
               = [LunRename path targetPath;
                  VolumeRename originalName volConfig.(InternalName)]))
  /\ (snd res = None ->
      exists pre reply,
        tr = pre ++ [Ev (VolumeRename originalName volConfig.(InternalName))
                        reply]
        /\ GetError id (fst reply) (snd reply) = None)
  /\ (forall tr1 e tr2,
        tr = tr1 ++ e :: tr2 -> renameFailed e = true ->
        tr2 = [] /\ snd res <> None).
Proof.
  unfold Import, importValidate; intros Hm H; simpl in H.
  rewrite Hm in H; simpl in H. split; [|split].
  - walk_all H
      ltac:(tests; simpl;
            first
              [ left; reflexivity
              | right; left; reflexivity
              | right; right; eexists; split;
                [ eassumption
                | first [left; reflexivity | right; reflexivity] ] ]).
  - intros Hnil.
    walk_all H
      ltac:(first
              [ discriminate Hnil
              | (eexists [_; _] + eexists [_; _; _]);
                eexists; split; [reflexivity | simpl; assumption] ]).
  - intros tr1 e tr2 Htr He. symmetry in Htr.
    walk_split H Htr
      ltac:(first
              [ discriminate He
              | simpl in He;
                match type of He with
                | match GetError id (fst ?r) (snd ?r) with _ => _ end = _ =>
                    destruct r as [? ?]; simpl in He, H
                end;
                match type of He with
                | match ?g with _ => _ end = _ =>
                    destruct g; [|discriminate He]
                end;
                simpl in H; destruct H as [-> ->];
                split; [reflexivity | discriminate] ]).
Qed.

(** X16. The renames come after the validation, and the size is adopted
    before them.  In a run of [Import] that read the volume and its LUN
    and then made a call or returned nil, the type of the volume, if the
    reply has one, is rw, the LUN is not reported offline and has a size,
    and the configuration returned carries that size: also when the call
    was a rename that failed. *)
Theorem Import_adopts_lun_size (flexvol : VolumeAttributesType)
    (lunInfo : LunInfoType) (tr : Trace) (res : VolumeConfig * goerror) :
  imports flexvol lunInfo tr res ->
  tr <> [] \/ snd res = None ->
  (forall type, volumeType flexvol = Some type -> type = "rw"%string)
  /\ lunInfo.(OnlinePtr) <> Some false
  /\ (tr <> [] -> volConfig.(ImportNotManaged) = false)
  /\ exists size,
       lunInfo.(SizePtr) = Some size
       /\ fst res = setSize volConfig (GoInt.FormatInt (GoInt.int64 size)).
Proof.
  unfold importRun, Import; intros H Hran.
  exec_reply H. exec_reply H.
  unfold importValidate, volumeType in *.
  walk_all H
    ltac:(tests; subst; simpl in *;
          first
            [ destruct Hran as [Hran | Hran];
              [ exfalso; apply Hran; reflexivity | discriminate Hran ]
            | split; [intros; congruence|];
              split; [congruence|];
              split; [first [ intros _; assumption
                            | intros Hne; exfalso; apply Hne; reflexivity ]|];
              eexists; split; reflexivity ]).
Qed.

End ImportMore.

(** ** The inventory of volumes *)

Section InventoryFacts.

Variable StoragePrefix : string.

Local Notation volumeName v :=
  (Inventory.NamePtr (Inventory.VolumeIdAttributesPtr v)).
Local Notation internalNameOf v :=
  (Inventory.InternalName (Inventory.Config v)).
Local Notation nameOf v := (Inventory.Name (Inventory.Config v)).
Local Notation lunPattern :=
  ("/vol/" ++ (StoragePrefix ++ "*") ++ "/lun0")%string.

Lemma substring_all (s : string) : String.substring 0 (String.length s) s = s.
Proof. induction s as [|a s IH]; simpl; [|rewrite IH]; reflexivity. Qed.

(** A string that has a prefix is the prefix followed by the rest. *)
Lemma prefix_sliceFrom (p s : string) :
  Inventory.HasPrefix s p = true ->
  (p ++ Inventory.sliceFrom s (String.length p))%string = s.
Proof.
  unfold Inventory.HasPrefix, Inventory.sliceFrom.
  revert s; induction p as [|a p IH]; intros s Hp; simpl.
  - rewrite Nat.sub_0_r; apply substring_all.
  - destruct s as [|b s]; simpl in Hp; [discriminate Hp|].
    destruct (ascii_dec a b) as [->|]; [|discriminate Hp].
    simpl; rewrite (IH s Hp); reflexivity.
Qed.

(** X17. The record [getVolumeExternal] builds keeps the name of the
    Flexvol as its internal name, and its name is that name without the
    storage prefix: the prefix followed by the name gives the internal
    name back.  A Flexvol whose name does not start with the prefix keeps
    its name unchanged.  The size is the size of the LUN, not of the
    Flexvol. *)
Theorem getVolumeExternal_strips_prefix (lunAttrs : Inventory.LunInfoType)
    (volumeAttrs : Inventory.VolumeAttributesType) :
  let v := Inventory.getVolumeExternal StoragePrefix lunAttrs volumeAttrs in
  internalNameOf v = volumeName volumeAttrs
  /\ (Inventory.HasPrefix (volumeName volumeAttrs) StoragePrefix = true ->
      (StoragePrefix ++ nameOf v)%string = internalNameOf v)
  /\ (Inventory.HasPrefix (volumeName volumeAttrs) StoragePrefix = false ->
      nameOf v = internalNameOf v)
  /\ Inventory.Size (Inventory.Config v)
     = GoInt.FormatInt (GoInt.int64 (Inventory.SizePtr lunAttrs)).
Proof.
  unfold Inventory.getVolumeExternal; simpl.
  split; [reflexivity|]. split; [|split; [|reflexivity]].
  - intros Hp; rewrite Hp. apply prefix_sliceFrom; exact Hp.
  - intros Hp; rewrite Hp; reflexivity.
Qed.

Local Notation assignAll :=
  (fold_left
     (fun volumeMap volumeAttrs =>
        Inventory.assign volumeMap (volumeName volumeAttrs) volumeAttrs)).

Lemma assignAll_snoc (volumes : list Inventory.VolumeAttributesType)
    (v : Inventory.VolumeAttributesType) (name : string) :
  Inventory.lookup (assignAll (volumes ++ [v]) []) name
  = if String.eqb (volumeName v) name then Some v
    else Inventory.lookup (assignAll volumes []) name.
Proof. rewrite fold_left_app; reflexivity. Qed.

Lemma reported_snoc (volumes : list Inventory.VolumeAttributesType)
    (v : Inventory.VolumeAttributesType) (name : string) :
  Inventory.reported (volumes ++ [v]) name
  = Inventory.reported volumes name || String.eqb (volumeName v) name.
Proof.
  unfold Inventory.reported; rewrite existsb_app; simpl.
  rewrite orb_false_r; reflexivity.
Qed.

(** A name is in the map when the controller reported a volume of that
    name. *)
Lemma lookup_reported (volumes : list Inventory.VolumeAttributesType)
    (name : string) :
  Inventory.reported volumes name
  = match Inventory.lookup (assignAll volumes []) name with
    | Some _ => true
    | None => false
    end.
Proof.
  induction volumes as [|v volumes IH] using rev_ind; [reflexivity|].
  rewrite assignAll_snoc, reported_snoc, IH.
  destruct (String.eqb (volumeName v) name); [|apply orb_false_r].
  apply orb_true_r.
Qed.

(** The map holds, for a name, the last volume reported under it. *)
Lemma lookup_last (volumes : list Inventory.VolumeAttributesType)
    (name : string) (vol : Inventory.VolumeAttributesType) :
  Inventory.lookup (assignAll volumes []) name = Some vol ->
  exists before after,
    volumes = before ++ vol :: after
    /\ volumeName vol = name
    /\ Inventory.reported after name = false.
Proof.
  induction volumes as [|v volumes IH] using rev_ind; [discriminate|].
  rewrite assignAll_snoc.
  destruct (String.eqb_spec (volumeName v) name) as [Hv|Hv].
  - intros [= <-]. exists volumes, []; auto.
  - intros Hl. destruct (IH Hl) as (before & after & -> & Hname & Hafter).
    exists before, (after ++ [v]). rewrite <- app_assoc; simpl.
    split; [reflexivity|]. split; [exact Hname|].
    rewrite reported_snoc, Hafter; simpl.
    apply String.eqb_neq; exact Hv.
Qed.

Lemma sendVolumes_wrapper (volumeMap : Inventory.VolumeMap)
    (luns : list Inventory.LunInfoType) (w : Inventory.VolumeExternalWrapper) :
  In w (Inventory.sendVolumes StoragePrefix volumeMap luns) ->
  exists lun volume,
    In lun luns
    /\ Inventory.lookup volumeMap (Inventory.VolumePtr lun) = Some volume
    /\ w = {| Inventory.Volume :=
                Some (Inventory.getVolumeExternal StoragePrefix lun volume);
              Inventory.Error := None |}.
Proof.
  induction luns as [|lun luns IH]; simpl; [intros []|].
  destruct (Inventory.lookup volumeMap (Inventory.VolumePtr lun))
    as [volume|] eqn:Hl.
  - intros [<- | Hin].
    + exists lun, volume; auto.
    + destruct (IH Hin) as (lun' & volume' & Hin' & H'); eauto.
  - intros Hin. destruct (IH Hin) as (lun' & volume' & Hin' & H'); eauto.
Qed.

Lemma sendVolumes_names (volumes : list Inventory.VolumeAttributesType)
    (luns : list Inventory.LunInfoType) :
  Inventory.volumeNames
    (Inventory.sendVolumes StoragePrefix (assignAll volumes []) luns)
  = filter (Inventory.reported volumes) (map Inventory.VolumePtr luns).
Proof.
  induction luns as [|lun luns IH]; simpl; [reflexivity|].
  rewrite lookup_reported.
  destruct (Inventory.lookup (assignAll volumes []) (Inventory.VolumePtr lun))
    as [volume|] eqn:Hl; simpl; [|exact IH].
  destruct (lookup_last _ _ _ Hl) as (_ & _ & _ & -> & _).
  rewrite IH; reflexivity.
Qed.

(** X18. What [GetVolumeExternalWrappers] writes to the channel is
    either one wrapper with the error of the first bulk read that failed
    and no volume, or, when both reads succeeded, wrappers that all carry
    a volume and no error.  When the read of the volumes fails the LUNs
    are not read: the output does not depend on that read. *)
Theorem GetVolumeExternalWrappers_error_or_volumes
    (VolumeGetAll : string ->
                    option Inventory.VolumeGetIterResponse * goerror)
    (LunGetAll : string -> option Inventory.LunGetIterResponse * goerror) :
  let out :=
    Inventory.GetVolumeExternalWrappers StoragePrefix VolumeGetAll LunGetAll in
  let volumesErr :=
    GetError Inventory.volumesStatus (fst (VolumeGetAll StoragePrefix))
             (snd (VolumeGetAll StoragePrefix)) in
  let lunsErr :=
    GetError Inventory.lunsStatus (fst (LunGetAll lunPattern))
             (snd (LunGetAll lunPattern)) in
  (forall err,
      volumesErr = Some err ->
      forall LunGetAll',
        Inventory.GetVolumeExternalWrappers StoragePrefix VolumeGetAll
                                            LunGetAll'
        = [ {| Inventory.Volume := None; Inventory.Error := Some err |} ])
  /\ (forall err,
        volumesErr = None -> lunsErr = Some err ->
        out = [ {| Inventory.Volume := None; Inventory.Error := Some err |} ])
  /\ (volumesErr = None -> lunsErr = None ->
      forall w, In w out ->
                Inventory.Error w = None
                /\ exists v, Inventory.Volume w = Some v).
Proof.
  unfold Inventory.GetVolumeExternalWrappers.
  destruct (VolumeGetAll StoragePrefix) as [volumesResponse verr].
  destruct (LunGetAll lunPattern) as [lunsResponse lerr].
  cbn [fst snd]. split; [|split].
  - intros err -> LunGetAll'; reflexivity.
  - intros err -> ->; reflexivity.
  - intros -> -> w Hin.
    destruct volumesResponse as [volumesResponse|]; [|destruct Hin].
    destruct lunsResponse as [lunsResponse|]; [|destruct Hin].
    destruct (Inventory.LunInfoPtr lunsResponse) as [luns|]; [|destruct Hin].
    apply sendVolumes_wrapper in Hin as (lun & volume & _ & _ & ->).
    simpl; eauto.
Qed.

(** X19. How the volumes and the LUNs are matched.  When both bulk
    reads succeed, the wrappers written are, in the order of the LUNs,
    one for each LUN whose volume the controller reported; LUNs of other
    volumes are left out without an error.  The record of a LUN is built
    from the last volume reported under the name of the LUN's volume, and
    carries that name as its internal name. *)
Theorem GetVolumeExternalWrappers_correlates
    (VolumeGetAll : string ->
                    option Inventory.VolumeGetIterResponse * goerror)
    (LunGetAll : string -> option Inventory.LunGetIterResponse * goerror)
    (volumesResponse : Inventory.VolumeGetIterResponse)
    (lunsResponse : Inventory.LunGetIterResponse)
    (volumes : list Inventory.VolumeAttributesType)
    (luns : list Inventory.LunInfoType) :
  VolumeGetAll StoragePrefix = (Some volumesResponse, None) ->
  Inventory.volumesStatus volumesResponse = Passed ->
  Inventory.VolumeAttributesPtr volumesResponse = Some volumes ->
  LunGetAll lunPattern = (Some lunsResponse, None) ->
  Inventory.lunsStatus lunsResponse = Passed ->
  Inventory.LunInfoPtr lunsResponse = Some luns ->
  let out :=
    Inventory.GetVolumeExternalWrappers StoragePrefix VolumeGetAll LunGetAll in
  Inventory.volumeNames out
  = filter (Inventory.reported volumes) (map Inventory.VolumePtr luns)
  /\ List.length out
     = List.length (filter (Inventory.reported volumes)
                           (map Inventory.VolumePtr luns))
  /\ (forall w, In w out ->
        exists lun before volume after,
          In lun luns
          /\ volumes = before ++ volume :: after
          /\ volumeName volume = Inventory.VolumePtr lun
          /\ Inventory.reported after (Inventory.VolumePtr lun) = false
          /\ w = {| Inventory.Volume :=
                      Some (Inventory.getVolumeExternal StoragePrefix lun
                                                        volume);
                    Inventory.Error := None |}).
Proof.
  intros Hv Hvs Hvl Hl Hls Hll.
  unfold Inventory.GetVolumeExternalWrappers.
  rewrite Hv, Hl; simpl. rewrite Hvs, Hls, Hll.
  unfold Inventory.makeVolumeMap; rewrite Hvl.
  split; [apply sendVolumes_names|]. split.
  - clear. induction luns as [|lun luns' IH]; simpl; [reflexivity|].
    rewrite lookup_reported.
    destruct (Inventory.lookup _ _); simpl; rewrite IH; reflexivity.
  - intros w Hin.
    apply sendVolumes_wrapper in Hin as (lun & volume & Hin & Hlk & ->).
    destruct (lookup_last _ _ _ Hlk) as (before & after & -> & Hn & Ha).
    exists lun, before, volume, after; auto.
Qed.

End InventoryFacts.

(** ** Concrete runs of the further properties *)

(** X1 on the run in which saving the file system type fails. *)
Lemma Create_never_removes_volume_witness :
  let res :=
    (Demo.volConfig "1000",
     Some (fstypeError Demo.storagePool "vol1" Demo.aggr1
             (ZapiError "13115" "invalid attribute"))) in
  exec Scenario.create Scenario.createAborted res
  /\ Scenario.createAborted
     = (Scenario.lunCreated ++ [Scenario.fstypeRejected])
       ++ Scenario.lunDestroyed :: []
  /\ isLunDestroy (callOf Scenario.lunDestroyed) = true
  /\ Forall (fun e => createCall (callOf e) = true) Scenario.createAborted
  /\ exists p err,
       snd res = Some (fstypeError Demo.storagePool "vol1" p err).
Proof.
  intros res.
  assert (H : exec Scenario.create Scenario.createAborted res).
  { apply (run_exec (Demo.answering Demo.setAttributeFails) _ tt _ _ tt).
    reflexivity. }
  destruct (Create_never_removes_volume unit unit Demo.pkg (Demo.driver "csi")
              (Demo.volConfig "1000") Demo.storagePool tt
              Scenario.createAborted res H) as [Hall Hlast].
  split; [exact H|]. split; [reflexivity|]. split; [reflexivity|].
  split; [exact Hall|].
  exact (proj2 (Hlast (Scenario.lunCreated ++ [Scenario.fstypeRejected])
                      Scenario.lunDestroyed [] eq_refl eq_refl)).
Defined.

(** X2 on the run in which aggr1 is over its limit and aggr2 has no
    room. *)
Lemma Create_tries_pools_in_order_witness :
  let tr := Scenario.limitsChecked ++ [Scenario.volumeRejected] in
  let res :=
    (Demo.volConfig "1000",
     Some (BackendIneligibleError "vol1"
             [Errorf "ONTAP-SAN pool %s/%s; error: %v"
                [AStr "pool1"; AStr "aggr1";
                 AErr (OtherError "aggregate usage above the limit")];
              Errorf "ONTAP-SAN pool %s/%s; error creating volume %s: %v"
                [AStr "pool1"; AStr "aggr2"; AStr "vol1";
                 AErr (ZapiError "13001" "insufficient space")]]
             ["aggr1"; "aggr2"]%string)) in
  exec Scenario.create tr res
  /\ limitChecks tr = ["aggr1"; "aggr2"]%string
  /\ exists rest, ["aggr1"; "aggr2"]%string = limitChecks tr ++ rest.
Proof.
  intros tr res.
  assert (H : exec Scenario.create tr res).
  { apply (run_exec (Demo.answering Demo.noSpace) _ tt _ _ tt).
    reflexivity. }
  split; [exact H|]. split; [reflexivity|].
  exact (Create_tries_pools_in_order unit unit Demo.pkg (Demo.driver "csi")
           (Demo.volConfig "1000") Demo.storagePool tt tr res H).
Defined.

(** X3 on the same run: the volume create on aggr2 follows the limits
    check on aggr2. *)
Lemma Create_volume_after_limits_witness :
  let tr := Scenario.limitsChecked ++ [Scenario.volumeRejected] in
  let res :=
    (Demo.volConfig "1000",
     Some (BackendIneligibleError "vol1"
             [Errorf "ONTAP-SAN pool %s/%s; error: %v"
                [AStr "pool1"; AStr "aggr1";
                 AErr (OtherError "aggregate usage above the limit")];
              Errorf "ONTAP-SAN pool %s/%s; error creating volume %s: %v"
                [AStr "pool1"; AStr "aggr2"; AStr "vol1";
                 AErr (ZapiError "13001" "insufficient space")]]
             ["aggr1"; "aggr2"]%string)) in
  exec Scenario.create tr res
  /\ volumeCreateOn (callOf Scenario.volumeRejected) = Some "aggr2"%string
  /\ exists tr0 l,
       Scenario.limitsChecked = tr0 ++ [l]
       /\ limitsPassedOn "aggr2" l = true.
Proof.
  intros tr res.
  assert (H : exec Scenario.create tr res).
  { apply (run_exec (Demo.answering Demo.noSpace) _ tt _ _ tt).
    reflexivity. }
  split; [exact H|]. split; [reflexivity|].
  exact (Create_volume_after_limits unit unit Demo.pkg (Demo.driver "csi")
           (Demo.volConfig "1000") Demo.storagePool tt tr res H
           Scenario.limitsChecked Scenario.volumeRejected [] "aggr2"%string
           eq_refl eq_refl).
Defined.

(** X4 on the run in which the LUN cannot be created on either
    aggregate. *)
Lemma Create_same_request_witness :
  let res :=
    (Demo.volConfig "1000",
     Some (BackendIneligibleError "vol1"
             [Errorf "ONTAP-SAN pool %s/%s; error creating LUN %s: %v"
                [AStr "pool1"; AStr "aggr1"; AStr "vol1";
                 AErr (OtherError "no space left on aggregate")];
              Errorf "ONTAP-SAN pool %s/%s; error creating LUN %s: %v"
                [AStr "pool1"; AStr "aggr2"; AStr "vol1";
                 AErr (OtherError "no space left on aggregate")]]
             ["aggr1"; "aggr2"]%string)) in
  exec Scenario.create Scenario.lunsRejected res
  /\ existsb mutates (calls Scenario.lunsRejected) = true
  /\ exists sizeBytes spaceAllocation,
       forall e, In e Scenario.lunsRejected ->
         isLunCreate (callOf e) = true ->
         callOf e = lunCreateCall "vol1" sizeBytes spaceAllocation.
Proof.
  intros res.
  assert (H : exec Scenario.create Scenario.lunsRejected res).
  { apply (run_exec (Demo.answering Demo.lunCreateFails) _ tt _ _ tt).
    reflexivity. }
  split; [exact H|]. split; [reflexivity|].
  destruct (Create_same_request unit unit Demo.pkg (Demo.driver "csi")
              (Demo.volConfig "1000") Demo.storagePool tt
              Scenario.lunsRejected res H eq_refl)
    as (sizeBytes & ? & ? & ? & ? & ? & ? & ? & spaceAllocation & ? & _ & Hsame).
  exists sizeBytes, spaceAllocation.
  intros e Hin; exact (proj2 (Hsame e Hin)).
Defined.

(** X5 on a controller that first reports a Flexvol of 900 bytes, accepts
    the resize to 1000 and then reports 1000. *)
Lemma Create_reports_reread_size_witness :
  let tr :=
    Scenario.attributesSet ++ [Scenario.sizeAccepted; Scenario.sizeReread] in
  exec Scenario.create tr (Demo.volConfig "1000", None)
  /\ sizeSet Scenario.sizeAccepted = true
  /\ sizeRead Scenario.sizeReread = Some 1000
  /\ forall res,
       exec Scenario.create tr res ->
       res = (setSize (Demo.volConfig "1000")
                (GoInt.FormatUint (GoInt.uint64 1000)), None).
Proof.
  intros tr.
  assert (H : exec Scenario.create tr (Demo.volConfig "1000", None)).
  { apply (run_exec (Demo.sizing Demo.okReply) _
             [(900, None); (1000, None)] _ _ []).
    vm_compute; reflexivity. }
  split; [exact H|]. split; [reflexivity|]. split; [reflexivity|].
  intros res Hres.
  exact (proj1
    (Create_reports_reread_size unit unit Demo.pkg (Demo.driver "csi")
       (Demo.volConfig "1000") Demo.storagePool tt tr res Hres)
    Scenario.attributesSet Scenario.sizeAccepted Scenario.sizeReread 1000
    eq_refl eq_refl eq_refl).
Defined.

(** X6 on a controller that rounds the LUN size up to 2000002048: the
    Flexvol is set to that size and not to the requested one. *)
Lemma Resize_mutation_sequence_witness :
  exec Scenario.resize Scenario.resizeRounded (Demo.volConfig "2000002048", None)
  /\ filter mutates (calls Scenario.resizeRounded)
     = [VolumeSetSize "vol1" "2000000000";
        LunResize "/vol/vol1/lun0" 2000000000;
        VolumeSetSize "vol1" "2000002048"]
  /\ exists returnSize initialVolumeSize pre post,
       Scenario.resizeRounded
       = pre
         ++ Ev (LunResize "/vol/vol1/lun0" 2000000000) (returnSize, None)
         :: Ev (VolumeSize "vol1") (initialVolumeSize, None)
         :: post
       /\ returnSize <> GoInt.uint64 initialVolumeSize
       /\ filter mutates (calls Scenario.resizeRounded)
          = [VolumeSetSize "vol1" "2000000000";
             LunResize "/vol/vol1/lun0" 2000000000;
             VolumeSetSize "vol1" (GoInt.FormatUint returnSize)].
Proof.
  assert (H : exec Scenario.resize Scenario.resizeRounded
                   (Demo.volConfig "2000002048", None)).
  { apply (run_exec (Demo.answering Demo.rounding) _ tt _ _ tt).
    vm_compute; reflexivity. }
  split; [exact H|]. split; [reflexivity|].
  destruct (Resize_mutation_sequence unit unit Demo.pkg (Demo.driver "csi")
              (Demo.volConfig "1000") 2000000000 Scenario.resizeRounded _ H)
    as [Hm | [Hm | [Hm | Hm]]];
    [discriminate Hm | discriminate Hm | discriminate Hm | exact Hm].
Defined.

(** X7 on the same run: 2000000000 is not below the 1000 bytes of the
    Flexvol, outside the tolerance and within the limits. *)
Lemma Resize_grows_only_witness :
  let tr :=
    [Ev (checkAggregateLimitsForFlexvol "vol1" 2000000000) None;
     Ev (SupportsFeature "LUN_GEOMETRY_SKIP") true;
     Ev (VolumeSetSize "vol1" "2000000000") (Some Passed, None);
     Ev (LunResize "/vol/vol1/lun0" 2000000000) (2000002048, None);
     Ev (VolumeSize "vol1") (1000, None);
     Ev (VolumeSetSize "vol1" "2000002048") (Some Passed, None);
     Ev (VolumeSize "vol1") (1000, None)] in
  exec Scenario.resize
       (Ev (VolumeExists "vol1") (true, None)
        :: Ev (VolumeSize "vol1") (1000, None) :: tr)
       (Demo.volConfig "2000002048", None)
  /\ existsb mutates (calls tr) = true
  /\ GoInt.uint64 1000 <= 2000000000
  /\ fst (VolumeSizeWithinTolerance (GoInt.int64 2000000000)
            (GoInt.int64 1000) 50000000) = false.
Proof.
  intros tr.
  assert (H : exec Scenario.resize
                   (Ev (VolumeExists "vol1") (true, None)
                    :: Ev (VolumeSize "vol1") (1000, None) :: tr)
                   (Demo.volConfig "2000002048", None)).
  { apply (run_exec (Demo.answering Demo.rounding) _ tt _ _ tt).
    vm_compute; reflexivity. }
  split; [exact H|]. split; [reflexivity|].
  destruct (Resize_grows_only unit unit Demo.pkg (Demo.driver "csi")
              (Demo.volConfig "1000") 2000000000 1000 tr _ H eq_refl)
    as (Hle & Htol & _).
  split; [exact Hle | exact Htol].
Defined.

(** X8 on a LUN that cannot grow beyond 1500000000 bytes. *)
Lemma Resize_exceeds_lun_capacity_witness :
  let tr := Scenario.resizeChecked false ++ [Scenario.geometryRead] in
  let res :=
    (Demo.volConfig "1000",
     Some (Errorf "volume resize failed as requested size is larger than LUN's maximum capacity" [])) in
  exec Scenario.resize tr res
  /\ In Scenario.geometryRead tr
  /\ geometryMax Scenario.geometryRead = Some 1500000000
  /\ 1500000000 < GoInt.int 2000000000
  /\ existsb mutates (calls tr) = false.
Proof.
  intros tr res.
  assert (H : exec Scenario.resize tr res).
  { apply (run_exec (Demo.answering Scenario.smallGeometry) _ tt _ _ tt).
    vm_compute; reflexivity. }
  assert (Hin : In Scenario.geometryRead tr).
  { right; right; right; right; left; reflexivity. }
  assert (Hlt : 1500000000 < GoInt.int 2000000000) by (vm_compute; reflexivity).
  split; [exact H|]. split; [exact Hin|]. split; [reflexivity|].
  split; [exact Hlt|].
  exact (proj2 (proj1
    (Resize_exceeds_lun_capacity unit unit Demo.pkg (Demo.driver "csi")
       (Demo.volConfig "1000") 2000000000 tr res H)
    Scenario.geometryRead 1500000000 Hin eq_refl Hlt)).
Defined.

(** X9 on a controller whose LUN resize fails. *)
Lemma Resize_failed_mutation_is_fatal_witness :
  let tr := Scenario.flexvolGrown ++ Scenario.lunBusy :: [] in
  let res := (Demo.volConfig "1000", Some (Errorf "volume resize failed" [])) in
  exec Scenario.resize tr res
  /\ lunResizeFailed Scenario.lunBusy = true
  /\ filter mutates (calls Scenario.flexvolGrown)
     = [VolumeSetSize "vol1" (GoInt.FormatUint 2000000000)].
Proof.
  intros tr res.
  assert (H : exec Scenario.resize tr res).
  { apply (run_exec (Demo.answering Scenario.lunResizeFails) _ tt _ _ tt).
    vm_compute; reflexivity. }
  split; [exact H|]. split; [reflexivity|].
  exact (proj2 (proj2 (proj1
    (Resize_failed_mutation_is_fatal unit unit Demo.pkg (Demo.driver "csi")
       (Demo.volConfig "1000") 2000000000 tr res H)
    Scenario.flexvolGrown Scenario.lunBusy [] eq_refl eq_refl))).
Defined.

(** X10 in the Docker context, on a volume whose LUN is mapped. *)
Lemma Destroy_nil_cases_witness :
  let tr :=
    Scenario.mapsRead ++ [Scenario.hostTold; Scenario.flexvolDeleted] in
  exec (Destroy Demo.pkg (Demo.driver "docker") "vol1") tr None
  /\ (tr = [Ev (VolumeExists "vol1") (false, None)]
      \/ exists pre reply,
           tr = pre ++ [Ev (VolumeDestroy "vol1" true) reply]
           /\ (reply = (Some Passed, None)
               \/ exists reason,
                    reply = (Some (Failed "13040" reason), None))).
Proof.
  intros tr.
  assert (H : exec (Destroy Demo.pkg (Demo.driver "docker") "vol1") tr None).
  { apply (run_exec (Demo.answering Scenario.mapped) _ tt _ _ tt).
    reflexivity. }
  split; [exact H|].
  exact (Destroy_nil_cases unit unit Demo.pkg (Demo.driver "docker") "vol1"
           tr H).
Defined.

(** X11 on the same run, and outside the Docker context. *)
Lemma Destroy_single_forced_delete_witness :
  let tr1 := Scenario.mapsRead ++ [Scenario.hostTold] in
  let tr := [Ev (VolumeExists "vol1") (true, None); Scenario.flexvolDeleted] in
  exec (Destroy Demo.pkg (Demo.driver "docker") "vol1")
       (tr1 ++ Scenario.flexvolDeleted :: []) None
  /\ mutates (callOf Scenario.flexvolDeleted) = true
  /\ existsb mutates (calls tr1) = false
  /\ exec (Destroy Demo.pkg (Demo.driver "csi") "vol1") tr None
  /\ "csi"%string <> "docker"%string
  /\ (calls tr = [VolumeExists "vol1"]
      \/ calls tr = [VolumeExists "vol1"; VolumeDestroy "vol1" true]).
Proof.
  intros tr1 tr.
  assert (Hd : exec (Destroy Demo.pkg (Demo.driver "docker") "vol1")
                    (tr1 ++ Scenario.flexvolDeleted :: []) None).
  { apply (run_exec (Demo.answering Scenario.mapped) _ tt _ _ tt).
    reflexivity. }
  assert (Hc : exec (Destroy Demo.pkg (Demo.driver "csi") "vol1") tr None).
  { apply (run_exec (Demo.answering Demo.existing) _ tt _ _ tt).
    reflexivity. }
  assert (Hctx : "csi"%string <> "docker"%string) by discriminate.
  split; [exact Hd|]. split; [reflexivity|].
  split.
  { exact (proj2 (proj2 (proj1
      (Destroy_single_forced_delete unit unit Demo.pkg (Demo.driver "docker")
         "vol1" _ None Hd)
      tr1 Scenario.flexvolDeleted [] eq_refl eq_refl))). }
  split; [exact Hc|]. split; [exact Hctx|].
  exact (proj2
    (Destroy_single_forced_delete unit unit Demo.pkg (Demo.driver "csi")
       "vol1" tr None Hc) Hctx).
Defined.

(** X12 on the same run: the host is told to forget LUN 7. *)
Lemma Destroy_host_notification_witness :
  let tr :=
    Scenario.mapsRead ++ Scenario.hostTold :: [Scenario.flexvolDeleted] in
  exec (Destroy Demo.pkg (Demo.driver "docker") "vol1") tr None
  /\ deviceRemoval (callOf Scenario.hostTold)
     = Some (7, "iqn.1992-08.com.netapp:sn.1"%string)
  /\ DriverContext (Config (Demo.driver "docker")) = ContextDocker Demo.pkg
  /\ 0 <= 7.
Proof.
  intros tr.
  assert (H : exec (Destroy Demo.pkg (Demo.driver "docker") "vol1") tr None).
  { apply (run_exec (Demo.answering Scenario.mapped) _ tt _ _ tt).
    reflexivity. }
  split; [exact H|]. split; [reflexivity|].
  destruct (Destroy_host_notification unit unit Demo.pkg
              (Demo.driver "docker") "vol1" tr None H
              Scenario.mapsRead Scenario.hostTold [Scenario.flexvolDeleted]
              7 "iqn.1992-08.com.netapp:sn.1"%string eq_refl eq_refl)
    as (Hctx & Hid & _).
  split; [exact Hctx | exact Hid].
Defined.

(** X13 on the groups "other", "trident", "backup". *)
Lemma findLunID_last_match_witness :
  let other := {| InitiatorGroupName := "other"; LunId := 3 |} in
  let trident := {| InitiatorGroupName := "trident"; LunId := 7 |} in
  let backup := {| InitiatorGroupName := "backup"; LunId := 9 |} in
  findLunID (Demo.driver "docker") [other; trident; backup] = 7
  /\ findLunID (Demo.driver "docker") [other; backup] = -1.
Proof.
  intros other trident backup. split.
  - refine (proj1 (findLunID_last_match unit (Demo.driver "docker")
                     [other; trident; backup])
                  [other] trident [backup] eq_refl eq_refl _).
    intros g [<- | []]; discriminate.
  - refine (proj2 (findLunID_last_match unit (Demo.driver "docker")
                     [other; backup]) _).
    intros g [<- | [<- | []]]; discriminate.
Defined.

(** X14 on a volume whose LUN sits at the target path. *)
Lemma Import_unmanaged_reads_only_witness :
  let tr := Scenario.importRead "/vol/vol0/lun0" in
  let res := (setSize Scenario.unmanaged "1000", @None error) in
  ImportNotManaged Scenario.unmanaged = true
  /\ exec (Import Scenario.unmanaged "vol0") tr res
  /\ existsb mutates (calls tr) = false.
Proof.
  intros tr res.
  assert (H : exec (Import Scenario.unmanaged "vol0") tr res).
  { apply (run_exec (Demo.answering Demo.okReply) _ tt _ _ tt).
    reflexivity. }
  split; [reflexivity|]. split; [exact H|].
  exact (proj1 (Import_unmanaged_reads_only Scenario.unmanaged "vol0" tr res
                  eq_refl H)).
Defined.

(** X15 on a volume whose LUN is renamed before the rename of the
    Flexvol fails. *)
Lemma Import_managed_renames_witness :
  let tr1 := Scenario.importRead "/vol/vol0/lun1" ++ [Scenario.lunRenamed] in
  let res :=
    (Demo.volConfig "1000",
     Some (Errorf "volume %s rename failed: %v"
             [AStr "vol0"; AErr (ZapiError "13001" "name in use")])) in
  ImportNotManaged (Demo.volConfig EmptyString) = false
  /\ exec (Import (Demo.volConfig EmptyString) "vol0")
          (tr1 ++ Scenario.renameRejected :: []) res
  /\ renameFailed Scenario.renameRejected = true
  /\ snd res <> None.
Proof.
  intros tr1 res.
  assert (H : exec (Import (Demo.volConfig EmptyString) "vol0")
                   (tr1 ++ Scenario.renameRejected :: []) res).
  { apply (run_exec (Demo.answering Scenario.volumeRenameFails) _ tt _ _ tt).
    reflexivity. }
  split; [reflexivity|]. split; [exact H|]. split; [reflexivity|].
  exact (proj2 (proj2 (proj2
    (Import_managed_renames (Demo.volConfig EmptyString) "vol0" _ res
       eq_refl H))
    tr1 Scenario.renameRejected [] eq_refl eq_refl)).
Defined.

(** X16 on the same run: the size of the LUN is adopted although the
    import fails. *)
Lemma Import_adopts_lun_size_witness :
  let tr := [Scenario.lunRenamed; Scenario.renameRejected] in
  let res :=
    (Demo.volConfig "1000",
     Some (Errorf "volume %s rename failed: %v"
             [AStr "vol0"; AErr (ZapiError "13001" "name in use")])) in
  importRun (Demo.volConfig EmptyString) "vol0" Scenario.flexvolRw
            (Scenario.lunAt "/vol/vol0/lun1") tr res
  /\ (tr <> [] \/ snd res = None)
  /\ exists size,
       SizePtr (Scenario.lunAt "/vol/vol0/lun1") = Some size
       /\ fst res = setSize (Demo.volConfig EmptyString)
                      (GoInt.FormatInt (GoInt.int64 size)).
Proof.
  intros tr res.
  assert (H : importRun (Demo.volConfig EmptyString) "vol0" Scenario.flexvolRw
                        (Scenario.lunAt "/vol/vol0/lun1") tr res).
  { apply (run_exec (Demo.answering Scenario.volumeRenameFails) _ tt _ _ tt).
    reflexivity. }
  assert (Hran : tr <> [] \/ snd res = None) by (left; discriminate).
  split; [exact H|]. split; [exact Hran|].
  exact (proj2 (proj2 (proj2
    (Import_adopts_lun_size (Demo.volConfig EmptyString) "vol0"
       Scenario.flexvolRw (Scenario.lunAt "/vol/vol0/lun1") tr res H Hran)))).
Defined.

(** X17 on the volume trident_pvc1 and the prefix trident_. *)
Lemma getVolumeExternal_strips_prefix_witness :
  let lun :=
    {| Inventory.PathPtr := "/vol/trident_pvc1/lun0";
       Inventory.VolumePtr := "trident_pvc1";
       Inventory.SizePtr := 1000 |} in
  let volume :=
    {| Inventory.VolumeIdAttributesPtr :=
         {| Inventory.NamePtr := "trident_pvc1";
            Inventory.ContainingAggregateNamePtr := "aggr1" |};
       Inventory.VolumeSnapshotAttributesPtr :=
         {| Inventory.SnapshotPolicyPtr := "none" |} |} in
  let v := Inventory.getVolumeExternal "trident_" lun volume in
  Inventory.HasPrefix "trident_pvc1" "trident_" = true
  /\ ("trident_" ++ Inventory.Name (Inventory.Config v))%string
     = "trident_pvc1"%string
  /\ Inventory.Name (Inventory.Config v) = "pvc1"%string.
Proof.
  intros lun volume v.
  split; [reflexivity|]. split; [|reflexivity].
  exact (proj1 (proj2
    (getVolumeExternal_strips_prefix "trident_" lun volume)) eq_refl).
Defined.

(** X18 on a controller whose read of the LUNs fails. *)
Lemma GetVolumeExternalWrappers_error_or_volumes_witness :
  GetError Inventory.volumesStatus
           (fst (Scenario.VolumeGetAll "trident_"))
           (snd (Scenario.VolumeGetAll "trident_")) = None
  /\ GetError Inventory.lunsStatus
              (fst (Scenario.LunGetAllFails "/vol/trident_*/lun0"))
              (snd (Scenario.LunGetAllFails "/vol/trident_*/lun0"))
     = Some (OtherError "connection refused")
  /\ Inventory.GetVolumeExternalWrappers "trident_" Scenario.VolumeGetAll
                                         Scenario.LunGetAllFails
     = [ {| Inventory.Volume := None;
            Inventory.Error := Some (OtherError "connection refused") |} ].
Proof.
  split; [reflexivity|]. split; [reflexivity|].
  exact (proj1 (proj2
    (GetVolumeExternalWrappers_error_or_volumes "trident_"
       Scenario.VolumeGetAll Scenario.LunGetAllFails))
    (OtherError "connection refused") eq_refl eq_refl).
Defined.

(** X19 on two volumes and three LUNs, one of them in a volume that was
    not reported. *)
Lemma GetVolumeExternalWrappers_correlates_witness :
  Scenario.VolumeGetAll "trident_" = (Some Scenario.volumesResponse, None)
  /\ Inventory.volumesStatus Scenario.volumesResponse = Passed
  /\ Inventory.VolumeAttributesPtr Scenario.volumesResponse
     = Some Scenario.volumes
  /\ Scenario.LunGetAll "/vol/trident_*/lun0"
     = (Some Scenario.lunsResponse, None)
  /\ Inventory.lunsStatus Scenario.lunsResponse = Passed
  /\ Inventory.LunInfoPtr Scenario.lunsResponse = Some Scenario.luns
  /\ Inventory.volumeNames
       (Inventory.GetVolumeExternalWrappers "trident_" Scenario.VolumeGetAll
                                            Scenario.LunGetAll)
     = ["trident_pvc2"; "trident_pvc1"]%string.
Proof.
  repeat (split; [reflexivity|]).
  exact (proj1
    (GetVolumeExternalWrappers_correlates "trident_" Scenario.VolumeGetAll
       Scenario.LunGetAll Scenario.volumesResponse Scenario.lunsResponse
       Scenario.volumes Scenario.luns
       eq_refl eq_refl eq_refl eq_refl eq_refl eq_refl)).
Defined.

(** ** Updates of the backend *)

(** X20. What [GetUpdateType] reports.  For a driver of another type the
    bitmap holds [InvalidUpdate] and nothing else.  For a SAN driver it
    never holds [InvalidUpdate]; it holds the flag of a field exactly
    when the two configurations differ in that field, so it is empty
    exactly when data LIF, password and user name are the same; and it
    does not depend on which of the two drivers is the original. *)
Theorem GetUpdateType_flags (d : Update.Credentials) :
  (forall f, Update.GetUpdateType d None f = true <-> f = Update.InvalidUpdate)
  /\ (forall dOrig,
        Update.GetUpdateType d (Some dOrig) Update.InvalidUpdate = false
        /\ (Update.GetUpdateType d (Some dOrig) Update.VolumeAccessInfoChange
            = true <-> Update.DataLIF d <> Update.DataLIF dOrig)
        /\ (Update.GetUpdateType d (Some dOrig) Update.PasswordChange = true
            <-> Update.Password d <> Update.Password dOrig)
        /\ (Update.GetUpdateType d (Some dOrig) Update.UsernameChange = true
            <-> Update.Username d <> Update.Username dOrig)
        /\ ((forall f, Update.GetUpdateType d (Some dOrig) f = false)
            <-> d = dOrig)
        /\ (forall f, Update.GetUpdateType d (Some dOrig) f
                      = Update.GetUpdateType dOrig (Some d) f)).
Proof.
  split.
  - intros f; destruct f; cbv; split; intros; congruence.
  - intros dOrig.
    destruct d as [lif pw user], dOrig as [lif' pw' user'].
    unfold Update.GetUpdateType, Update.Add, Update.New; simpl.
    rewrite (String.eqb_sym lif' lif), (String.eqb_sym pw' pw),
      (String.eqb_sym user' user).
    destruct (String.eqb_spec lif lif') as [Hl|Hl],
             (String.eqb_spec pw pw') as [Hp|Hp],
             (String.eqb_spec user user') as [Hu|Hu]; simpl;
      (split; [reflexivity|]);
      (split; [split; intros; congruence|]);
      (split; [split; intros; congruence|]);
      (split; [split; intros; congruence|]);
      (split; [|intros f; destruct f; reflexivity]);
      (split;
       [ intros Hall;
         first [ congruence
               | discriminate (Hall Update.VolumeAccessInfoChange)
               | discriminate (Hall Update.PasswordChange)
               | discriminate (Hall Update.UsernameChange) ]
       | intros Heq; first [ congruence | intros f; destruct f; reflexivity ] ]).
Qed.
